(* ===== verification/_CoqProject ===== *)
-Q . S2P
Prelude.v
Schema.v
Crypto.v
Sql.v
Auth.v
Users.v
Catalog.v
Cart.v
Orders.v
Server.v
Concurrency.v
Browse.v
JsonText.v
MyOrders.v
ClientCart.v
AuthContext.v
BookDetail.v
Checkout.v
Forms.v
NavBar.v
