(* ===== verification/Prelude.v ===== *)
(** * A verification development of the BookStore web application

    The repository is an Express/MySQL server ([src/server/index.js],
    [src/server/db.js]) with a React client ([src/client/src/...]).  The
    server keeps all its state in five MySQL tables (users, books, cart,
    orders, order_items) reached through ONE shared mysql2 connection; each
    HTTP handler is a chain of callbacks, one SQL statement per callback.
    The client keeps a small session state ([AuthContext.jsx]) and computes
    cart totals, the checkout payload and the catalogue view.

    Files (in dependency order, see _CoqProject), with the Module that
    models each part and the claims (C<n>) proved about it:
    - [Prelude] (this file): [bookstore_scope], the hint databases
      [bookstore] and [bookstore_rw], the tactics [invc], [reflect_bools]
      and [case_test], generic lemmas on filters and maps, [sumZ].
    - [Schema]: the rows of the five tables (Modules [UserRow], [BookRow],
      [CartRow], [OrderRow], [OrderItemRow], [Shipping]) and a table as
      an id-ordered list with its AUTO_INCREMENT counter; select, insert,
      update, delete, restore; the id discipline [tbl_wf] and its
      preservation by each operation.
    - [Crypto]: bcryptjs and jsonwebtoken as the classes [Bcrypt] and
      [Jwt] with their laws (a hash that reads the first 72 bytes of a
      password, as bcryptjs does, and is collision-free on them;
      unforgeable expiring tokens) and a computable test instance of
      each.
    - [Sql]: every SQL string of index.js as a constructor of the typed
      inductive [sql A] with its meaning [exec] (UNIQUE email and the
      order_items foreign keys enforced); the shared connection [conn]
      of db.js with its transaction snapshot, fault schedule, clock and
      salt; a handler's callback chain as a [prog] tree and its
      execution [run]; content equivalence [db_equiv] (a setoid) and the
      invariant that every program preserves [db_wf] ([run_wf]).
    - [Auth] (Module [AuthMw]): [authenticateToken] and the header
      parsing with the semantics of JavaScript's [split(' ')]; failure
      has no effect (C7), valid tokens are accepted (C8), the bearer
      header round trip (C20).
    - [Users] (Module [UsersApi]): register, login, password change and
      profile: login soundness and token lifetime (C6, C14), register
      (C18), a registered email refused (C10), password change on each
      branch: the new digest accepts exactly the passwords sharing its
      first 72 bytes (C15), a wrong current password changes nothing
      (C21), a deleted user crashes the handler (C19).
    - [Catalog] (Module [CatalogApi]): GET /api/books and /api/books/:id.
    - [Cart] (Module [CartApi]): the four cart handlers; refinement of
      the cart table by a per-user bag (C3), uniqueness of (user, book)
      lines (C4), deletion of an absent line answers 200 (C37),
      non-positive quantities accepted (C23).
    - [Orders] (Module [OrdersApi]): the order transaction, atomic under
      every fault schedule (C1), its preconditions (C11); the history
      query: members, of which no order without items (C9), price
      snapshot (C12), newest-first order (C13).
    - [Server] (Module [Server]): the route table [app], protected
      routes behind [authenticateToken], requests served in sequence by
      [run_all]; any user can delete another user's cart line (C5);
      every answer of every route has the status and JSON shape the
      client expects of it ([response_ok], C40), proved through
      [leaves], a predicate on all the answers of a callback chain.
    - [Concurrency] (Module [Concurrency]): concurrent requests on the
      one connection as schedules of event-loop turns ([step1],
      [interleave]); a request served alone behaves as [run]
      ([interleave_alone]); two
      concurrent adds duplicate a cart line (C29); an order's rollback
      undoes another request's acknowledged write (C30); when the event
      loop takes the pending requests in turn, every request of a batch
      has its answer after seven rounds ([round_robin_answers]; a crash
      of PUT /api/users/password counts there as an answer, while Node
      stops the process).
    - [Browse] (Module [BrowsePage]): Browse.jsx's page state and events
      ([Page.step], with the refresh effect), its search and category
      filter and its comparator sort (a stable insertion sort); the
      books shown, stated on the characters with ASCII case folding
      ([occurs_ci], C32), the order of each sort key (C33), the shown
      list is exactly the stable sort ECMAScript specifies, so any
      stable sort the browser uses gives it (equivalence, C34), and the
      default "Newest" lists the oldest book first (C35).
    - [JsonText] (Module [JsonText]): JSON text as the server writes it
      ([JSON.stringify] of the shipping address, index.js 222) and the
      order page reads it ([JSON.parse], MyOrders.jsx 36 and 48): the
      printer, and a recursive-descent parser written as one step
      ([value_body], [elems_body], [members_body]) iterated with fuel;
      fuel 2n+1 is enough for a text of n characters and more fuel
      changes nothing ([parse_fuel_enough]); parse inverts stringify on
      values with distinct object keys ([parse_stringify]).  These are
      facts of the ECMAScript builtins the code calls, used by the
      order page's theorem (C39).
    - [MyOrders] (Module [OrdersPage]): MyOrders.jsx's processing of each
      order and the text of its card, with JavaScript's [||], [String]
      and [toFixed(2)], run on the rows GET /api/orders sends: the card
      shows the address entered at checkout and each item's line, an
      item of quantity 0 priced as one copy (C39); the page's fetch and
      view, a failed fetch shown as an empty history
      ([failed_fetch_shows_no_orders]).
    - [ClientCart] (Module [CartPage]): cart.jsx's page state, view and
      summary (the tax row prints 1.50 as "1.5",
      [js_money_toFixed2]); its buttons as the request sequences they
      send;
      "Clear Cart" removes exactly the displayed lines in any order of
      arrival of its parallel deletions (C26).
    - [AuthContext] (Module [Session]): the session provider as a state
      machine [step] over user, token, cart count, localStorage and the
      axios header; the header invariant (C27) and its violation by a
      failed login (C28).
    - [BookDetail] (Modules [Stars], [BookCard], [DetailPage]): the
      stars of BookCard.jsx and BookDetail.jsx, the full ones the
      rating to the nearest star clamped to 0..5 (C16); the detail page
      as a [step] function over its events (the load answer, "-", "+",
      "Add to Cart" and its answer, "Buy Now") with the [requests] each
      sends; the quantity stays at least 1, so no client page asks for
      fewer than one copy (C25, with the cart page's buttons).
    - [Checkout] (Module [CheckoutPage]): Checkout.jsx's items, subtotal,
      tax, forms and [handleSubmit] through the route table; tax to the
      nearest cent; "Buy Now" places exactly the order of the
      page's book and quantity, empties the cart and resets the navbar
      count (C17); the checkout from the cart records the cart line id
      as the book id, for every store and cart (C2).
    - [Forms] (Modules [Calls], [SignupPage], [LoginPage]): the signup
      and login pages' forms, checks and [handleSubmit], and what the
      provider's [signup] and [login] make of the server's answer (axios
      rejecting non-2xx statuses); run against the server, the signup
      page refuses mismatched and short passwords without a request and
      otherwise creates the user or shows "User already exists" (C22);
      the login page shows only the server's error texts
      (C38), never has two logins in flight and labels its button
      "Logging in..." exactly while one is (C31), and every login in
      flight ends, the server always answering POST /api/login
      (liveness, C36); the provider's
      [changePassword], which no page calls, ends in success or one of
      the handler's error texts ([changePassword_outcomes]).
    - [NavBar] (Modules [Routes], [NavBar]): App.jsx's route table and
      the navbar's handlers and view over the session: logging out
      shows the logged-out bar ([logout_view]); every path a page
      navigates to is routed ([client_navigation_routed]); the link of
      a book in Browse.jsx is routed to the detail page, whose request
      GET /api/books/:id (the id read back by MySQL's cast) answers
      with that book, which the page then shows (C24).

    Modelling choices.  Ids are [nat]; money is [Z] in cents and the
    client's [toFixed(2)] rounding of a tax is rounding half up to the
    cent (binary floating point is not modelled); strings are ASCII,
    so [toLowerCase] folds A-Z only; JSON bodies are typed
    records, so JavaScript type confusion (a quantity sent as a string)
    is out of scope.  A fault schedule (a list of booleans, one per
    statement) decides which statements fail, so every theorem about
    errors holds for all schedules.  Programs are finite trees, so [run]
    is structurally recursive and needs no fuel; the JSON parser is the
    one fuelled definition (each step consumes a character or descends
    one level, hence the bound 2n+1 of [parse_fuel_enough]); all other definitions are
    structural recursions over lists.  JSON numbers are integers (the
    server's amounts are cents; a fraction or an exponent is refused by
    the model) and [\u] escapes are read below 256 only.  Rows are returned in
    primary-key order, and ORDER BY sorts stably.

    Not modelled: the markup of the client's pages beyond the texts
    and navigation targets the theorems name (the static Link
    elements of the navbar and of the forms are only targets of the
    route table); Footer and PrivateRoute, which App.jsx
    imports but the repository does not contain (PrivateRoute is a
    parameter of [Routes.route]); the date formatting and total line of
    MyOrders.jsx and the price labels of BookDetail.jsx; the internals
    of bcryptjs, jsonwebtoken, express and
    mysql2 (stated as interfaces or as the statement semantics); MySQL's
    case-insensitive collation of emails.  Concurrency is modelled by
    explicit schedules in [Concurrency]; the theorems of the other files
    are about requests served one at a time, which [interleave_alone] connects to the
    interleaved semantics. *)

From stdpp Require Export base list strings.
From Stdlib Require Export ZArith Lia.

Declare Scope bookstore_scope.
Delimit Scope bookstore_scope with bs.
Open Scope bookstore_scope.

Create HintDb bookstore discriminated.
Create Rewrite HintDb bookstore_rw.

(** ** Tactics *)

(** Invert a hypothesis and clean up. *)
Ltac invc H := inversion H; subst; clear H.

(** Turn boolean equalities of the code into propositions. *)
Ltac reflect_bools :=
  repeat match goal with
  | H : (_ =? _)%nat = true |- _ => apply Nat.eqb_eq in H
  | H : (_ =? _)%nat = false |- _ => apply Nat.eqb_neq in H
  | H : (_ =? _)%Z = true |- _ => apply Z.eqb_eq in H
  | H : (_ =? _)%Z = false |- _ => apply Z.eqb_neq in H
  | H : String.eqb _ _ = true |- _ => apply String.eqb_eq in H
  | H : String.eqb _ _ = false |- _ => apply String.eqb_neq in H
  | H : (_ && _)%bool = true |- _ => apply andb_prop in H as [? ?]
  | H : negb _ = true |- _ => apply negb_true_iff in H
  | H : negb _ = false |- _ => apply negb_false_iff in H
  end.

(** Case on the first boolean test of the goal, remembering its value. *)
Ltac case_test :=
  match goal with
  | |- context [if ?b then _ else _] => destruct b eqn:?
  end.

(** ** Generic lemmas on lists *)

Section ListFacts.
Context {A : Type}.

Lemma filter_false_nil (p : A -> bool) (l : list A) :
  (forall x, In x l -> p x = false) -> List.filter p l = [].
Proof.
  induction l as [|x l IH]; intros H; simpl; [done|].
  rewrite H by (left; done). apply IH. intros y Hy. apply H. by right.
Qed.

Lemma filter_nil_false (p : A -> bool) (l : list A) x :
  List.filter p l = [] -> In x l -> p x = false.
Proof.
  intros Hnil Hin. destruct (p x) eqn:E; [|done].
  assert (In x (List.filter p l)) as Hf by (apply filter_In; done).
  rewrite Hnil in Hf. done.
Qed.

Lemma filter_ext_in (p q : A -> bool) (l : list A) :
  (forall x, In x l -> p x = q x) -> List.filter p l = List.filter q l.
Proof.
  induction l as [|x l IH]; intros H; simpl; [done|].
  rewrite H by (left; done). destruct (q x); [f_equal|]; apply IH;
    intros y Hy; apply H; by right.
Qed.

Lemma filter_filter_and (p q : A -> bool) (l : list A) :
  List.filter p (List.filter q l) = List.filter (fun x => q x && p x) l.
Proof.
  induction l as [|x l IH]; simpl; [done|].
  destruct (q x); simpl; [destruct (p x); simpl|]; rewrite ?IH; done.
Qed.

Lemma existsb_false_forall (p : A -> bool) (l : list A) :
  (forall x, In x l -> p x = false) -> existsb p l = false.
Proof.
  induction l as [|x l IH]; intros H; simpl; [done|].
  rewrite H by (left; done). apply IH. intros y Hy. apply H. by right.
Qed.

(** A SELECT ... WHERE p is empty exactly when no row satisfies p. *)
Lemma filter_nil_existsb (p : A -> bool) (l : list A) :
  List.filter p l = [] <-> existsb p l = false.
Proof.
  induction l as [|x l IH]; simpl; [done|].
  destruct (p x); simpl; [done|exact IH].
Qed.

(** UPDATE ... WHERE p followed by SELECT ... WHERE p, when the update
    keeps p. *)
Lemma filter_map_update (p : A -> bool) (f : A -> A) (l : list A) :
  (forall x, p (f x) = p x) ->
  List.filter p (List.map (fun x => if p x then f x else x) l) = List.map f (List.filter p l).
Proof.
  intros Hf. induction l as [|x l IH]; simpl; [done|].
  destruct (p x) eqn:E; simpl; rewrite ?Hf, ?E, IH; done.
Qed.

Lemma map_ext_in_id (f : A -> A) (l : list A) :
  (forall x, In x l -> f x = x) -> List.map f l = l.
Proof.
  induction l as [|x l IH]; intros H; simpl; [done|].
  rewrite H by (left; done). f_equal. apply IH. intros y Hy. apply H. by right.
Qed.
End ListFacts.

#[export] Hint Resolve filter_false_nil map_ext_in_id : bookstore.

(** ** Sums of integers *)

Definition sumZ (l : list Z) : Z := List.fold_right Z.add 0%Z l.

Lemma sumZ_app l1 l2 : sumZ (l1 ++ l2) = (sumZ l1 + sumZ l2)%Z.
Proof. induction l1 as [|x l IH]; simpl; [done|]. rewrite IH. lia. Qed.

Lemma sumZ_cons x l : sumZ (x :: l) = (x + sumZ l)%Z.
Proof. done. Qed.

#[export] Hint Rewrite sumZ_app sumZ_cons : bookstore_rw.
