(* ===== verification/Schema.v ===== *)
(** * The relational schema of the store

    The rows of the five MySQL tables the server reads and writes, one
    Record per table with the columns index.js names, and a table as the
    list of its rows in primary-key order together with its AUTO_INCREMENT
    counter.  The table operations are the four statement shapes the
    server uses (SELECT ... WHERE, INSERT, UPDATE ... WHERE, DELETE ...
    WHERE); [tbl_wf] says that the ids of a table are strictly increasing,
    at least 1 and below the counter, and every operation preserves it. *)

From S2P Require Import Prelude.

(** ** Rows *)

Module UserRow.
(** users: id, name, email, password (a bcrypt digest), created_at. *)
Record t := mk { id : nat; name : string; email : string;
                 password : string; created_at : Z }.
End UserRow.

Module BookRow.
(** books: the catalogue; price in cents, rating in tenths of a star. *)
Record t := mk { id : nat; title : string; author : string;
                 category : string; price : Z; stock : Z; rating : Z;
                 reviews : Z; image_url : option string;
                 description : string }.
End BookRow.

Module CartRow.
(** cart: one line of a user's cart. *)
Record t := mk { id : nat; user_id : nat; book_id : nat; quantity : Z }.
End CartRow.

Module Shipping.
(** The [shipping] object of Checkout.jsx, stored as JSON text in
    orders.shipping_address. *)
Record t := mk { name : string; email : string; address : string;
                 city : string; zipCode : string; phone : string }.
End Shipping.

Module OrderRow.
(** orders: total in cents; order_date is the insertion timestamp;
    the two status columns are never written by the server (NULL,
    which MyOrders.jsx renders as 'processing' and 'pending'). *)
Record t := mk { id : nat; user_id : nat; total_amount : Z;
                 shipping_address : Shipping.t; order_date : Z;
                 order_status : option string; payment_status : option string }.
End OrderRow.

Module OrderItemRow.
(** order_items: the price is the one sent by the client. *)
Record t := mk { id : nat; order_id : nat; book_id : nat;
                 quantity : Z; price : Z }.
End OrderItemRow.

(** ** Tables *)

Record table (R : Type) := mkTable { t_rows : list R; t_next : nat }.
Arguments mkTable {R}.
Arguments t_rows {R}.
Arguments t_next {R}.

(** An empty table: AUTO_INCREMENT starts at 1. *)
Definition tbl_empty {R} : table R := mkTable [] 1.

(** [ids_from lo hi l]: the ids [l] are strictly increasing, the first is
    at least [lo] and all are below [hi]. *)
Fixpoint ids_from (lo hi : nat) (l : list nat) : bool :=
  match l with
  | [] => true
  | i :: l' => (lo <=? i) && (i <? hi) && ids_from (S i) hi l'
  end.

Section Table.
Context {R : Type} (rid : R -> nat).

(** SELECT * FROM t WHERE p: rows in primary-key order. *)
Definition tbl_select (p : R -> bool) (t : table R) : list R :=
  List.filter p (t_rows t).

(** INSERT: the new row gets the counter as its id. *)
Definition tbl_insert (mk : nat -> R) (t : table R) : nat * table R :=
  (t_next t, mkTable (t_rows t ++ [mk (t_next t)]) (S (t_next t))).

(** UPDATE t SET ... WHERE p. *)
Definition tbl_update (p : R -> bool) (f : R -> R) (t : table R) : table R :=
  mkTable (List.map (fun r => if p r then f r else r) (t_rows t)) (t_next t).

(** DELETE FROM t WHERE p. *)
Definition tbl_delete (p : R -> bool) (t : table R) : table R :=
  mkTable (List.filter (fun r => negb (p r)) (t_rows t)) (t_next t).

(** ROLLBACK restores the rows of the snapshot; InnoDB does not give
    back AUTO_INCREMENT values, so the counter is kept. *)
Definition tbl_restore (snap cur : table R) : table R :=
  mkTable (t_rows snap) (t_next cur).

Definition tbl_ids (t : table R) : list nat := List.map rid (t_rows t).

Definition tbl_wf (t : table R) : Prop :=
  1 <= t_next t /\ ids_from 1 (t_next t) (tbl_ids t) = true.
End Table.

(** ** Id discipline *)

Lemma ids_from_weaken lo lo' hi hi' l :
  lo' <= lo -> hi <= hi' -> ids_from lo hi l = true -> ids_from lo' hi' l = true.
Proof.
  revert lo lo'. induction l as [|i l IH]; intros lo lo' Hlo Hhi H; simpl in *; [done|].
  reflect_bools. apply Nat.leb_le in H. apply Nat.ltb_lt in H1.
  rewrite (proj2 (Nat.leb_le _ _)) by lia. rewrite (proj2 (Nat.ltb_lt _ _)) by lia.
  simpl. eapply IH; [| |done]; lia.
Qed.

Lemma ids_from_In lo hi l i :
  ids_from lo hi l = true -> In i l -> lo <= i < hi.
Proof.
  revert lo. induction l as [|j l IH]; intros lo H Hin; [done|]. simpl in *.
  reflect_bools. apply Nat.leb_le in H. apply Nat.ltb_lt in H1.
  destruct Hin as [<-|Hin]; [lia|]. specialize (IH _ H0 Hin). lia.
Qed.

Lemma ids_from_NoDup lo hi l : ids_from lo hi l = true -> NoDup l.
Proof.
  revert lo. induction l as [|i l IH]; intros lo H; [constructor|]. simpl in H.
  reflect_bools. constructor; [|by eapply IH].
  rewrite list_elem_of_In. intros Hin. pose proof (ids_from_In _ _ _ _ H0 Hin). lia.
Qed.

Lemma ids_from_snoc lo hi l :
  lo <= hi -> ids_from lo hi l = true -> ids_from lo (S hi) (l ++ [hi]) = true.
Proof.
  revert lo. induction l as [|i l IH]; intros lo Hle H; simpl in *.
  - rewrite (proj2 (Nat.leb_le _ _)) by lia. rewrite (proj2 (Nat.ltb_lt _ _)) by lia. done.
  - reflect_bools. apply Nat.leb_le in H. apply Nat.ltb_lt in H1.
    rewrite (proj2 (Nat.leb_le _ _)) by lia. rewrite (proj2 (Nat.ltb_lt _ _)) by lia.
    simpl. apply IH; [lia|done].
Qed.

Section TableFacts.
Context {R : Type} (rid : R -> nat).

Lemma ids_from_filter lo hi (p : R -> bool) rows :
  ids_from lo hi (List.map rid rows) = true ->
  ids_from lo hi (List.map rid (List.filter p rows)) = true.
Proof.
  revert lo. induction rows as [|r rows IH]; intros lo H; simpl in *; [done|].
  reflect_bools. destruct (p r); simpl.
  - rewrite H, H1. simpl. by apply IH.
  - apply Nat.leb_le in H. eapply ids_from_weaken, IH, H0; lia.
Qed.

(** The shape of an insert once [tbl_insert] is unfolded. *)
Lemma tbl_snoc_wf (r : R) t :
  rid r = t_next t -> tbl_wf rid t -> tbl_wf rid (mkTable (t_rows t ++ [r]) (S (t_next t))).
Proof.
  intros Hr [Hn Hids]. unfold tbl_wf, tbl_ids in *; simpl. split; [lia|].
  rewrite List.map_app; simpl. rewrite Hr. by apply ids_from_snoc.
Qed.

Lemma tbl_insert_wf (mk : nat -> R) t :
  (forall n, rid (mk n) = n) -> tbl_wf rid t -> tbl_wf rid (snd (tbl_insert mk t)).
Proof. intros Hmk Ht. by apply tbl_snoc_wf. Qed.

Lemma tbl_update_wf p f t :
  (forall r, rid (f r) = rid r) -> tbl_wf rid t -> tbl_wf rid (tbl_update p f t).
Proof.
  intros Hf [Hn Hids]. unfold tbl_wf, tbl_ids in *; simpl. split; [done|].
  rewrite List.map_map.
  erewrite List.map_ext; [exact Hids|]. intros r. by destruct (p r).
Qed.

Lemma tbl_delete_wf p t : tbl_wf rid t -> tbl_wf rid (tbl_delete p t).
Proof.
  intros [Hn Hids]. split; [done|]. by apply ids_from_filter.
Qed.

Lemma tbl_restore_wf snap cur :
  t_next snap <= t_next cur -> tbl_wf rid snap -> tbl_wf rid (tbl_restore snap cur).
Proof.
  intros Hle [Hn Hids]. split; simpl; [lia|]. eapply ids_from_weaken, Hids; lia.
Qed.

Lemma tbl_wf_NoDup t : tbl_wf rid t -> NoDup (tbl_ids rid t).
Proof. intros [_ H]. by eapply ids_from_NoDup. Qed.

(** A fresh id is not in use. *)
Lemma tbl_next_fresh t r :
  tbl_wf rid t -> In r (t_rows t) -> rid r < t_next t.
Proof.
  intros [_ H] Hin. eapply ids_from_In; [exact H|]. apply in_map, Hin.
Qed.
(** SELECT ... WHERE id = ? finds exactly the row with that id. *)
Lemma tbl_select_id t r :
  tbl_wf rid t -> In r (t_rows t) -> tbl_select (fun x => rid x =? rid r) t = [r].
Proof.
  intros Hwf Hin. apply tbl_wf_NoDup in Hwf. unfold tbl_select, tbl_ids in *.
  induction (t_rows t) as [|a rows IH]; [done|]. cbn in Hwf |- *.
  apply NoDup_cons in Hwf as [Hnot Hnd].
  destruct (rid a =? rid r) eqn:E; reflect_bools.
  - destruct Hin as [->|Hin]; [|exfalso; apply Hnot, list_elem_of_In; rewrite E; by apply in_map].
    f_equal. apply filter_false_nil. intros x Hx. apply Nat.eqb_neq. intros Hx'.
    apply Hnot, list_elem_of_In. rewrite <- Hx'. by apply in_map.
  - destruct Hin as [->|Hin]; [lia|]. by apply IH.
Qed.

End TableFacts.

#[export] Hint Resolve tbl_snoc_wf tbl_insert_wf tbl_update_wf tbl_delete_wf tbl_restore_wf : bookstore.
