(* ===== verification/Crypto.v ===== *)
(** * Interfaces of the cryptographic libraries the server calls

    index.js calls bcryptjs ([bcrypt.hash(password, 10)],
    [bcrypt.compare]) and jsonwebtoken ([jwt.sign], [jwt.verify]).  Their
    code is not part of the repository; this file states what the server
    relies on as type classes with laws (a hash reading only the first
    72 bytes of a password, collision-free on those; unforgeable,
    expiring tokens), so the handlers' theorems hold for
    every implementation satisfying them.  One small test instance of
    each class makes the witnesses computable. *)

From Stdlib Require Import Ascii.
From S2P Require Import Prelude.

(** ** bcrypt *)

(** bcryptjs hashes at most 72 bytes of a password and ignores the rest
    (the Blowfish key schedule takes 72 bytes).  Strings are ASCII in
    this development, one byte per character, so the bytes it uses are
    the first 72 characters. *)
Definition bcrypt_max_bytes : nat := 72.

Definition bcrypt_key (pw : string) : string := String.substring 0 bcrypt_max_bytes pw.

(** [bcrypt_hash salt pw] is the digest [bcrypt.hash] stores; the salt is
    the random part of a call, drawn by the runtime.  [bcrypt.compare]
    accepts a password exactly when its first 72 bytes are those of the
    hashed one: the laws idealise the hash as collision-free on the
    bytes it reads, and no further. *)
Class Bcrypt := {
  bcrypt_hash : nat -> string -> string;
  bcrypt_compare : string -> string -> bool;
  bcrypt_compare_key : forall salt pw pw',
    bcrypt_key pw' = bcrypt_key pw -> bcrypt_compare pw' (bcrypt_hash salt pw) = true;
  bcrypt_compare_sound : forall salt pw pw',
    bcrypt_compare pw' (bcrypt_hash salt pw) = true -> bcrypt_key pw' = bcrypt_key pw
}.

Lemma bcrypt_compare_hash `{Bcrypt} salt pw : bcrypt_compare pw (bcrypt_hash salt pw) = true.
Proof. by apply bcrypt_compare_key. Qed.

(** A test double: the digest is the key behind a marker. *)
#[export] Program Instance test_bcrypt : Bcrypt := {
  bcrypt_hash _ pw := String.append "$2b$" (bcrypt_key pw);
  bcrypt_compare pw h := String.eqb h (String.append "$2b$" (bcrypt_key pw))
}.
Next Obligation. intros salt pw pw' E. unfold bcrypt_key in *. rewrite E. apply String.eqb_refl. Qed.
Next Obligation. intros salt pw pw' H. apply String.eqb_eq in H. by simplify_eq. Qed.

(** ** jsonwebtoken *)

(** The payload the server signs: [{ userId: user.id, email: user.email }]. *)
Record claims := mkClaims { userId : nat; claim_email : string }.

(** [jwt_sign c secret exp] is the token [jwt.sign] returns for payload
    [c] expiring at [exp] (seconds); [jwt_verify token secret now] is what
    [jwt.verify] hands its callback: the payload, or an error ([None]). *)
Class Jwt := {
  jwt_sign : claims -> string -> Z -> string;
  jwt_verify : string -> string -> Z -> option claims;
  jwt_verify_sign : forall c k e now, (now < e)%Z -> jwt_verify (jwt_sign c k e) k now = Some c;
  jwt_verify_expired : forall c k e now, (e <= now)%Z -> jwt_verify (jwt_sign c k e) k now = None
}.

(** *** A test instance: a readable, checkable encoding *)

(** A positive in binary, least significant bit first, closed by '.'. *)
Fixpoint pos_bits (p : positive) : string :=
  match p with
  | xH => "."
  | xO p => String "0"%char (pos_bits p)
  | xI p => String "1"%char (pos_bits p)
  end.

Fixpoint read_bits (s : string) : option (positive * string) :=
  match s with
  | String "."%char r => Some (xH, r)
  | String "0"%char s' => match read_bits s' with Some (p, r) => Some (xO p, r) | None => None end
  | String "1"%char s' => match read_bits s' with Some (p, r) => Some (xI p, r) | None => None end
  | _ => None
  end.

Definition z_code (z : Z) : string :=
  match z with
  | Z0 => "z."
  | Zpos p => String "p"%char (pos_bits p)
  | Zneg p => String "n"%char (pos_bits p)
  end.

Definition read_z (s : string) : option (Z * string) :=
  match s with
  | String "z"%char (String "."%char r) => Some (Z0, r)
  | String "p"%char s' => match read_bits s' with Some (p, r) => Some (Zpos p, r) | None => None end
  | String "n"%char s' => match read_bits s' with Some (p, r) => Some (Zneg p, r) | None => None end
  | _ => None
  end.

Fixpoint strip_prefix (k s : string) : option string :=
  match k, s with
  | EmptyString, _ => Some s
  | String a k', String b s' => if Ascii.ascii_dec a b then strip_prefix k' s' else None
  | _, _ => None
  end.

(** stdpp keeps [String.append] from unfolding under [simpl]. *)
Lemma string_app_cons a (s r : string) : (String a s ++ r)%string = String a (s ++ r).
Proof. reflexivity. Qed.

Lemma string_app_nil (r : string) : ("" ++ r)%string = r.
Proof. reflexivity. Qed.


Lemma read_bits_code p r : read_bits (pos_bits p ++ r) = Some (p, r).
Proof. induction p; cbn [pos_bits]; rewrite ?string_app_cons; simpl; rewrite ?IHp; done. Qed.

Lemma read_z_code z r : read_z (z_code z ++ r) = Some (z, r).
Proof. destruct z; cbn [z_code]; rewrite ?string_app_cons; simpl; rewrite ?read_bits_code; done. Qed.

Lemma strip_prefix_app k s : strip_prefix k (k ++ s) = Some s.
Proof.
  induction k as [|a k IH]; [done|]. rewrite string_app_cons. simpl.
  destruct (Ascii.ascii_dec a a); [done|congruence].
Qed.

(** token = uid '.' exp '.' secret email *)
Definition test_sign (c : claims) (k : string) (e : Z) : string :=
  z_code (Z.of_nat (userId c)) ++ z_code e ++ k ++ claim_email c.

Definition test_verify (t k : string) (now : Z) : option claims :=
  match read_z t with
  | Some (u, r) =>
      match read_z r with
      | Some (e, r') =>
          match strip_prefix k r' with
          | Some em => if (now <? e)%Z then Some (mkClaims (Z.to_nat u) em) else None
          | None => None
          end
      | None => None
      end
  | None => None
  end.

Lemma test_verify_sign_eq c k e now :
  test_verify (test_sign c k e) k now = if (now <? e)%Z then Some c else None.
Proof.
  unfold test_verify, test_sign. rewrite !read_z_code, strip_prefix_app.
  rewrite Nat2Z.id. by destruct c.
Qed.

#[export] Program Instance test_jwt : Jwt := {
  jwt_sign := test_sign;
  jwt_verify := test_verify
}.
Next Obligation. intros. rewrite test_verify_sign_eq. by rewrite (proj2 (Z.ltb_lt _ _)). Qed.
Next Obligation. intros. rewrite test_verify_sign_eq. by rewrite (proj2 (Z.ltb_ge _ _)). Qed.
