(* ===== verification/Sql.v ===== *)
(** * The SQL layer: statements, the shared connection, callback programs

    [sql A] has one constructor per query string of src/server/index.js,
    indexed by the type of what the mysql2 callback receives.  [exec]
    gives each statement its meaning on the database; the integrity
    constraints named by the spec (users.email UNIQUE, order_items
    referencing an existing order and book) are enforced there.  The
    single connection of src/server/db.js is [conn]: the database, the
    snapshot taken by START TRANSACTION, the fault schedule and the clock.
    A handler is a [prog]: a tree whose nodes are the statements it issues
    and whose branches are its callbacks. *)

From S2P Require Import Prelude Schema Crypto.

(** ** The database *)

Record db := mkDb {
  users : table UserRow.t;
  books : table BookRow.t;
  cart : table CartRow.t;
  orders : table OrderRow.t;
  order_items : table OrderItemRow.t
}.

Definition set_users t d := mkDb t (books d) (cart d) (orders d) (order_items d).
Definition set_cart t d := mkDb (users d) (books d) t (orders d) (order_items d).
Definition set_orders t d := mkDb (users d) (books d) (cart d) t (order_items d).
Definition set_order_items t d := mkDb (users d) (books d) (cart d) (orders d) t.

(** Every table well formed. *)
Record db_wf (d : db) : Prop := {
  wf_users : tbl_wf UserRow.id (users d);
  wf_books : tbl_wf BookRow.id (books d);
  wf_cart : tbl_wf CartRow.id (cart d);
  wf_orders : tbl_wf OrderRow.id (orders d);
  wf_order_items : tbl_wf OrderItemRow.id (order_items d)
}.

(** ** Result rows of the joins *)

Module CartView.
(** A row of [SELECT c.*, b.title, b.author, b.price, b.image_url]. *)
Record t := mk { id : nat; user_id : nat; book_id : nat; quantity : Z;
                 title : string; author : string; price : Z;
                 image_url : option string }.
End CartView.

Module OrderView.
(** [JSON_OBJECT('title', b.title, 'quantity', oi.quantity, 'price', oi.price)] *)
Record item := mkItem { title : string; quantity : Z; price : Z }.
(** [o.*] with the aggregated [items]. *)
Record t := mk { order : OrderRow.t; items : list item }.
End OrderView.

Module Profile.
Record t := mk { id : nat; name : string; email : string; created_at : Z }.
End Profile.

(** ** Statements *)

Inductive sql : Type -> Type :=
| SelectUserByEmail (email : string) : sql (list UserRow.t)
| InsertUser (name email password : string) : sql nat
| SelectBooks : sql (list BookRow.t)
| SelectBookById (id : nat) : sql (list BookRow.t)
| SelectCartLine (user_id book_id : nat) : sql (list CartRow.t)
| UpdateCartQuantity (quantity : Z) (id : nat) : sql unit
| InsertCartLine (user_id book_id : nat) (quantity : Z) : sql nat
| SelectCartView (user_id : nat) : sql (list CartView.t)
| DeleteCartById (id : nat) : sql unit
| InsertOrder (user_id : nat) (total_amount : Z) (ship : Shipping.t) : sql nat
| InsertOrderItems (rows : list (nat * nat * Z * Z)) : sql unit
| DeleteCartByUser (user_id : nat) : sql unit
| SelectOrderHistory (user_id : nat) : sql (list OrderView.t)
| SelectUserPassword (id : nat) : sql (list string)
| UpdateUserPassword (password : string) (id : nat) : sql unit
| SelectUserProfile (id : nat) : sql (list Profile.t).

(** The errors a statement reports to its callback. *)
Inductive sql_error :=
| ER_CONNECTION         (** the store is unavailable: an injected fault *)
| ER_DUP_ENTRY          (** UNIQUE(users.email) *)
| ER_NO_REFERENCED_ROW  (** a foreign key of order_items *)
| ER_PARSE_ERROR.       (** [VALUES ?] expanded from an empty array *)

(** ** Meaning of the statements *)

(** [c JOIN books b ON c.book_id = b.id] for one cart line. *)
Definition join_cart_book (bs : list BookRow.t) (c : CartRow.t) : list CartView.t :=
  List.map (fun b => CartView.mk (CartRow.id c) (CartRow.user_id c) (CartRow.book_id c)
                       (CartRow.quantity c) (BookRow.title b) (BookRow.author b)
                       (BookRow.price b) (BookRow.image_url b))
    (List.filter (fun b => BookRow.id b =? CartRow.book_id c) bs).

(** The GET /api/cart query (index.js 172-175). *)
Definition cart_view (u : nat) (d : db) : list CartView.t :=
  List.flat_map (join_cart_book (t_rows (books d)))
    (tbl_select (fun c => CartRow.user_id c =? u) (cart d)).

(** The items of one order through [JOIN order_items oi ... JOIN books b]. *)
Definition order_item_views (d : db) (o : OrderRow.t) : list OrderView.item :=
  List.flat_map
    (fun oi => List.map (fun b => OrderView.mkItem (BookRow.title b)
                                   (OrderItemRow.quantity oi) (OrderItemRow.price oi))
                 (List.filter (fun b => BookRow.id b =? OrderItemRow.book_id oi)
                    (t_rows (books d))))
    (tbl_select (fun oi => OrderItemRow.order_id oi =? OrderRow.id o) (order_items d)).

(** [GROUP BY o.id]: an inner join keeps an order only if one of its
    items joined. *)
Definition group_orders (u : nat) (d : db) : list OrderView.t :=
  List.flat_map (fun o => match order_item_views d o with
                          | [] => []
                          | its => [OrderView.mk o its]
                          end)
    (tbl_select (fun o => OrderRow.user_id o =? u) (orders d)).

(** [ORDER BY o.order_date DESC]: a stable insertion sort (ties keep
    primary-key order, one of the orders MySQL may return). *)
Definition view_date (v : OrderView.t) : Z := OrderRow.order_date (OrderView.order v).

Fixpoint insert_date_desc (v : OrderView.t) (l : list OrderView.t) : list OrderView.t :=
  match l with
  | [] => [v]
  | w :: l' => if (view_date w <=? view_date v)%Z then v :: w :: l'
               else w :: insert_date_desc v l'
  end.

Definition sort_date_desc (l : list OrderView.t) : list OrderView.t :=
  List.fold_right insert_date_desc [] l.

(** The GET /api/orders query (index.js 292-305). *)
Definition order_history (u : nat) (d : db) : list OrderView.t :=
  sort_date_desc (group_orders u d).

(** [WHERE user_id = ? AND book_id = ?] on the cart. *)
Definition is_line (u b : nat) (c : CartRow.t) : bool :=
  (CartRow.user_id c =? u) && (CartRow.book_id c =? b).

(** The foreign keys of one order_items row. *)
Definition item_refs_ok (d : db) (row : nat * nat * Z * Z) : bool :=
  let '(o, b, _, _) := row in
  existsb (fun r => OrderRow.id r =? o) (t_rows (orders d)) &&
  existsb (fun r => BookRow.id r =? b) (t_rows (books d)).

(** The rows of a multi-row INSERT, in order. *)
Definition insert_items (rows : list (nat * nat * Z * Z)) (t : table OrderItemRow.t)
  : table OrderItemRow.t :=
  List.fold_left (fun t '(o, b, q, p) =>
                    snd (tbl_insert (fun id => OrderItemRow.mk id o b q p) t)) rows t.
Arguments insert_items : simpl never.

Definition profile_of (u : UserRow.t) : Profile.t :=
  Profile.mk (UserRow.id u) (UserRow.name u) (UserRow.email u) (UserRow.created_at u).

Definition set_quantity (q : Z) (c : CartRow.t) : CartRow.t :=
  CartRow.mk (CartRow.id c) (CartRow.user_id c) (CartRow.book_id c) q.

Definition set_password (pw : string) (u : UserRow.t) : UserRow.t :=
  UserRow.mk (UserRow.id u) (UserRow.name u) (UserRow.email u) pw (UserRow.created_at u).

Definition exec {A} (q : sql A) (now : Z) (d : db) : (sql_error + A) * db :=
  match q in sql A return (sql_error + A) * db with
  | SelectUserByEmail e =>
      (inr (tbl_select (fun u => String.eqb (UserRow.email u) e) (users d)), d)
  | InsertUser n e pw =>
      if existsb (fun u => String.eqb (UserRow.email u) e) (t_rows (users d))
      then (inl ER_DUP_ENTRY, d)
      else let ins := tbl_insert (fun id => UserRow.mk id n e pw now) (users d) in
           (inr (fst ins), set_users (snd ins) d)
  | SelectBooks => (inr (t_rows (books d)), d)
  | SelectBookById i => (inr (tbl_select (fun b => BookRow.id b =? i) (books d)), d)
  | SelectCartLine u b =>
      (inr (tbl_select (is_line u b) (cart d)), d)
  | UpdateCartQuantity qty i =>
      (inr tt, set_cart (tbl_update (fun c => CartRow.id c =? i) (set_quantity qty) (cart d)) d)
  | InsertCartLine u b qty =>
      let ins := tbl_insert (fun id => CartRow.mk id u b qty) (cart d) in
      (inr (fst ins), set_cart (snd ins) d)
  | SelectCartView u => (inr (cart_view u d), d)
  | DeleteCartById i =>
      (inr tt, set_cart (tbl_delete (fun c => CartRow.id c =? i) (cart d)) d)
  | InsertOrder u tot ship =>
      let ins := tbl_insert (fun id => OrderRow.mk id u tot ship now None None) (orders d) in
      (inr (fst ins), set_orders (snd ins) d)
  | InsertOrderItems rows =>
      match rows with
      | [] => (inl ER_PARSE_ERROR, d)
      | _ => if forallb (item_refs_ok d) rows
             then (inr tt, set_order_items (insert_items rows (order_items d)) d)
             else (inl ER_NO_REFERENCED_ROW, d)
      end
  | DeleteCartByUser u =>
      (inr tt, set_cart (tbl_delete (fun c => CartRow.user_id c =? u) (cart d)) d)
  | SelectOrderHistory u => (inr (order_history u d), d)
  | SelectUserPassword i =>
      (inr (List.map UserRow.password (tbl_select (fun u => UserRow.id u =? i) (users d))), d)
  | UpdateUserPassword pw i =>
      (inr tt, set_users (tbl_update (fun u => UserRow.id u =? i) (set_password pw) (users d)) d)
  | SelectUserProfile i =>
      (inr (List.map profile_of (tbl_select (fun u => UserRow.id u =? i) (users d))), d)
  end.

(** ** The shared connection *)

(** [c_txn] is the snapshot taken by START TRANSACTION; [c_faults] says,
    statement by statement, whether the store fails ([true]); [c_now] is
    the server clock (seconds) and [c_salt] the next random bcrypt salt. *)
Record conn := mkConn {
  c_db : db; c_txn : option db; c_faults : list bool; c_now : Z; c_salt : nat
}.

Definition with_db (d : db) (c : conn) : conn :=
  mkConn d (c_txn c) (c_faults c) (c_now c) (c_salt c).
Definition with_txn (s : option db) (c : conn) : conn :=
  mkConn (c_db c) s (c_faults c) (c_now c) (c_salt c).

(** Draw the next entry of the fault schedule. *)
Definition next_fault (c : conn) : bool * conn :=
  match c_faults c with
  | [] => (false, c)
  | f :: fs => (f, mkConn (c_db c) (c_txn c) fs (c_now c) (c_salt c))
  end.

(** One statement on the connection. *)
Definition conn_query {A} (q : sql A) (c : conn) : (sql_error + A) * conn :=
  let '(f, c) := next_fault c in
  if f then (inl ER_CONNECTION, c)
  else let '(r, d) := exec q (c_now c) (c_db c) in (r, with_db d c).

(** START TRANSACTION (an open transaction is committed first). *)
Definition conn_begin (c : conn) : option sql_error * conn :=
  let '(f, c) := next_fault c in
  if f then (Some ER_CONNECTION, c) else (None, with_txn (Some (c_db c)) c).

(** COMMIT: on failure the transaction stays open. *)
Definition conn_commit (c : conn) : option sql_error * conn :=
  let '(f, c) := next_fault c in
  if f then (Some ER_CONNECTION, c) else (None, with_txn None c).

Definition db_restore (s d : db) : db :=
  mkDb (tbl_restore (users s) (users d)) (tbl_restore (books s) (books d))
       (tbl_restore (cart s) (cart d)) (tbl_restore (orders s) (orders d))
       (tbl_restore (order_items s) (order_items d)).

(** ROLLBACK: back to the snapshot; without a transaction nothing. *)
Definition conn_rollback (c : conn) : conn :=
  match c_txn c with
  | Some s => with_txn None (with_db (db_restore s (c_db c)) c)
  | None => c
  end.

(** ** Responses *)

Module Json.
(** The bodies the handlers send with [res.json]. *)
Inductive t :=
| Error (error : string)
| Message (message : string)
| Registered (message : string) (userId : nat)
| LoggedIn (message token : string) (id : nat) (name email : string)
| Books (books : list BookRow.t)
| Book (book : BookRow.t)
| Cart (lines : list CartView.t)
| OrderPlaced (message : string) (orderId : nat)
| Orders (orders : list OrderView.t)
| ProfileOf (profile : option Profile.t).
End Json.

Record response := mkResponse { status : nat; body : Json.t }.

(** ** Handlers as callback programs *)

Inductive prog : Type :=
| Respond (r : response)
| Query {A} (q : sql A) (k : sql_error + A -> prog)
| Begin (k : option sql_error -> prog)
| Commit (k : option sql_error -> prog)
| Rollback (k : prog)
| BcryptHash (password : string) (k : string -> prog)
| GetTime (k : Z -> prog).

(** [res.json(j)] and [res.status(n).json({ error: msg })]. *)
Definition reply (n : nat) (j : Json.t) : prog := Respond (mkResponse n j).
Definition fail (n : nat) (msg : string) : prog := reply n (Json.Error msg).

(** An exception thrown inside a callback is not caught by Express: the
    process stops and the request gets no answer, written status 0. *)
Definition crash (what : string) : prog := reply 0 (Json.Error what).

(** [db.query(q, (err, r) => { if (err) return 500 msg; k r })] *)
Definition query_or {A} (q : sql A) (msg : string) (k : A -> prog) : prog :=
  Query q (fun r => match r with inl _ => fail 500 msg | inr x => k x end).

Notation "'let%sql' x ':=' q 'or' msg 'in' k" := (query_or q msg (fun x => k))
  (at level 10, x name, q at level 100, msg at level 100, k at level 200)
  : bookstore_scope.

(** ** Running a program on the connection *)

(** A bcrypt call consumes one random salt. *)
Definition bump_salt (c : conn) : conn :=
  mkConn (c_db c) (c_txn c) (c_faults c) (c_now c) (S (c_salt c)).

Section Run.
Context `{Bcrypt}.

Fixpoint run (p : prog) (c : conn) : response * conn :=
  match p with
  | Respond r => (r, c)
  | Query q k => let '(x, c') := conn_query q c in run (k x) c'
  | Begin k => let '(e, c') := conn_begin c in run (k e) c'
  | Commit k => let '(e, c') := conn_commit c in run (k e) c'
  | Rollback k => run k (conn_rollback c)
  | BcryptHash pw k =>
      run (k (bcrypt_hash (c_salt c) pw)) (bump_salt c)
  | GetTime k => run (k (c_now c)) c
  end.
End Run.

(** ** Database content up to AUTO_INCREMENT counters *)

(** Two databases hold the same rows; only their counters may differ.
    This is what a reader of the tables can observe. *)
Definition db_equiv (d1 d2 : db) : Prop :=
  t_rows (users d1) = t_rows (users d2) /\ t_rows (books d1) = t_rows (books d2) /\
  t_rows (cart d1) = t_rows (cart d2) /\ t_rows (orders d1) = t_rows (orders d2) /\
  t_rows (order_items d1) = t_rows (order_items d2).

#[export] Instance db_equiv_equivalence : Equivalence db_equiv.
Proof.
  split; unfold db_equiv; repeat intro; intuition congruence.
Qed.

Lemma db_restore_equiv s d : db_equiv (db_restore s d) s.
Proof. done. Qed.

(** Counters only grow. *)
Definition db_counters_le (d1 d2 : db) : Prop :=
  t_next (users d1) <= t_next (users d2) /\ t_next (books d1) <= t_next (books d2) /\
  t_next (cart d1) <= t_next (cart d2) /\ t_next (orders d1) <= t_next (orders d2) /\
  t_next (order_items d1) <= t_next (order_items d2).

#[export] Instance db_counters_le_preorder : PreOrder db_counters_le.
Proof. split; repeat intro; unfold db_counters_le in *; lia. Qed.

(** ** Well-formedness is preserved by every statement *)

Lemma insert_items_wf rows t :
  tbl_wf OrderItemRow.id t -> tbl_wf OrderItemRow.id (insert_items rows t).
Proof.
  unfold insert_items. revert t.
  induction rows as [|[[[o b] q] p] rows IH]; intros t Ht; simpl; [done|].
  apply IH. by apply tbl_snoc_wf.
Qed.

Lemma insert_items_next rows t : t_next t <= t_next (insert_items rows t).
Proof.
  unfold insert_items. revert t.
  induction rows as [|[[[o b] q] p] rows IH]; intros t; simpl; [done|].
  specialize (IH (snd (tbl_insert (λ id, OrderItemRow.mk id o b q p) t))). simpl in IH. lia.
Qed.

#[export] Hint Resolve insert_items_wf : bookstore.

Lemma exec_wf {A} (q : sql A) now d : db_wf d -> db_wf (snd (exec q now d)).
Proof.
  intros [Hu Hb Hc Ho Hi].
  destruct q; simpl; repeat case_match; constructor; simpl; auto with bookstore;
    first [apply tbl_snoc_wf; done | apply insert_items_wf; done].
Qed.

Lemma exec_counters {A} (q : sql A) now d : db_counters_le d (snd (exec q now d)).
Proof.
  destruct q; simpl; repeat case_match; simpl;
    unfold db_counters_le; simpl; repeat split; try lia.
  apply insert_items_next.
Qed.

(** ** Rewriting a statement on the connection *)

Definition head_fault (c : conn) : bool :=
  match c_faults c with [] => false | f :: _ => f end.

Definition drop_fault (c : conn) : conn :=
  mkConn (c_db c) (c_txn c) (List.tail (c_faults c)) (c_now c) (c_salt c).

Lemma next_fault_eq c : next_fault c = (head_fault c, drop_fault c).
Proof. destruct c as [d s [|f fs] n k]; done. Qed.

Lemma conn_query_eq {A} (q : sql A) c :
  conn_query q c =
  if head_fault c then (inl ER_CONNECTION, drop_fault c)
  else (fst (exec q (c_now c) (c_db c)), with_db (snd (exec q (c_now c) (c_db c))) (drop_fault c)).
Proof.
  unfold conn_query. rewrite next_fault_eq. simpl. destruct (head_fault c); [done|].
  by destruct (exec q _ _).
Qed.

Lemma conn_begin_eq c :
  conn_begin c = if head_fault c then (Some ER_CONNECTION, drop_fault c)
                 else (None, with_txn (Some (c_db c)) (drop_fault c)).
Proof. unfold conn_begin. by rewrite next_fault_eq. Qed.

Lemma conn_commit_eq c :
  conn_commit c = if head_fault c then (Some ER_CONNECTION, drop_fault c)
                  else (None, with_txn None (drop_fault c)).
Proof. unfold conn_commit. by rewrite next_fault_eq. Qed.

(** Projections of the connection updates. *)
Lemma c_db_with_db d c : c_db (with_db d c) = d.
Proof. done. Qed.
Lemma c_db_with_txn s c : c_db (with_txn s c) = c_db c.
Proof. done. Qed.
Lemma c_db_drop c : c_db (drop_fault c) = c_db c.
Proof. done. Qed.
Lemma c_txn_with_db d c : c_txn (with_db d c) = c_txn c.
Proof. done. Qed.
Lemma c_txn_with_txn s c : c_txn (with_txn s c) = s.
Proof. done. Qed.
Lemma c_txn_drop c : c_txn (drop_fault c) = c_txn c.
Proof. done. Qed.
Lemma c_now_with_db d c : c_now (with_db d c) = c_now c.
Proof. done. Qed.
Lemma c_now_with_txn s c : c_now (with_txn s c) = c_now c.
Proof. done. Qed.
Lemma c_now_drop c : c_now (drop_fault c) = c_now c.
Proof. done. Qed.
Lemma head_fault_with_db d c : head_fault (with_db d c) = head_fault c.
Proof. done. Qed.
Lemma head_fault_with_txn s c : head_fault (with_txn s c) = head_fault c.
Proof. done. Qed.
Lemma head_fault_bump c : head_fault (bump_salt c) = head_fault c.
Proof. done. Qed.
Lemma c_db_bump c : c_db (bump_salt c) = c_db c.
Proof. done. Qed.
Lemma c_txn_bump c : c_txn (bump_salt c) = c_txn c.
Proof. done. Qed.
Lemma c_now_bump c : c_now (bump_salt c) = c_now c.
Proof. done. Qed.
Lemma c_faults_drop c : c_faults (drop_fault c) = List.tail (c_faults c).
Proof. done. Qed.
Lemma c_faults_with_db d c : c_faults (with_db d c) = c_faults c.
Proof. done. Qed.
Lemma c_faults_with_txn s c : c_faults (with_txn s c) = c_faults c.
Proof. done. Qed.
Lemma c_faults_bump c : c_faults (bump_salt c) = c_faults c.
Proof. done. Qed.

Lemma head_fault_nil c : c_faults c = [] -> head_fault c = false.
Proof. unfold head_fault. by intros ->. Qed.

Create Rewrite HintDb conn_rw.
#[export] Hint Rewrite c_db_with_db c_db_with_txn c_db_drop c_txn_with_db c_txn_with_txn
  c_txn_drop c_now_with_db c_now_with_txn c_now_drop head_fault_with_db
  head_fault_with_txn head_fault_bump c_db_bump c_txn_bump c_now_bump c_faults_drop
  c_faults_with_db c_faults_with_txn c_faults_bump : conn_rw.

(** Close a branch where a statement failed although the schedule has no
    fault left. *)
Ltac no_fault Hnil :=
  match goal with
  | F : head_fault ?x = true |- _ =>
      exfalso; rewrite head_fault_nil in F; [discriminate F|];
      autorewrite with conn_rw; rewrite Hnil; reflexivity
  end.

(** Unfold one effect of [run]: rewrite it with its equation and split
    on the fault schedule. *)
Ltac run_step :=
  cbn [run]; first [ rewrite conn_query_eq | rewrite conn_begin_eq | rewrite conn_commit_eq ];
  autorewrite with conn_rw;
  match goal with
  | |- context [head_fault ?c] => let F := fresh "F" in destruct (head_fault c) eqn:F
  end;
  cbn [fst snd exec run fail reply]; autorewrite with conn_rw.

(** ** A small store used by the examples and witnesses *)

Definition book_fixture (i : nat) (title : string) (price : Z) : BookRow.t :=
  BookRow.mk i title "Author" "Fiction" price 10 45 100 None "".

(** Two users, three books (ids 1, 2, 7), nothing else. *)
Definition sample_db : db :=
  mkDb (mkTable [UserRow.mk 1 "Ann" "ann@example.com" "$2b$secret1" 0;
                 UserRow.mk 2 "Bob" "bob@example.com" "$2b$secret2" 0] 3)
       (mkTable [book_fixture 1 "Dune" 1000; book_fixture 2 "Emma" 500;
                 book_fixture 7 "Odyssey" 1500] 8)
       tbl_empty tbl_empty tbl_empty.

Definition conn_of (d : db) (faults : list bool) : conn := mkConn d None faults 1000 0.

(** The same store once Ann (user 1) has two copies of book 7 in cart line 1. *)
Definition sample_with_cart : db := set_cart (mkTable [CartRow.mk 1 1 7 2] 2) sample_db.

Lemma sample_db_wf : db_wf sample_db.
Proof. repeat constructor. Qed.

(** ** Every program preserves well-formedness *)

(** The connection invariant: the tables are well formed, and so is the
    snapshot of an open transaction, whose counters are behind. *)
Definition conn_wf (c : conn) : Prop :=
  db_wf (c_db c) /\ forall s, c_txn c = Some s -> db_wf s /\ db_counters_le s (c_db c).

Lemma db_restore_wf s d : db_counters_le s d -> db_wf s -> db_wf (db_restore s d).
Proof.
  intros (?&?&?&?&?) [Hu Hb Hc Ho Hi]. constructor; simpl; by apply tbl_restore_wf.
Qed.

Section ConnWf.
Context (c : conn) (Hc : conn_wf c).

Lemma conn_wf_drop : conn_wf (drop_fault c).
Proof. done. Qed.

Lemma conn_wf_exec {A} (q : sql A) :
  conn_wf (with_db (snd (exec q (c_now c) (c_db c))) (drop_fault c)).
Proof.
  destruct Hc as [Hd Hs]. split; simpl; [by apply exec_wf|].
  intros s Hs'. destruct (Hs s Hs') as [Hws Hle]. split; [done|].
  etransitivity; [exact Hle|apply exec_counters].
Qed.

Lemma conn_wf_begin : conn_wf (with_txn (Some (c_db c)) (drop_fault c)).
Proof. destruct Hc as [Hd Hs]. split; [done|]. intros s [= <-]. split; [done|reflexivity]. Qed.

Lemma conn_wf_commit : conn_wf (with_txn None (drop_fault c)).
Proof. destruct Hc as [Hd Hs]. by split. Qed.

Lemma conn_wf_rollback : conn_wf (conn_rollback c).
Proof.
  destruct Hc as [Hd Hs]. unfold conn_rollback. destruct (c_txn c) as [s|] eqn:E; [|done].
  destruct (Hs s eq_refl) as [Hws Hle]. split; [|done]. by apply db_restore_wf.
Qed.
End ConnWf.

#[export] Hint Resolve conn_wf_drop conn_wf_exec conn_wf_begin conn_wf_commit
  conn_wf_rollback : bookstore.

(** Every program preserves the id discipline of all tables and of
    the transaction snapshot: each statement of index.js keeps ids
    unique, at least 1 and below the AUTO_INCREMENT counter, and a
    ROLLBACK restores a snapshot whose counters are behind. *)
Lemma run_wf `{Bcrypt} (p : prog) (c : conn) : conn_wf c -> conn_wf (snd (run p c)).
Proof.
  revert c. induction p as [r|A q k IH|k IH|k IH|k IH|pw k IH|k IH]; intros c Hc; simpl.
  - done.
  - rewrite conn_query_eq. destruct (head_fault c); auto with bookstore.
  - rewrite conn_begin_eq. destruct (head_fault c); auto with bookstore.
  - rewrite conn_commit_eq. destruct (head_fault c); auto with bookstore.
  - auto with bookstore.
  - apply IH. done.
  - by apply IH.
Qed.

(** ROLLBACK inside a transaction. *)
Lemma conn_rollback_some c s :
  c_txn c = Some s -> conn_rollback c = with_txn None (with_db (db_restore s (c_db c)) c).
Proof. unfold conn_rollback. by intros ->. Qed.

(** The rows a multi-row INSERT appends. *)
Definition item_tuple (r : OrderItemRow.t) : nat * nat * Z * Z :=
  (OrderItemRow.order_id r, OrderItemRow.book_id r, OrderItemRow.quantity r,
   OrderItemRow.price r).

Lemma insert_items_rows rows t :
  exists fresh, t_rows (insert_items rows t) = t_rows t ++ fresh /\
                List.map item_tuple fresh = rows.
Proof.
  unfold insert_items. revert t.
  induction rows as [|[[[o b] q] p] rows IH]; intros t; cbn [fold_left].
  - exists []. by rewrite app_nil_r.
  - destruct (IH (snd (tbl_insert (λ id, OrderItemRow.mk id o b q p) t))) as (fresh & Hr & Hm).
    exists (OrderItemRow.mk (t_next t) o b q p :: fresh). split; [|by rewrite <- Hm].
    rewrite Hr. unfold tbl_insert. simpl. by rewrite <- app_assoc.
Qed.

Lemma run_wf_witness :
  conn_wf (snd (run (Query (InsertCartLine 1 7 2) (fun _ => reply 200 (Json.Message "Added to cart")))
                    (conn_of sample_db []))).
Proof. apply run_wf. split; [exact sample_db_wf|discriminate]. Defined.
