(* ===== verification/Auth.v ===== *)
(** * The authenticateToken middleware (index.js 13-28)

    [bearer_token] is [authHeader && authHeader.split(' ')[1]] with the
    semantics of JavaScript's [String.prototype.split] on a one-character
    separator; [authenticateToken] answers 401 without a token, 403 when
    [jwt.verify] rejects it, and otherwise runs the protected handler with
    the decoded payload as [req.user].  No statement is issued before the
    token is accepted. *)

From Stdlib Require Import Ascii.
From S2P Require Import Prelude Schema Crypto Sql.

Module AuthMw.

(** [s.split(sep)] for a one-character separator: every occurrence
    separates, empty fields included, and [""] splits into [[""]]. *)
Fixpoint split_on (sep : ascii) (s : string) : list string :=
  match s with
  | EmptyString => [EmptyString]
  | String a s' =>
      if Ascii.eqb a sep then EmptyString :: split_on sep s'
      else match split_on sep s' with
           | w :: ws => String a w :: ws
           | [] => [String a EmptyString]
           end
  end.

(** [authHeader && authHeader.split(' ')[1]], then [if (!token)]: an
    absent header, an empty string and an empty or missing second field
    all mean no token. *)
Definition bearer_token (authHeader : option string) : option string :=
  match authHeader with
  | None | Some EmptyString => None
  | Some h =>
      match nth_error (split_on " "%char h) 1 with
      | Some (String _ _ as token) => Some token
      | _ => None
      end
  end.

(** No space in a string (a JWT is base64url and dots). *)
Fixpoint no_space (s : string) : bool :=
  match s with
  | EmptyString => true
  | String a s' => negb (Ascii.eqb a " "%char) && no_space s'
  end.

Lemma split_on_no_space t : no_space t = true -> split_on " "%char t = [t].
Proof.
  induction t as [|a t IH]; [done|]. cbn [split_on no_space]. intros H.
  apply andb_prop in H as [Ha Ht]. apply negb_true_iff in Ha. by rewrite Ha, IH.
Qed.

Lemma split_on_word w t :
  no_space w = true -> split_on " "%char (w ++ " " ++ t) = w :: split_on " "%char t.
Proof.
  induction w as [|a w IH]; intros H; [done|]. cbn [no_space] in H.
  apply andb_prop in H as [Ha Hw]. apply negb_true_iff in Ha.
  rewrite string_app_cons. cbn [split_on]. rewrite Ha, IH by done. done.
Qed.

Lemma bearer_token_word w t :
  no_space w = true -> no_space t = true -> t <> EmptyString ->
  bearer_token (Some (w ++ " " ++ t)%string) = Some t.
Proof.
  intros Hw Ht Hne. unfold bearer_token.
  assert (exists a h, (w ++ " " ++ t)%string = String a h) as (a & h & Hh).
  { destruct w as [|a w]; simpl; eauto. }
  rewrite Hh, <- Hh, split_on_word, split_on_no_space by done. simpl.
  destruct t; done.
Qed.

(** C20: the header the client sends, [`Bearer ${token}`]
    (AuthContext.jsx 15 and 67), is parsed back to the token by index.js
    15 for every non-empty token without spaces, as a JWT is.  The first
    word is not checked: any scheme word without spaces is accepted. *)
Theorem bearer_token_roundtrip w t :
  no_space w = true -> no_space t = true -> t <> EmptyString ->
  bearer_token (Some (w ++ " " ++ t)%string) = Some t.
Proof. apply bearer_token_word. Qed.

Section Middleware.
Context `{Jwt} (JWT_SECRET : string).

(** index.js 13-28; jwt.verify compares the token's expiry with the clock. *)
Definition authenticateToken (authHeader : option string) (next : claims -> prog) : prog :=
  match bearer_token authHeader with
  | None => fail 401 "Access token required"
  | Some token =>
      GetTime (fun now =>
        match jwt_verify token JWT_SECRET now with
        | None => fail 403 "Invalid token"
        | Some user => next user
        end)
  end.
(** C7: authentication has no side effect when it fails: without a
    usable bearer token, or with one [jwt.verify] rejects, the answer is
    401 or 403, no statement is issued and the connection (database,
    transaction, fault schedule) is exactly as before. *)
Theorem authenticate_reject_no_effect `{Bcrypt} authHeader next c :
  (bearer_token authHeader = None \/
   exists t, bearer_token authHeader = Some t /\ jwt_verify t JWT_SECRET (c_now c) = None) ->
  exists r, run (authenticateToken authHeader next) c = (r, c) /\
            (status r = 401 \/ status r = 403).
Proof.
  unfold authenticateToken. intros [->|(t & -> & Hv)].
  - eexists. split; [done|by left].
  - cbn [run]. rewrite Hv. eexists. split; [done|by right].
Qed.

Lemma authenticate_run `{Bcrypt} u e next c :
  (c_now c < e)%Z ->
  no_space (jwt_sign u JWT_SECRET e) = true -> jwt_sign u JWT_SECRET e <> EmptyString ->
  run (authenticateToken (Some ("Bearer " ++ jwt_sign u JWT_SECRET e)%string) next) c = run (next u) c.
Proof.
  intros Hnow Hsp Hne. unfold authenticateToken.
  change ("Bearer " ++ jwt_sign u JWT_SECRET e)%string
    with ("Bearer" ++ " " ++ jwt_sign u JWT_SECRET e)%string.
  rewrite (bearer_token_word "Bearer") by done. cbn [run].
  by rewrite jwt_verify_sign.
Qed.

(** C8: a token signed with the server's secret for payload [u] and
    expiry [e], sent as [Authorization: Bearer <token>] before [e], lets
    the protected handler run with [req.user = u], on the same
    connection. *)
Theorem authenticate_accepts `{Bcrypt} u e next c :
  (c_now c < e)%Z ->
  no_space (jwt_sign u JWT_SECRET e) = true -> jwt_sign u JWT_SECRET e <> EmptyString ->
  run (authenticateToken (Some ("Bearer " ++ jwt_sign u JWT_SECRET e)%string) next) c = run (next u) c.
Proof. apply authenticate_run. Qed.
End Middleware.

Lemma bearer_token_roundtrip_witness :
  bearer_token (Some ("Bearer" ++ " " ++ "p.p01.s3cret")%string) = Some "p.p01.s3cret".
Proof. apply bearer_token_roundtrip; [reflexivity|reflexivity|discriminate]. Defined.

Definition ok_handler (_ : claims) : prog := reply 200 (Json.Message "ok").

Lemma authenticate_reject_no_effect_witness :
  exists r, run (authenticateToken "s3cret" None ok_handler) (conn_of sample_db []) =
            (r, conn_of sample_db []) /\ (status r = 401 \/ status r = 403).
Proof. apply authenticate_reject_no_effect. by left. Defined.

Lemma authenticate_accepts_witness :
  run (authenticateToken "s3cret"
         (Some ("Bearer " ++ jwt_sign (mkClaims 1 "ann@example.com") "s3cret" 87400)%string)
         ok_handler) (conn_of sample_db []) =
  run (ok_handler (mkClaims 1 "ann@example.com")) (conn_of sample_db []).
Proof.
  apply authenticate_accepts; [vm_compute; reflexivity|vm_compute; reflexivity|discriminate].
Defined.

End AuthMw.
