(* ===== verification/Users.v ===== *)
(** * The credential store: register, login, password change, profile

    index.js 31-108 and 315-359.  bcrypt and jsonwebtoken are the
    interfaces of [Crypto]; the salt of each [bcrypt.hash] is drawn by the
    runtime ([c_salt]) and the token's expiry is the clock plus 24 hours.
    Theorems: each handler's answer on every branch, what a successful
    login's token proves and for how long, and the effect of a password
    change on which password is accepted. *)

From S2P Require Import Prelude Schema Crypto Sql.

Module UsersApi.

Section Handlers.
Context `{Bcrypt} `{Jwt} (JWT_SECRET : string).

(** [expiresIn: "24h"] *)
Definition token_lifetime : Z := 86400.

(** POST /api/register (index.js 31-67). *)
Definition post_register (name email password : string) : prog :=
  let%sql results := SelectUserByEmail email or "Database error" in
  match results with
  | _ :: _ => fail 400 "User already exists"
  | [] =>
      BcryptHash password (fun hashedPassword =>
        Query (InsertUser name email hashedPassword) (fun r =>
          match r with
          | inl _ => fail 500 "Registration failed"
          | inr insertId => reply 201 (Json.Registered "User registered successfully" insertId)
          end))
  end.

(** POST /api/login (index.js 70-108). *)
Definition post_login (email password : string) : prog :=
  let%sql results := SelectUserByEmail email or "Database error" in
  match results with
  | [] => fail 401 "Invalid credentials"
  | user :: _ =>
      if bcrypt_compare password (UserRow.password user) then
        GetTime (fun now =>
          let token := jwt_sign (mkClaims (UserRow.id user) (UserRow.email user)) JWT_SECRET
                                (now + token_lifetime) in
          reply 200 (Json.LoggedIn "Login successful" token (UserRow.id user)
                                   (UserRow.name user) (UserRow.email user)))
      else fail 401 "Invalid credentials"
  end.

(** PUT /api/users/password (index.js 315-345); [results[0].password] on
    an empty result throws inside the callback. *)
Definition put_password (user_id : nat) (currentPassword newPassword : string) : prog :=
  let%sql results := SelectUserPassword user_id or "Database error" in
  match results with
  | [] => crash "TypeError: Cannot read properties of undefined (reading 'password')"
  | stored :: _ =>
      if bcrypt_compare currentPassword stored then
        BcryptHash newPassword (fun hashedPassword =>
          let%sql _ := UpdateUserPassword hashedPassword user_id or "Password update failed" in
          reply 200 (Json.Message "Password updated successfully"))
      else fail 401 "Current password is incorrect"
  end.

(** GET /api/users/profile (index.js 348-359): [res.json(results[0])]. *)
Definition get_profile (user_id : nat) : prog :=
  let%sql results := SelectUserProfile user_id or "Database error" in
  reply 200 (Json.ProfileOf (head results)).

(** ** Properties *)

Definition has_email (e : string) (u : UserRow.t) : bool := String.eqb (UserRow.email u) e.

(** C6: a token is issued only to a stored user whose digest accepts
    the password given, and login never writes: with a wrong password or
    an unknown email the answer is 401 with no token (spec section 8). *)
Theorem post_login_sound email password c r c' :
  run (post_login email password) c = (r, c') ->
  c_db c' = c_db c /\
  forall msg token id name em, body r = Json.LoggedIn msg token id name em ->
    exists u, In u (t_rows (users (c_db c))) /\ UserRow.email u = email /\
              UserRow.id u = id /\ bcrypt_compare password (UserRow.password u) = true.
Proof.
  unfold post_login, query_or. run_step; intros Hrun; inversion Hrun; subst; clear Hrun.
  - split; [done|]. by intros.
  - unfold tbl_select in *.
    destruct (List.filter _ _) as [|u us] eqn:Hsel; cbn [run fail reply] in *.
    + inversion H2; subst. split; [done|]. by intros.
    + destruct (bcrypt_compare password (UserRow.password u)) eqn:Hc; cbn [run fail reply] in *;
        inversion H2; subst; split; try done; intros ????? [= <- <- <- <- <-].
      exists u. assert (In u (List.filter (has_email email) (t_rows (users (c_db c))))) as Hin
        by (unfold has_email; rewrite Hsel; by left).
      apply filter_In in Hin as [Hin He]. unfold has_email in He. reflect_bools. done.
Qed.

(** C14: the token of a successful login names the user and expires 24
    hours later: [jwt.verify] accepts it, with the payload
    [{ userId, email }] of the stored user, at every instant before the
    login time plus 86400 seconds, and rejects it from then on. *)
Theorem post_login_token_lifetime email password c r c' :
  run (post_login email password) c = (r, c') ->
  forall msg token id name em, body r = Json.LoggedIn msg token id name em ->
  forall now,
    ((now < c_now c + token_lifetime)%Z -> jwt_verify token JWT_SECRET now = Some (mkClaims id em)) /\
    ((c_now c + token_lifetime <= now)%Z -> jwt_verify token JWT_SECRET now = None).
Proof.
  unfold post_login, query_or. run_step; intros Hrun; inversion Hrun; subst; clear Hrun; [done|].
  unfold tbl_select in *. destruct (List.filter _ _) as [|u us]; cbn [run fail reply] in *;
    [by inversion H2; subst|].
  destruct (bcrypt_compare _ _); cbn [run fail reply] in *; inversion H2; subst; [|done].
  intros ????? [= <- <- <- <- <-] now. autorewrite with conn_rw.
  split; intros Hnow; [by apply jwt_verify_sign|by apply jwt_verify_expired].
Qed.


(** C18: registering a new email with a working store answers 201 with
    the new id and appends one user with that email whose stored digest
    accepts the password (the plaintext itself is never stored: the row
    holds [bcrypt_hash]). *)
Theorem post_register_new name email password c r c' :
  (forall u, In u (t_rows (users (c_db c))) -> UserRow.email u <> email) ->
  c_faults c = [] ->
  run (post_register name email password) c = (r, c') ->
  r = mkResponse 201 (Json.Registered "User registered successfully" (t_next (users (c_db c)))) /\
  t_rows (users (c_db c')) =
    t_rows (users (c_db c)) ++
      [UserRow.mk (t_next (users (c_db c))) name email (bcrypt_hash (c_salt c) password) (c_now c)] /\
  bcrypt_compare password (bcrypt_hash (c_salt c) password) = true.
Proof.
  intros Hnew Hnil. unfold post_register, query_or. run_step; [no_fault Hnil|].
  unfold tbl_select. rewrite filter_false_nil.
  2:{ intros u Hu. apply String.eqb_neq, Hnew, Hu. }
  cbn [run]. run_step; [no_fault Hnil|].
  rewrite existsb_false_forall by (intros u Hu; apply String.eqb_neq, Hnew, Hu).
  cbn [fst snd]. intros [= <- <-]. cbn. repeat split. apply bcrypt_compare_hash.
Qed.

Definition has_id (uid : nat) (u : UserRow.t) : bool := UserRow.id u =? uid.

(** C15: a password change with the right current password, on a working
    store, answers 200 and stores a fresh digest of the new password,
    which from then on accepts exactly the passwords whose first 72 bytes
    are those of the new one: the new password itself, and, when it is
    longer than 72 bytes, every password extending its first 72. *)
Theorem put_password_changes uid currentPassword newPassword c u r c' :
  c_faults c = [] ->
  tbl_select (has_id uid) (users (c_db c)) = [u] ->
  bcrypt_compare currentPassword (UserRow.password u) = true ->
  run (put_password uid currentPassword newPassword) c = (r, c') ->
  r = mkResponse 200 (Json.Message "Password updated successfully") /\
  tbl_select (has_id uid) (users (c_db c')) =
    [set_password (bcrypt_hash (c_salt c) newPassword) u] /\
  forall p, bcrypt_compare p (bcrypt_hash (c_salt c) newPassword) = true <->
            bcrypt_key p = bcrypt_key newPassword.
Proof.
  intros Hnil Hsel Hcmp. unfold put_password, query_or. run_step; [no_fault Hnil|].
  fold (has_id uid). rewrite Hsel. cbn [List.map]. rewrite Hcmp. cbn [run].
  run_step; [no_fault Hnil|]. intros [= <- <-]. split; [done|]. split.
  - unfold tbl_select, tbl_update in *. simpl.
    change (List.filter (has_id uid)
      (List.map (fun r => if has_id uid r then set_password (bcrypt_hash (c_salt c) newPassword) r
                          else r) (t_rows (users (c_db c)))) =
      [set_password (bcrypt_hash (c_salt c) newPassword) u]).
    by rewrite filter_map_update, Hsel.
  - intros p. split; [apply bcrypt_compare_sound|apply bcrypt_compare_key].
Qed.

(** C21: with a wrong current password (one whose first 72 bytes the
    stored digest does not accept) the handler answers 401 (or 500 when
    the store fails) and the database is untouched, whatever the fault
    schedule. *)
Theorem put_password_wrong_current uid currentPassword newPassword c u r c' :
  tbl_select (has_id uid) (users (c_db c)) = [u] ->
  bcrypt_compare currentPassword (UserRow.password u) = false ->
  run (put_password uid currentPassword newPassword) c = (r, c') ->
  c_db c' = c_db c /\ (status r = 401 \/ status r = 500).
Proof.
  intros Hsel Hcmp. unfold put_password, query_or. run_step;
    intros Hrun; inversion Hrun; subst; [by split; [|right]|].
  revert Hrun. fold (has_id uid). rewrite Hsel. cbn [List.map]. rewrite Hcmp.
  intros [= <- <-]. by split; [|left].
Qed.

(** C19: PUT /api/users/password with a valid token whose user row is
    gone does not answer at all: [results[0].password] throws inside the
    callback (index.js 326), which Express does not catch. *)
Theorem put_password_missing_user_crashes uid currentPassword newPassword c :
  c_faults c = [] ->
  tbl_select (has_id uid) (users (c_db c)) = [] ->
  status (fst (run (put_password uid currentPassword newPassword) c)) = 0.
Proof.
  intros Hnil Hsel. unfold put_password, query_or. run_step; [no_fault Hnil|].
  fold (has_id uid). by rewrite Hsel.
Qed.

End Handlers.

(** ** Witnesses, on the sample store with the test bcrypt and JWT *)

Definition secret : string := "s3cret".

Definition login_ok := run (post_login secret "ann@example.com" "secret1") (conn_of sample_db []).

Definition ann_token : string :=
  jwt_sign (mkClaims 1 "ann@example.com") secret (1000 + token_lifetime).

Lemma post_login_sound_witness :
  c_db (snd login_ok) = c_db (conn_of sample_db []) /\
  (body (fst login_ok) = Json.LoggedIn "Login successful" ann_token 1 "Ann" "ann@example.com" ->
   exists u, In u (t_rows (users (c_db (conn_of sample_db [])))) /\
             UserRow.email u = "ann@example.com" /\ UserRow.id u = 1 /\
             bcrypt_compare "secret1" (UserRow.password u) = true).
Proof.
  pose proof (post_login_sound secret "ann@example.com" "secret1" (conn_of sample_db [])
                (fst login_ok) (snd login_ok)) as W.
  destruct W as [Hdb Hu]; [vm_compute; reflexivity|].
  split; [exact Hdb|]. apply Hu.
Defined.

Lemma post_login_token_lifetime_witness :
  ((2000 < c_now (conn_of sample_db []) + token_lifetime)%Z ->
     jwt_verify ann_token secret 2000 = Some (mkClaims 1 "ann@example.com")) /\
  ((c_now (conn_of sample_db []) + token_lifetime <= 90000)%Z -> jwt_verify ann_token secret 90000 = None).
Proof.
  pose proof (post_login_token_lifetime secret "ann@example.com" "secret1" (conn_of sample_db [])
                (fst login_ok) (snd login_ok)) as W.
  split.
  - apply (W ltac:(vm_compute; reflexivity) "Login successful" ann_token 1 "Ann" "ann@example.com"
             ltac:(vm_compute; reflexivity) 2000%Z).
  - apply (W ltac:(vm_compute; reflexivity) "Login successful" ann_token 1 "Ann" "ann@example.com"
             ltac:(vm_compute; reflexivity) 90000%Z).
Defined.



Definition register_new := run (post_register "Cy" "cy@example.com" "pw3") (conn_of sample_db []).

Lemma post_register_new_witness :
  fst register_new =
    mkResponse 201 (Json.Registered "User registered successfully" (t_next (users sample_db))) /\
  t_rows (users (c_db (snd register_new))) =
    t_rows (users sample_db) ++
      [UserRow.mk (t_next (users sample_db)) "Cy" "cy@example.com" (bcrypt_hash 0 "pw3") 1000] /\
  bcrypt_compare "pw3" (bcrypt_hash 0 "pw3") = true.
Proof.
  apply (post_register_new "Cy" "cy@example.com" "pw3" (conn_of sample_db [])
           (fst register_new) (snd register_new)).
  - intros u [<-|[<-|[]]]; discriminate.
  - reflexivity.
  - vm_compute. reflexivity.
Defined.

Definition ann : UserRow.t := UserRow.mk 1 "Ann" "ann@example.com" "$2b$secret1" 0.


(** A new password of 73 characters; the stored digest then also accepts
    a password differing from it in the 73rd character only. *)
Definition long_pw : string := "aaaaaaaaaaaaaaaaaaaaaaaaaaaaaaaaaaaaaaaaaaaaaaaaaaaaaaaaaaaaaaaaaaaaaaaa1".
Definition long_pw' : string := "aaaaaaaaaaaaaaaaaaaaaaaaaaaaaaaaaaaaaaaaaaaaaaaaaaaaaaaaaaaaaaaaaaaaaaaa2".

Definition pw_change := run (put_password 1 "secret1" long_pw) (conn_of sample_db []).

Lemma put_password_changes_witness :
  fst pw_change = mkResponse 200 (Json.Message "Password updated successfully") /\
  tbl_select (has_id 1) (users (c_db (snd pw_change))) = [set_password (bcrypt_hash 0 long_pw) ann] /\
  bcrypt_compare long_pw' (bcrypt_hash 0 long_pw) = true.
Proof.
  cut (fst pw_change = mkResponse 200 (Json.Message "Password updated successfully") /\
       tbl_select (has_id 1) (users (c_db (snd pw_change))) = [set_password (bcrypt_hash 0 long_pw) ann] /\
       forall p, bcrypt_compare p (bcrypt_hash 0 long_pw) = true <-> bcrypt_key p = bcrypt_key long_pw).
  { intros (H1 & H2 & H3). split; [exact H1|]. split; [exact H2|]. apply H3. vm_compute. reflexivity. }
  apply (put_password_changes 1 "secret1" long_pw (conn_of sample_db []) ann
           (fst pw_change) (snd pw_change)); vm_compute; reflexivity.
Defined.

Definition pw_wrong := run (put_password 1 "guess" "better2") (conn_of sample_db []).

Lemma put_password_wrong_current_witness :
  c_db (snd pw_wrong) = c_db (conn_of sample_db []) /\
  (status (fst pw_wrong) = 401 \/ status (fst pw_wrong) = 500).
Proof.
  apply (put_password_wrong_current 1 "guess" "better2" (conn_of sample_db []) ann
           (fst pw_wrong) (snd pw_wrong)); vm_compute; reflexivity.
Defined.

Lemma put_password_missing_user_crashes_witness :
  status (fst (run (put_password 9 "x" "y") (conn_of sample_db []))) = 0.
Proof. apply put_password_missing_user_crashes; reflexivity. Defined.

End UsersApi.
