(* ===== verification/Cart.v ===== *)
(** * The cart ledger: POST/GET/PUT/DELETE /api/cart

    The four cart handlers of src/server/index.js (lines 129-207) as
    callback programs.  Theorems: the functional behaviour of each handler
    on every branch (faults included); the invariant that a user has at
    most one line per book, preserved by every handler run on its own;
    and the refinement of the cart table by an abstract bag
    [qty_of d u b] (how many copies of book [b] user [u] has in the cart),
    which POST /api/cart increments exactly when it answers 200. *)

From S2P Require Import Prelude Schema Crypto Sql.

Module CartApi.

(** POST /api/cart (index.js 130-165): look the line up, then either
    add to its quantity or insert a new line. *)
Definition post_cart (user_id book_id : nat) (quantity : Z) : prog :=
  let%sql results := SelectCartLine user_id book_id or "Database error" in
  match results with
  | r0 :: _ =>
      let newQty := (CartRow.quantity r0 + quantity)%Z in
      let%sql _ := UpdateCartQuantity newQty (CartRow.id r0) or "Update failed" in
      reply 200 (Json.Message "Cart updated")
  | [] =>
      let%sql _ := InsertCartLine user_id book_id quantity or "Add to cart failed" in
      reply 200 (Json.Message "Added to cart")
  end.

(** GET /api/cart (index.js 168-182). *)
Definition get_cart (user_id : nat) : prog :=
  let%sql results := SelectCartView user_id or "Database error" in
  reply 200 (Json.Cart results).

(** PUT /api/cart/:id (index.js 185-197): the caller is not consulted. *)
Definition put_cart (cartId : nat) (quantity : Z) : prog :=
  let%sql _ := UpdateCartQuantity quantity cartId or "Update failed" in
  reply 200 (Json.Message "Cart updated").

(** DELETE /api/cart/:id (index.js 200-207): the caller is not consulted. *)
Definition delete_cart (cartId : nat) : prog :=
  let%sql _ := DeleteCartById cartId or "Delete failed" in
  reply 200 (Json.Message "Item removed from cart").

(** ** Abstractions of the cart table *)

Definition line_key (c : CartRow.t) : nat * nat := (CartRow.user_id c, CartRow.book_id c).

(** At most one line per (user, book). *)
Definition cart_unique (d : db) : Prop := NoDup (List.map line_key (t_rows (cart d))).

(** The abstract bag: copies of book [b] in the cart of user [u]. *)
Definition qty_of (d : db) (u b : nat) : Z :=
  sumZ (List.map CartRow.quantity (List.filter (is_line u b) (t_rows (cart d)))).

(** The abstract operation POST /api/cart promises. *)
Definition bag_add (f : nat -> nat -> Z) (u b : nat) (q : Z) : nat -> nat -> Z :=
  fun u' b' => if (u' =? u) && (b' =? b) then (f u' b' + q)%Z else f u' b'.

(** ** Lemmas on the cart table *)

Lemma update_keys (p : CartRow.t -> bool) q rows :
  List.map line_key (List.map (fun r => if p r then set_quantity q r else r) rows) =
  List.map line_key rows.
Proof. rewrite List.map_map. apply List.map_ext. intros r. by destruct (p r). Qed.

Lemma select_nil_fresh u b rows :
  List.filter (is_line u b) rows = [] -> (u, b) ∉ List.map line_key rows.
Proof.
  intros Hnil Hin. apply list_elem_of_In, in_map_iff in Hin as (r & Hk & Hr).
  pose proof (filter_nil_false _ _ _ Hnil Hr) as Hf.
  unfold is_line, line_key in *. injection Hk as Hu Hb.
  by rewrite Hu, Hb, !Nat.eqb_refl in Hf.
Qed.

Lemma snoc_unique rows r :
  NoDup (List.map line_key rows) -> line_key r ∉ List.map line_key rows ->
  NoDup (List.map line_key (rows ++ [r])).
Proof.
  intros Hnd Hfresh. rewrite List.map_app. apply NoDup_app. split; [done|].
  split; [|apply NoDup_singleton]. intros x Hx ->%list_elem_of_singleton. done.
Qed.

(** The quantity sums of one key after the row with id [i] is set to [q']. *)
Lemma qty_update_one rows r0 q' u b :
  NoDup (List.map CartRow.id rows) -> In r0 rows ->
  sumZ (List.map CartRow.quantity
          (List.filter (is_line u b)
             (List.map (fun c => if CartRow.id c =? CartRow.id r0 then set_quantity q' c else c)
                rows))) =
  (sumZ (List.map CartRow.quantity (List.filter (is_line u b) rows)) +
   if is_line u b r0 then q' - CartRow.quantity r0 else 0)%Z.
Proof.
  induction rows as [|c rows IH]; intros Hnd Hin; [done|].
  simpl in Hnd. apply NoDup_cons in Hnd as [Hc Hnd]. simpl.
  destruct (CartRow.id c =? CartRow.id r0) eqn:E; reflect_bools.
  - assert (c = r0) as <-.
    { destruct Hin as [->|Hin]; [done|]. exfalso. apply Hc, list_elem_of_In.
      rewrite E. by apply in_map. }
    rewrite map_ext_in_id.
    2:{ intros x Hx. destruct (CartRow.id x =? CartRow.id c) eqn:E'; [|done].
        reflect_bools. exfalso. apply Hc, list_elem_of_In. rewrite <- E'. by apply in_map. }
    unfold is_line, set_quantity at 1; simpl. fold (is_line u b c).
    destruct (is_line u b c); simpl; lia.
  - destruct Hin as [->|Hin]; [done|].
    destruct (is_line u b c); simpl; rewrite (IH Hnd Hin); lia.
Qed.

Lemma qty_snoc rows r u b :
  sumZ (List.map CartRow.quantity (List.filter (is_line u b) (rows ++ [r]))) =
  (sumZ (List.map CartRow.quantity (List.filter (is_line u b) rows)) +
   if is_line u b r then CartRow.quantity r else 0)%Z.
Proof.
  rewrite List.filter_app, List.map_app, sumZ_app. simpl.
  destruct (is_line u b r); simpl; lia.
Qed.

Lemma select_line_In u b rows r0 rs :
  List.filter (is_line u b) rows = r0 :: rs -> In r0 rows /\ is_line u b r0 = true.
Proof. intros H. apply filter_In. rewrite H. by left. Qed.

Lemma is_line_same u b u' b' r0 :
  is_line u b r0 = true -> is_line u' b' r0 = (u' =? u) && (b' =? b).
Proof.
  unfold is_line. intros H. reflect_bools. rewrite H, H0.
  by rewrite (Nat.eqb_sym u'), (Nat.eqb_sym b').
Qed.

(** ** POST /api/cart *)

Section PostCart.
Context `{Bcrypt} (u b : nat) (q : Z) (c : conn).

(** C3: POST /api/cart refines the abstract bag.  Whatever the fault
    schedule, either the handler answers 200 and the number of copies
    of book [b] in the cart of user [u] has grown by [q], every other
    (user, book) count unchanged, or it answers 500 and the database
    is untouched.  The increment is [results[0].quantity + quantity]
    on the first matching line (index.js 143), and no lost copy is
    possible because ids are unique ([db_wf]). *)
Theorem post_cart_refines :
  db_wf (c_db c) ->
  let '(r, c') := run (post_cart u b q) c in
  (status r = 200 /\ forall u' b', qty_of (c_db c') u' b' = bag_add (qty_of (c_db c)) u b q u' b') \/
  (status r = 500 /\ c_db c' = c_db c).
Proof.
  intros Hwf. unfold post_cart, query_or. run_step; [by right|].
  unfold tbl_select. destruct (List.filter _ _) as [|r0 rs] eqn:Hsel; run_step;
    try (by right); left; split; try done; intros u' b'; unfold qty_of, bag_add; simpl.
  - unfold tbl_insert; simpl. rewrite qty_snoc. unfold is_line; simpl.
    rewrite (Nat.eqb_sym u'), (Nat.eqb_sym b').
    destruct ((u =? u') && (b =? b')); lia.
  - destruct (select_line_In _ _ _ _ _ Hsel) as [Hin Hl].
    rewrite qty_update_one; [|apply (tbl_wf_NoDup _ _ (wf_cart _ Hwf))|done].
    rewrite (is_line_same _ _ _ _ _ Hl).
    destruct ((u' =? u) && (b' =? b)); lia.
Qed.

(** C4: POST /api/cart keeps at most one line per (user, book): it
    updates the line it found, and inserts only when the SELECT of
    index.js 136 found none.  (Run on its own: two interleaved requests
    can both find no line and both insert, see C29.) *)
Theorem post_cart_unique :
  cart_unique (c_db c) -> cart_unique (c_db (snd (run (post_cart u b q) c))).
Proof.
  intros Hu. unfold post_cart, query_or. run_step; [done|].
  unfold tbl_select. destruct (List.filter _ _) as [|r0 rs] eqn:Hsel; run_step;
    try done; unfold cart_unique; simpl.
  - unfold tbl_insert; simpl. apply snoc_unique; [done|]. by apply select_nil_fresh.
  - by rewrite update_keys.
Qed.
End PostCart.

(** ** PUT and DELETE /api/cart/:id *)

(** C37: removing a cart line that does not exist is not an error: on
    a working store the answer is 200 "Item removed from cart" and the
    database is unchanged (removeItem is idempotent, spec sections 4
    and 8). *)
Theorem delete_cart_absent `{Bcrypt} i c r c' :
  c_faults c = [] -> ~ In i (tbl_ids CartRow.id (cart (c_db c))) ->
  run (delete_cart i) c = (r, c') ->
  r = mkResponse 200 (Json.Message "Item removed from cart") /\ c_db c' = c_db c.
Proof.
  intros Hnil Hi. unfold delete_cart, query_or. run_step; [no_fault Hnil|].
  intros [= <- <-]. split; [done|]. unfold set_cart, tbl_delete.
  rewrite (filter_ext_in _ (fun _ => true)).
  2:{ intros x Hx. destruct (CartRow.id x =? i) eqn:E; [|done]. reflect_bools.
      exfalso. apply Hi. unfold tbl_ids. rewrite <- E. by apply in_map. }
  rewrite List.filter_true.
  by destruct (c_db c) as [us bs [rows n] os its].
Qed.

(** C23: PUT /api/cart/:id stores any quantity, zero and negative ones
    included, and keeps the line (the spec asks the ledger to reject a
    quantity below 1; only the client's "-" button avoids sending one). *)
Theorem put_cart_accepts_nonpositive `{Bcrypt} line q c r c' :
  c_faults c = [] -> In line (t_rows (cart (c_db c))) -> (q <= 0)%Z ->
  run (put_cart (CartRow.id line) q) c = (r, c') ->
  status r = 200 /\ In (set_quantity q line) (t_rows (cart (c_db c'))).
Proof.
  intros Hnil Hin Hq. unfold put_cart, query_or. run_step; [no_fault Hnil|].
  intros [= <- <-]. split; [done|]. cbn. apply in_map_iff. exists line.
  by rewrite Nat.eqb_refl.
Qed.

Lemma delete_cart_absent_witness :
  fst (run (delete_cart 5) (conn_of sample_db [])) = mkResponse 200 (Json.Message "Item removed from cart") /\
  c_db (snd (run (delete_cart 5) (conn_of sample_db []))) = c_db (conn_of sample_db []).
Proof.
  apply (delete_cart_absent 5 (conn_of sample_db [])); [reflexivity|intros []|].
  vm_compute. reflexivity.
Defined.

Lemma put_cart_accepts_nonpositive_witness :
  status (fst (run (put_cart 1 0) (conn_of sample_with_cart []))) = 200 /\
  In (set_quantity 0 (CartRow.mk 1 1 7 2)) (t_rows (cart (c_db (snd (run (put_cart 1 0) (conn_of sample_with_cart [])))))).
Proof.
  apply (put_cart_accepts_nonpositive (CartRow.mk 1 1 7 2) 0 (conn_of sample_with_cart []));
    [reflexivity|by left|lia|vm_compute; reflexivity].
Defined.

(** Adding two copies of book 7 to Ann's empty cart. *)
Lemma post_cart_refines_witness :
  let '(r, c') := run (post_cart 1 7 2) (conn_of sample_db []) in
  (status r = 200 /\ forall u' b', qty_of (c_db c') u' b' =
     bag_add (qty_of sample_db) 1 7 2 u' b') \/
  (status r = 500 /\ c_db c' = sample_db).
Proof. apply (post_cart_refines 1 7 2 (conn_of sample_db [])). exact sample_db_wf. Defined.

Lemma post_cart_unique_witness :
  cart_unique (c_db (snd (run (post_cart 1 7 2) (conn_of sample_db [false; true])))).
Proof. apply (post_cart_unique 1 7 2 (conn_of sample_db [false; true])). constructor. Defined.

End CartApi.
