(* ===== verification/Orders.v ===== *)
(** * Order placement and order history: POST/GET /api/orders

    POST /api/orders (index.js 210-285) opens a transaction on the shared
    connection, inserts the order, inserts its items in one multi-row
    INSERT, deletes the caller's whole cart and commits; every error
    callback rolls back.  GET /api/orders (index.js 288-312) joins orders,
    order_items and books, groups by order and sorts by date.

    Theorems: atomicity of the transaction under every fault schedule
    (either exactly the described writes, or no visible change); what a
    placed order contains; the conditions without which no order can be
    placed; the history's contents, order and price snapshot. *)

From Stdlib Require Import Sorted Permutation.
From S2P Require Import Prelude Schema Crypto Sql.

Module OrdersApi.

(** One element of the request's [items] array. *)
Record item := mkItem { book_id : nat; quantity : Z; price : Z }.

(** [[orderId, item.book_id, item.quantity, item.price]] (index.js 233-238) *)
Definition item_row (orderId : nat) (it : item) : nat * nat * Z * Z :=
  (orderId, book_id it, quantity it, price it).

(** POST /api/orders (index.js 210-285). *)
Definition post_orders (user_id : nat) (items : list item) (total_amount : Z)
    (shipping_address : Shipping.t) : prog :=
  Begin (fun err =>
  match err with
  | Some _ => fail 500 "Transaction failed"
  | None =>
    Query (InsertOrder user_id total_amount shipping_address) (fun r =>
    match r with
    | inl _ => Rollback (fail 500 "Order creation failed")
    | inr orderId =>
      let orderItems := List.map (item_row orderId) items in
      Query (InsertOrderItems orderItems) (fun r =>
      match r with
      | inl _ => Rollback (fail 500 "Order items failed")
      | inr _ =>
        Query (DeleteCartByUser user_id) (fun r =>
        match r with
        | inl _ => Rollback (fail 500 "Cart clear failed")
        | inr _ =>
          Commit (fun err =>
          match err with
          | Some _ => Rollback (fail 500 "Commit failed")
          | None => reply 200 (Json.OrderPlaced "Order placed successfully" orderId)
          end)
        end)
      end)
    end)
  end).

(** GET /api/orders (index.js 288-312). *)
Definition get_orders (user_id : nat) : prog :=
  let%sql results := SelectOrderHistory user_id or "Database error" in
  reply 200 (Json.Orders results).

(** ** What a placed order writes *)

(** [d'] is [d] with order [oid] of user [u] placed at time [now]: one
    new order row, one item row per requested item with the requested
    price, the user's cart lines gone, nothing else changed. *)
Definition order_placed (d d' : db) (u : nat) (items : list item) (tot : Z)
    (ship : Shipping.t) (now : Z) (oid : nat) : Prop :=
  t_rows (orders d') = t_rows (orders d) ++ [OrderRow.mk oid u tot ship now None None] /\
  (exists fresh, t_rows (order_items d') = t_rows (order_items d) ++ fresh /\
                 List.map item_tuple fresh = List.map (item_row oid) items) /\
  t_rows (cart d') = List.filter (fun c => negb (CartRow.user_id c =? u)) (t_rows (cart d)) /\
  t_rows (users d') = t_rows (users d) /\ t_rows (books d') = t_rows (books d).

(** A rolled-back failure: 500, transaction closed, content restored. *)
Ltac rolled_back :=
  cbn [run fail reply]; erewrite conn_rollback_some by (autorewrite with conn_rw; reflexivity);
  autorewrite with conn_rw; cbn [run status];
  split; [done|right; split; [done|apply db_restore_equiv]].

(** C1: the order transaction is atomic.  For every fault schedule, a
    POST /api/orders started outside a transaction ends with the
    transaction closed and either answers 200 with the new order's id
    after making exactly the writes of [order_placed] (the order row,
    its items at the requested prices, the caller's cart emptied), or
    answers 500 and leaves the content of every table as it was (only
    AUTO_INCREMENT counters may have moved).  This is the rollback on
    each error callback of index.js 224-266. *)
Theorem post_orders_atomic `{Bcrypt} u items tot ship c :
  c_txn c = None ->
  let '(r, c') := run (post_orders u items tot ship) c in
  c_txn c' = None /\
  ((status r = 200 /\ exists oid,
      body r = Json.OrderPlaced "Order placed successfully" oid /\
      order_placed (c_db c) (c_db c') u items tot ship (c_now c) oid) \/
   (status r = 500 /\ db_equiv (c_db c') (c_db c))).
Proof.
  intros Htx. unfold post_orders.
  run_step; [split; [done|right; split; [done|reflexivity]]|].
  run_step; [rolled_back|].
  run_step; [rolled_back|].
  destruct (List.map (item_row _) items) as [|x xs] eqn:Hm; cbn [fst snd]; [rolled_back|].
  destruct (forallb _ _) eqn:Hf; cbn [fst snd]; [|rolled_back].
  run_step; [rolled_back|].
  run_step; [rolled_back|].
  cbn [status body]. split; [done|left; split; [done|]].
  eexists; split; [done|].
  destruct (insert_items_rows (x :: xs) (order_items (c_db c))) as (fresh & Hr & Hmap).
  repeat split; simpl; try done.
  exists fresh. split; [exact Hr|]. rewrite Hmap, <- Hm. done.
Qed.

(** ** Orders that cannot be placed *)

(** The books of the items, as [item_refs_ok] checks them. *)
Definition items_in_catalog (d : db) (items : list item) : Prop :=
  Forall (fun it => exists b, In b (t_rows (books d)) /\ BookRow.id b = book_id it) items.

Lemma refs_ok_catalog d oid items :
  forallb (item_refs_ok d) (List.map (item_row oid) items) = true -> items_in_catalog d items.
Proof.
  intros H. pose proof (proj1 (forallb_forall _ _) H) as Hall. apply Forall_forall.
  intros it Hit%list_elem_of_In. specialize (Hall (item_row oid it) (in_map _ _ _ Hit)) as H'. unfold item_refs_ok, item_row in H'.
  reflect_bools. apply existsb_exists in H1 as (b & Hb & Hid). reflect_bools. by exists b.
Qed.

(** C11: POST /api/orders succeeds only for a non-empty list of items
    whose books all exist: with no items the multi-row INSERT of
    index.js 241 expands to [VALUES ] and fails, and an unknown book
    violates the foreign key; both end in the rollback of index.js 245. *)
Theorem post_orders_success_requires `{Bcrypt} u items tot ship c :
  status (fst (run (post_orders u items tot ship) c)) = 200 ->
  items <> [] /\ items_in_catalog (c_db c) items.
Proof.
  unfold post_orders. run_step; [done|]. run_step; [done|]. run_step; [done|].
  destruct (List.map (item_row _) items) as [|x xs] eqn:Hm; cbn [fst snd]; [done|].
  destruct (forallb _ _) eqn:Hf; cbn [fst snd]; [|done].
  intros _. split; [by intros ->|].
  rewrite <- Hm in Hf. apply refs_ok_catalog in Hf. exact Hf.
Qed.

(** With a working store, a non-empty order of catalogue books is
    placed: the statements of index.js 215-266 all succeed. *)
Lemma post_orders_ok `{Bcrypt} u items tot ship c :
  c_faults c = [] -> c_txn c = None -> items <> [] -> items_in_catalog (c_db c) items ->
  exists oid c', run (post_orders u items tot ship) c =
                   (mkResponse 200 (Json.OrderPlaced "Order placed successfully" oid), c') /\
                 c_txn c' = None /\ order_placed (c_db c) (c_db c') u items tot ship (c_now c) oid.
Proof.
  intros Hnil Htx Hne Hcat. unfold post_orders.
  run_step; [no_fault Hnil|]. run_step; [no_fault Hnil|]. run_step; [no_fault Hnil|].
  destruct (List.map (item_row _) items) as [|x xs] eqn:Hm; [by destruct items|].
  rewrite (proj2 (forallb_forall _ _)); cbn [fst snd].
  2:{ rewrite <- Hm. intros row (it & <- & Hit)%in_map_iff. unfold item_refs_ok, item_row. cbn.
      apply andb_true_intro. split.
      - apply existsb_exists. eexists. split; [apply in_or_app; right; left; reflexivity|].
        apply Nat.eqb_refl.
      - apply (proj1 (List.Forall_forall _ _) Hcat) in Hit as (b & Hb & Hid).
        apply existsb_exists. exists b. split; [done|]. by apply Nat.eqb_eq. }
  run_step; [no_fault Hnil|]. run_step; [no_fault Hnil|].
  eexists _, _. split; [reflexivity|]. split; [by autorewrite with conn_rw|].
  destruct (insert_items_rows (x :: xs) (order_items (c_db c))) as (fresh & Hr & Hmap).
  repeat split; simpl; try done.
  exists fresh. split; [exact Hr|]. rewrite Hmap, <- Hm. done.
Qed.

(** ** The order history query *)

(** Newer first. *)
Definition date_ge (a b : OrderView.t) : Prop := (view_date b <= view_date a)%Z.

Lemma insert_date_desc_perm v l : Permutation (insert_date_desc v l) (v :: l).
Proof.
  induction l as [|w l IH]; simpl; [done|].
  destruct (view_date w <=? view_date v)%Z; [done|].
  rewrite IH. apply perm_swap.
Qed.

Lemma sort_date_desc_perm l : Permutation (sort_date_desc l) l.
Proof.
  induction l as [|v l IH]; simpl; [done|].
  rewrite insert_date_desc_perm. by apply perm_skip.
Qed.

Lemma insert_date_desc_hd w v l :
  date_ge w v -> HdRel date_ge w l -> HdRel date_ge w (insert_date_desc v l).
Proof.
  intros Hv Hl. destruct l as [|x l]; simpl; [by constructor|].
  destruct (view_date x <=? view_date v)%Z; constructor; [done|]. by inversion Hl.
Qed.

Lemma insert_date_desc_sorted v l :
  Sorted date_ge l -> Sorted date_ge (insert_date_desc v l).
Proof.
  induction 1 as [|w l Hl IH Hhd]; simpl; [by repeat constructor|].
  destruct (view_date w <=? view_date v)%Z eqn:E.
  - constructor; [by constructor|]. constructor. unfold date_ge. lia.
  - constructor; [done|]. apply insert_date_desc_hd; [unfold date_ge; lia|done].
Qed.

Lemma sort_date_desc_sorted l : Sorted date_ge (sort_date_desc l).
Proof. induction l; simpl; [constructor|by apply insert_date_desc_sorted]. Qed.

(** C13: the history is ORDER BY order_date DESC of the grouped orders:
    sorted newest first and a permutation of what the join grouped. *)
Theorem order_history_sorted u d :
  Sorted date_ge (order_history u d) /\ Permutation (order_history u d) (group_orders u d).
Proof. split; [apply sort_date_desc_sorted|apply sort_date_desc_perm]. Qed.

(** C9: an order appears in the history exactly when it belongs to the
    user and at least one of its items joins with a book that still
    exists; it then carries exactly those items.  The inner joins of
    index.js 301-302 drop every other order. *)
Theorem order_history_members u d v :
  In v (order_history u d) <->
  exists o, In o (t_rows (orders d)) /\ OrderRow.user_id o = u /\
            order_item_views d o <> [] /\ v = OrderView.mk o (order_item_views d o).
Proof.
  unfold order_history. split.
  - intros Hin. apply (Permutation_in _ (sort_date_desc_perm _)) in Hin.
    apply in_flat_map in Hin as (o & Ho & Hv). unfold tbl_select in Ho.
    apply filter_In in Ho as [Ho Hu]. reflect_bools.
    destruct (order_item_views d o) as [|it its] eqn:E; [done|].
    destruct Hv as [<-|[]]. exists o. by rewrite E.
  - intros (o & Ho & Hu & Hne & ->). apply (Permutation_in _ (Permutation_sym (sort_date_desc_perm _))).
    apply in_flat_map. exists o. split.
    + apply filter_In. split; [done|]. by apply Nat.eqb_eq.
    + destruct (order_item_views d o); [done|]. by left.
Qed.

(** The (id, title) projection of the catalogue: all the history reads. *)
Definition catalog_titles (d : db) : list (nat * string) :=
  List.map (fun b => (BookRow.id b, BookRow.title b)) (t_rows (books d)).

Lemma item_views_titles (d d' : db) o :
  catalog_titles d' = catalog_titles d -> order_items d' = order_items d ->
  order_item_views d' o = order_item_views d o.
Proof.
  intros Ht Hi. unfold order_item_views. rewrite Hi. apply List.flat_map_ext. intros oi.
  assert (forall bs : list BookRow.t,
    List.map (fun b => OrderView.mkItem (BookRow.title b) (OrderItemRow.quantity oi)
                         (OrderItemRow.price oi))
      (List.filter (fun b => BookRow.id b =? OrderItemRow.book_id oi) bs) =
    List.map (fun p => OrderView.mkItem (snd p) (OrderItemRow.quantity oi) (OrderItemRow.price oi))
      (List.filter (fun p => fst p =? OrderItemRow.book_id oi)
         (List.map (fun b => (BookRow.id b, BookRow.title b)) bs))) as Hproj.
  { induction bs as [|b bs IH]; simpl; [done|]. destruct (BookRow.id b =? _); simpl; by rewrite IH. }
  rewrite !Hproj. unfold catalog_titles in Ht. by rewrite Ht.
Qed.

(** C12: prices in the history are the ones recorded at order time.
    Changing anything of the catalogue but the ids and titles of its
    books (a price in particular) leaves GET /api/orders unchanged: the
    query reads [oi.price], never [b.price] (index.js 297). *)
Theorem order_history_price_snapshot u d d' :
  catalog_titles d' = catalog_titles d -> orders d' = orders d ->
  order_items d' = order_items d -> order_history u d' = order_history u d.
Proof.
  intros Ht Ho Hi. unfold order_history, group_orders. rewrite Ho. f_equal.
  apply List.flat_map_ext. intros o. by rewrite (item_views_titles d d' o Ht Hi).
Qed.

(** An order with no item row, as the spec's history must still list. *)
Definition db_with_empty_order : db :=
  set_orders (mkTable [OrderRow.mk 1 1 0 (Shipping.mk "" "" "" "" "" "") 900 None None] 2)
    sample_db.

(** The history drops an order without items: user 1 owns order 1,
    yet GET /api/orders lists nothing (the spec asks for the order with
    an empty item list, i.e. an outer join). *)
Example order_history_drops_itemless_order :
  In 1 (List.map OrderRow.id (t_rows (orders db_with_empty_order))) /\
  order_history 1 db_with_empty_order = [].
Proof. split; [left; done|vm_compute; reflexivity]. Qed.

Definition sample_ship : Shipping.t :=
  Shipping.mk "Ann" "ann@example.com" "1 Main St" "Springfield" "12345" "555-0100".

(** Ann orders two copies of book 7; the third statement fails. *)
Lemma post_orders_atomic_witness :
  let '(r, c') := run (post_orders 1 [mkItem 7 2 1500] 3300 sample_ship)
                      (conn_of sample_db [false; false; true]) in
  c_txn c' = None /\
  ((status r = 200 /\ exists oid,
      body r = Json.OrderPlaced "Order placed successfully" oid /\
      order_placed sample_db (c_db c') 1 [mkItem 7 2 1500] 3300 sample_ship 1000 oid) \/
   (status r = 500 /\ db_equiv (c_db c') sample_db)).
Proof.
  apply (post_orders_atomic 1 [mkItem 7 2 1500] 3300 sample_ship
           (conn_of sample_db [false; false; true])).
  reflexivity.
Defined.

Lemma post_orders_success_requires_witness :
  [mkItem 7 2 1500] <> [] /\ items_in_catalog sample_db [mkItem 7 2 1500].
Proof.
  apply (post_orders_success_requires 1 [mkItem 7 2 1500] 3300 sample_ship (conn_of sample_db [])).
  vm_compute. reflexivity.
Defined.

(** One order of Ann with one item, and the same store after book 7 was
    repriced from 15.00 to 99.00. *)
Definition db_with_order : db :=
  set_order_items (mkTable [OrderItemRow.mk 1 1 7 2 1500] 2)
    (set_orders (mkTable [OrderRow.mk 1 1 3300 sample_ship 1000 None None] 2) sample_db).

Definition db_repriced : db :=
  mkDb (users db_with_order)
       (mkTable [book_fixture 1 "Dune" 1000; book_fixture 2 "Emma" 500;
                 book_fixture 7 "Odyssey" 9900] 8)
       (cart db_with_order) (orders db_with_order) (order_items db_with_order).

Lemma order_history_price_snapshot_witness :
  order_history 1 db_repriced = order_history 1 db_with_order.
Proof. apply order_history_price_snapshot; reflexivity. Defined.

End OrdersApi.
