(* ===== verification/Server.v ===== *)
(** * The Express application: routes and middleware (index.js 9-362)

    [app] dispatches a request to its handler, behind [authenticateToken]
    for the protected routes, as the [app.get/post/put/delete] calls of
    index.js register them.  The cross-component theorems live here: what
    a caller can do to another user's data through the routes, and the
    contract of every answer: its status and the JSON shape of its
    route ([response_ok]). *)

From S2P Require Import Prelude Schema Crypto Sql Auth Users Catalog Cart Orders.

Module Server.

(** The routes of index.js with their (already parsed) JSON bodies and
    the [Authorization] header of the protected ones. *)
Inductive request :=
| Register (name email password : string)
| Login (email password : string)
| GetBooks
| GetBook (id : nat)
| AddToCart (authorization : option string) (book_id : nat) (quantity : Z)
| GetCart (authorization : option string)
| UpdateCart (authorization : option string) (id : nat) (quantity : Z)
| RemoveFromCart (authorization : option string) (id : nat)
| PlaceOrder (authorization : option string) (items : list OrdersApi.item)
    (total_amount : Z) (shipping_address : Shipping.t)
| GetOrders (authorization : option string)
| ChangePassword (authorization : option string) (currentPassword newPassword : string)
| GetProfile (authorization : option string).

(** The body each route sends with a 2xx status (index.js: [res.json]
    and [res.status(201).json]); [GET /api/users/profile] sends
    [results[0]], [undefined] for a missing user. *)
Definition success_shape (req : request) (b : Json.t) : bool :=
  match req, b with
  | Register _ _ _, Json.Registered _ _ => true
  | Login _ _, Json.LoggedIn _ _ _ _ _ => true
  | GetBooks, Json.Books _ => true
  | GetBook _, Json.Book _ => true
  | AddToCart _ _ _, Json.Message _ => true
  | GetCart _, Json.Cart _ => true
  | UpdateCart _ _ _, Json.Message _ => true
  | RemoveFromCart _ _, Json.Message _ => true
  | PlaceOrder _ _ _ _, Json.OrderPlaced _ _ => true
  | GetOrders _, Json.Orders _ => true
  | ChangePassword _ _ _, Json.Message _ => true
  | GetProfile _, Json.ProfileOf _ => true
  | _, _ => false
  end.

(** What the client may rely on: an error body comes with a 4xx or 5xx
    status (or none, status 0, when the handler throws), any other body
    with 200 or 201 and the shape of its route. *)
Definition response_ok (req : request) (r : response) : bool :=
  match body r with
  | Json.Error _ => (status r =? 0) || ((400 <=? status r) && (status r <? 600))
  | b => ((status r =? 200) || (status r =? 201)) && success_shape req b
  end.

(** Every answer a callback chain can give satisfies [P]. *)
Inductive leaves (P : response -> Prop) : prog -> Prop :=
| lv_respond r : P r -> leaves P (Respond r)
| lv_query A (q : sql A) k : (forall x, leaves P (k x)) -> leaves P (Query q k)
| lv_begin k : (forall e, leaves P (k e)) -> leaves P (Begin k)
| lv_commit k : (forall e, leaves P (k e)) -> leaves P (Commit k)
| lv_rollback k : leaves P k -> leaves P (Rollback k)
| lv_hash pw k : (forall h, leaves P (k h)) -> leaves P (BcryptHash pw k)
| lv_time k : (forall t, leaves P (k t)) -> leaves P (GetTime k).

Lemma run_leaves `{Bcrypt} P p c : leaves P p -> P (fst (run p c)).
Proof.
  intros Hl. revert c. induction Hl; intros c; cbn [run];
    repeat match goal with |- context [let '(_, _) := ?e in _] => destruct e end; auto.
Qed.

(** Follow every branch of a handler down to its answers. *)
Ltac leaves_branches :=
  repeat first
    [ progress cbn beta iota
    | match goal with
      | |- leaves _ (match ?x with _ => _ end) => destruct x
      | |- leaves _ (if ?b then _ else _) => destruct b
      | |- leaves _ (Respond _) => apply lv_respond
      | |- leaves _ _ => constructor
      end
    | intros ].

Section App.
Context `{Bcrypt} `{Jwt} (JWT_SECRET : string).

Definition app (req : request) : prog :=
  let guard h k := AuthMw.authenticateToken JWT_SECRET h k in
  match req with
  | Register n e p => UsersApi.post_register n e p
  | Login e p => UsersApi.post_login JWT_SECRET e p
  | GetBooks => CatalogApi.get_books
  | GetBook i => CatalogApi.get_book i
  | AddToCart h b q => guard h (fun user => CartApi.post_cart (userId user) b q)
  | GetCart h => guard h (fun user => CartApi.get_cart (userId user))
  | UpdateCart h i q => guard h (fun _ => CartApi.put_cart i q)
  | RemoveFromCart h i => guard h (fun _ => CartApi.delete_cart i)
  | PlaceOrder h its tot ship => guard h (fun user => OrdersApi.post_orders (userId user) its tot ship)
  | GetOrders h => guard h (fun user => OrdersApi.get_orders (userId user))
  | ChangePassword h cur nw => guard h (fun user => UsersApi.put_password (userId user) cur nw)
  | GetProfile h => guard h (fun user => UsersApi.get_profile (userId user))
  end.

(** The header a logged-in client sends. *)
Definition bearer (token : string) : option string := Some ("Bearer " ++ token)%string.

(** Requests served one after the other on the connection. *)
Fixpoint run_all (reqs : list request) (c : conn) : list response * conn :=
  match reqs with
  | [] => ([], c)
  | q :: qs => let '(r, c1) := run (app q) c in
               let '(rs, c2) := run_all qs c1 in (r :: rs, c2)
  end.

(** C5: PUT and DELETE /api/cart/:id never look at the caller: with any
    valid token, a user removes a cart line of another user (index.js
    200-207 deletes [WHERE id = ?] only). *)
Theorem remove_from_cart_any_owner u e c line :
  (c_now c < e)%Z -> AuthMw.no_space (jwt_sign u JWT_SECRET e) = true ->
  jwt_sign u JWT_SECRET e <> EmptyString -> c_faults c = [] ->
  In line (t_rows (cart (c_db c))) -> CartRow.user_id line <> userId u ->
  let '(r, c') := run (app (RemoveFromCart (bearer (jwt_sign u JWT_SECRET e)) (CartRow.id line))) c in
  status r = 200 /\ ~ In line (t_rows (cart (c_db c'))).
Proof.
  intros Hnow Hsp Hne Hnil Hin Howner. cbn [app]. unfold bearer.
  rewrite AuthMw.authenticate_run by done.
  unfold CartApi.delete_cart, query_or. run_step; [no_fault Hnil|]. split; [done|].
  cbn. rewrite filter_In. intros [_ Hkeep]. by rewrite Nat.eqb_refl in Hkeep.
Qed.

(** C40: every answer has the shape the client expects of its route:
    whatever the request, the database, the token and the fault
    schedule, an error body comes with a 4xx or 5xx status (or with no
    answer at all), and any other body with 200 or 201 and the JSON the
    route promises ([token] and [user] for a login, the [orderId] of a
    placed order, ...). *)
Theorem app_response_ok req c : response_ok req (fst (run (app req) c)) = true.
Proof.
  apply (run_leaves (fun r => response_ok req r = true)).
  destruct req; cbn [app];
    unfold AuthMw.authenticateToken, UsersApi.post_register, UsersApi.post_login,
      UsersApi.put_password, UsersApi.get_profile, CatalogApi.get_books, CatalogApi.get_book,
      CartApi.post_cart, CartApi.get_cart, CartApi.put_cart, CartApi.delete_cart,
      OrdersApi.post_orders, OrdersApi.get_orders, query_or, fail, reply, crash;
    leaves_branches; reflexivity.
Qed.

End App.

(** Bob (user 2) deletes Ann's cart line 1 with his own token. *)
Lemma remove_from_cart_any_owner_witness :
  let '(r, c') := run (app "s3cret" (RemoveFromCart
                         (bearer (jwt_sign (mkClaims 2 "bob@example.com") "s3cret" 87400))
                         (CartRow.id (CartRow.mk 1 1 7 2)))) (conn_of sample_with_cart []) in
  status r = 200 /\ ~ In (CartRow.mk 1 1 7 2) (t_rows (cart (c_db c'))).
Proof.
  apply remove_from_cart_any_owner;
    [vm_compute; reflexivity|vm_compute; reflexivity|discriminate|reflexivity|by left|discriminate].
Defined.

End Server.
