(* ===== verification/Concurrency.v ===== *)
(** * Requests interleaved on the shared connection (src/server/db.js)

    Node serves requests concurrently on one event loop.  A handler runs
    until it issues an asynchronous call (a statement, START TRANSACTION,
    COMMIT, ROLLBACK, [bcrypt.hash]) and continues in that call's
    callback, so the callbacks of different requests interleave; all of
    them use the ONE connection db.js exports, and with it one
    transaction state.  [settle] runs the synchronous part of a callback
    ([jwt.verify] calls its callback synchronously, [res.json] ends the
    request); [step1] performs the next asynchronous call of one request
    and settles its callback; [interleave] runs a schedule of such steps
    over a pool of requests.  mysql2 executes the statements of a
    connection in the order they are issued, so every schedule is an
    order in which the event loop can run the callbacks.

    Theorems: a request served alone finishes after [steps] callbacks
    with the answer and the connection of [run], so the theorems of the
    other files describe requests served one at a time; two concurrent
    adds of the same book both insert a line, breaking the invariant of
    C4; an order that rolls back undoes the write of a request that ran,
    and was answered, while its transaction was open; and no request
    waits forever: taking the pending requests in turn, seven rounds
    answer them all, since no handler makes more than seven
    asynchronous calls ([calls_within]). *)

From S2P Require Import Prelude Schema Crypto Sql Auth Users Catalog Cart Orders Server.

Module Concurrency.

(** A request in flight: its pending callback chain, or its answer. *)
Definition thread := (prog + response)%type.

Section Interleave.
Context `{Bcrypt}.

(** The synchronous part of a callback: up to the next asynchronous call. *)
Fixpoint settle (p : prog) (c : conn) : thread :=
  match p with
  | Respond r => inr r
  | GetTime k => settle (k (c_now c)) c
  | _ => inl p
  end.

(** One turn of the event loop for one request: its pending call is
    performed on the connection and its callback runs. *)
Definition step1 (p : prog) (c : conn) : thread * conn :=
  match p with
  | Respond r => (inr r, c)
  | GetTime _ => (settle p c, c)
  | Query q k => let '(x, c') := conn_query q c in (settle (k x) c', c')
  | Begin k => let '(e, c') := conn_begin c in (settle (k e) c', c')
  | Commit k => let '(e, c') := conn_commit c in (settle (k e) c', c')
  | Rollback k => (settle k (conn_rollback c), conn_rollback c)
  | BcryptHash pw k =>
      (settle (k (bcrypt_hash (c_salt c) pw)) (bump_salt c), bump_salt c)
  end.

(** A schedule names, turn by turn, the request whose callback runs; a
    finished request, or a name outside the pool, is a turn skipped. *)
Fixpoint interleave (sched : list nat) (ts : list thread) (c : conn) : list thread * conn :=
  match sched with
  | [] => (ts, c)
  | i :: s =>
      match ts !! i with
      | Some (inl p) => let '(t, c') := step1 p c in interleave s (<[i := t]> ts) c'
      | _ => interleave s ts c
      end
  end.

(** The number of asynchronous calls [run] makes. *)
Fixpoint steps (p : prog) (c : conn) : nat :=
  match p with
  | Respond _ => 0
  | GetTime k => steps (k (c_now c)) c
  | Query q k => let '(x, c') := conn_query q c in S (steps (k x) c')
  | Begin k => let '(e, c') := conn_begin c in S (steps (k e) c')
  | Commit k => let '(e, c') := conn_commit c in S (steps (k e) c')
  | Rollback k => S (steps k (conn_rollback c))
  | BcryptHash pw k => S (steps (k (bcrypt_hash (c_salt c) pw)) (bump_salt c))
  end.

Lemma interleave_done s r c : interleave s [inr r] c = ([inr r], c).
Proof. induction s as [|i s IH]; [done|]. simpl. by destruct i. Qed.

(** The event-loop semantics refines [run]: a callback chain
    served alone, one asynchronous call per turn, has finished after
    [steps p c] turns with the answer and the connection [run] gives,
    and further turns change nothing.  The sequential theorems of the
    other files are thus theorems about a request served alone. *)
Theorem interleave_alone p c n :
  steps p c <= n ->
  interleave (repeat 0 n) [settle p c] c = ([inr (fst (run p c))], snd (run p c)).
Proof.
  revert c n. induction p as [r|A q k IH|k IH|k IH|k IH|pw k IH|k IH]; intros c n Hn;
    cbn [settle run steps] in *; [by rewrite interleave_done| | | | | |by apply IH];
    [destruct (conn_query q c) as [x c'] eqn:E|destruct (conn_begin c) as [x c'] eqn:E
    |destruct (conn_commit c) as [x c'] eqn:E| |];
    (destruct n as [|n]; [lia|]); cbn [repeat interleave lookup list_lookup step1];
    rewrite ?E; apply IH; lia.
Qed.

(** ** Bounded callback chains *)

(** [calls_within n p]: on every path, [p] makes at most [n] calls
    (reading the clock counted as one). *)
Inductive calls_within : nat -> prog -> Prop :=
| cw_respond n r : calls_within n (Respond r)
| cw_query n A (q : sql A) k : (forall x, calls_within n (k x)) -> calls_within (S n) (Query q k)
| cw_begin n k : (forall e, calls_within n (k e)) -> calls_within (S n) (Begin k)
| cw_commit n k : (forall e, calls_within n (k e)) -> calls_within (S n) (Commit k)
| cw_rollback n k : calls_within n k -> calls_within (S n) (Rollback k)
| cw_hash n pw k : (forall h, calls_within n (k h)) -> calls_within (S n) (BcryptHash pw k)
| cw_time n k : (forall t, calls_within n (k t)) -> calls_within (S n) (GetTime k).

#[local] Hint Constructors calls_within : bookstore.

Lemma calls_within_S n p : calls_within n p -> calls_within (S n) p.
Proof. induction 1; eauto with bookstore. Qed.

(** A request in flight is waiting for a call, or answered. *)
Definition waiting (p : prog) : bool :=
  match p with Respond _ | GetTime _ => false | _ => true end.

Definition thread_within (n : nat) (t : thread) : Prop :=
  match t with inr _ => True | inl p => waiting p = true /\ calls_within n p end.

Lemma settle_within n p c : calls_within n p -> thread_within n (settle p c).
Proof.
  induction 1; cbn [settle thread_within waiting]; eauto using calls_within_S with bookstore.
  specialize (H1 (c_now c)). destruct (settle _ c); [|done]. destruct H1; split; auto using calls_within_S.
Qed.

Lemma step1_within n p c :
  waiting p = true -> calls_within (S n) p -> thread_within n (fst (step1 p c)).
Proof.
  intros Hw Hp. inversion Hp; subst; cbn [step1 waiting] in *; try done;
    repeat match goal with |- context [let '(_, _) := ?e in _] => destruct e end;
    by apply settle_within.
Qed.

(** A turn of request [j] lowers its bound and leaves the others. *)
Lemma interleave_turn n j s ts c :
  (forall t, ts !! j = Some t -> thread_within (S n) t) ->
  exists ts' c', interleave (j :: s) ts c = interleave s ts' c' /\
    (forall t, ts' !! j = Some t -> thread_within n t) /\
    (forall i, i <> j -> ts' !! i = ts !! i) /\ length ts' = length ts.
Proof.
  intros Hj. cbn [interleave]. destruct (ts !! j) as [[p|r]|] eqn:E.
  - destruct (step1 p c) as [t c'] eqn:Es.
    destruct (Hj _ eq_refl) as [Hw Hp]. pose proof (step1_within n p c Hw Hp) as Ht.
    rewrite Es in Ht. exists (<[j:=t]> ts), c'. split; [done|]. split; [|split].
    + intros t'. rewrite list_lookup_insert_eq by (by eapply lookup_lt_Some). by intros [= <-].
    + intros i Hi. by apply list_lookup_insert_ne.
    + apply length_insert.
  - exists ts, c. rewrite E. repeat split; [|done..]. by intros t [= <-].
  - exists ts, c. rewrite E. repeat split; [|done..]. by intros t [=].
Qed.

(** One round over the requests [j], ..., [j + k - 1]. *)
Lemma interleave_round n k j ts c s :
  length ts <= j + k ->
  (forall i t, ts !! i = Some t -> thread_within (if decide (i < j) then n else S n) t) ->
  exists ts' c', interleave (seq j k ++ s) ts c = interleave s ts' c' /\
    (forall i t, ts' !! i = Some t -> thread_within n t) /\ length ts' = length ts.
Proof.
  revert j ts c. induction k as [|k IH]; intros j ts c Hlen Hts.
  - exists ts, c. split; [done|]. split; [|done]. intros i t Hi.
    pose proof (lookup_lt_Some _ _ _ Hi). specialize (Hts _ _ Hi).
    by rewrite decide_True in Hts by lia.
  - destruct (interleave_turn n j (seq (S j) k ++ s) ts c) as (ts1 & c1 & Heq & Hj & Hne & Hl).
    { intros t Ht. specialize (Hts _ _ Ht). by rewrite decide_False in Hts by lia. }
    destruct (IH (S j) ts1 c1) as (ts' & c' & Heq' & Hall & Hl'); [lia| |].
    { intros i t Ht. destruct (decide (i = j)) as [->|Hij].
      - rewrite decide_True by lia. by apply Hj.
      - rewrite Hne in Ht by done. specialize (Hts _ _ Ht).
        destruct (decide (i < j)), (decide (i < S j)); try lia; done. }
    exists ts', c'. cbn [seq app]. rewrite Heq, Heq'. split; [done|]. split; [done|lia].
Qed.

(** [r] rounds of round-robin scheduling over [m] requests. *)
Fixpoint round_robin (r m : nat) : list nat :=
  match r with
  | 0 => []
  | S r => seq 0 m ++ round_robin r m
  end.

Lemma interleave_rounds r ts c :
  (forall i t, ts !! i = Some t -> thread_within r t) ->
  forall i t, fst (interleave (round_robin r (length ts)) ts c) !! i = Some t -> thread_within 0 t.
Proof.
  revert ts c. induction r as [|r IH]; intros ts c Hts; [exact Hts|].
  destruct (interleave_round r (length ts) 0 ts c (round_robin r (length ts)))
    as (ts' & c' & Heq & Hall & Hl); [lia|done|].
  cbn [round_robin]. rewrite Heq, <- Hl. by apply IH.
Qed.

Lemma thread_within_0 t : thread_within 0 t -> exists r, t = inr r.
Proof.
  destruct t as [p|r]; [|eauto]. intros [Hw Hp]. inversion Hp; subst. done.
Qed.

End Interleave.

Section Requests.
Context `{Bcrypt} `{Jwt} (JWT_SECRET : string).

(** A request as it arrives: [app] runs up to its first asynchronous call. *)
Definition start (c : conn) (req : Server.request) : thread :=
  settle (Server.app JWT_SECRET req) c.

(** The bearer header of a valid token passes [authenticateToken]. *)
Lemma settle_authenticate u e next c :
  (c_now c < e)%Z ->
  AuthMw.no_space (jwt_sign u JWT_SECRET e) = true -> jwt_sign u JWT_SECRET e <> EmptyString ->
  settle (AuthMw.authenticateToken JWT_SECRET (Server.bearer (jwt_sign u JWT_SECRET e)) next) c =
  settle (next u) c.
Proof.
  intros Hnow Hsp Hne. unfold AuthMw.authenticateToken, Server.bearer.
  change ("Bearer " ++ jwt_sign u JWT_SECRET e)%string
    with ("Bearer" ++ " " ++ jwt_sign u JWT_SECRET e)%string.
  rewrite (AuthMw.bearer_token_word "Bearer") by done. cbn [settle].
  by rewrite jwt_verify_sign.
Qed.

(** Two lines for the same (user, book) pair break [cart_unique]. *)
Lemma twice_not_unique rows r1 r2 :
  CartApi.line_key r1 = CartApi.line_key r2 ->
  ~ NoDup (List.map CartApi.line_key ((rows ++ [r1]) ++ [r2])).
Proof.
  intros Hk Hnd. rewrite <- app_assoc, List.map_app in Hnd.
  apply NoDup_app in Hnd as (_ & _ & Hnd). cbn in Hnd. rewrite Hk in Hnd.
  apply NoDup_cons in Hnd as [Hn _]. apply Hn. by left.
Qed.

(** C29: two requests adding the same book to the same cart, their
    callbacks interleaved (both SELECTs of index.js 136 before either
    INSERT), both answer "Added to cart" and leave two lines for that
    book: the check-then-insert of POST /api/cart is not atomic, and
    the one-line-per-book invariant of C4 does not survive concurrency. *)
Theorem concurrent_adds_duplicate u e b q1 q2 c :
  (c_now c < e)%Z -> AuthMw.no_space (jwt_sign u JWT_SECRET e) = true ->
  jwt_sign u JWT_SECRET e <> EmptyString -> c_faults c = [] ->
  tbl_select (is_line (userId u) b) (cart (c_db c)) = [] ->
  let h := Server.bearer (jwt_sign u JWT_SECRET e) in
  let n := t_next (cart (c_db c)) in
  let '(ts, c') := interleave [0; 1; 0; 1]
                     [start c (Server.AddToCart h b q1); start c (Server.AddToCart h b q2)] c in
  ts = [inr (mkResponse 200 (Json.Message "Added to cart"));
        inr (mkResponse 200 (Json.Message "Added to cart"))] /\
  tbl_select (is_line (userId u) b) (cart (c_db c')) =
    [CartRow.mk n (userId u) b q1; CartRow.mk (S n) (userId u) b q2] /\
  ~ CartApi.cart_unique (c_db c').
Proof.
  intros Hnow Hsp Hne Hnil Hsel. unfold start. cbn [Server.app].
  rewrite !settle_authenticate by done.
  destruct c as [d s fs now salt]; cbn in Hnil; subst fs.
  unfold CartApi.post_cart, query_or. cbn in Hsel |- *. rewrite Hsel. cbn.
  split; [done|]. unfold tbl_select in Hsel. rewrite !List.filter_app, Hsel. cbn.
  unfold is_line; cbn. rewrite !Nat.eqb_refl. split; [done|]. apply twice_not_unique. done.
Qed.

(** C30: the shared connection gives no isolation.  While an order
    transaction is open (index.js 215), another user's add-to-cart runs
    on the same connection, inside that transaction, and is answered
    200; the order then fails (here: an empty item list, index.js 241)
    and its ROLLBACK (index.js 245) restores the content the database
    had before the order began, undoing the acknowledged cart write. *)
Theorem rollback_undoes_concurrent_write ua ea ub eb b q tot ship c :
  (c_now c < ea)%Z -> AuthMw.no_space (jwt_sign ua JWT_SECRET ea) = true ->
  jwt_sign ua JWT_SECRET ea <> EmptyString ->
  (c_now c < eb)%Z -> AuthMw.no_space (jwt_sign ub JWT_SECRET eb) = true ->
  jwt_sign ub JWT_SECRET eb <> EmptyString -> c_faults c = [] ->
  let '(ts, c') := interleave [0; 1; 1; 0; 0; 0]
      [start c (Server.PlaceOrder (Server.bearer (jwt_sign ua JWT_SECRET ea)) [] tot ship);
       start c (Server.AddToCart (Server.bearer (jwt_sign ub JWT_SECRET eb)) b q)] c in
  (exists m, ts = [inr (mkResponse 500 (Json.Error "Order items failed"));
                   inr (mkResponse 200 (Json.Message m))]) /\
  db_equiv (c_db c') (c_db c) /\ c_txn c' = None.
Proof.
  intros Ha Hspa Hnea Hb Hspb Hneb Hnil. unfold start. cbn [Server.app].
  rewrite !settle_authenticate by done.
  destruct c as [d s fs now salt]; cbn in Hnil; subst fs.
  unfold CartApi.post_cart, OrdersApi.post_orders, query_or. cbn.
  destruct (tbl_select _ _) as [|r0 rs]; cbn; (split; [eexists; done|]); split; done.
Qed.

(** Follow every branch of a handler, one constructor per call. *)
Ltac calls_bound :=
  repeat first
    [ progress cbn beta iota
    | match goal with
      | |- calls_within _ (match ?x with _ => _ end) => destruct x
      | |- calls_within _ (if ?b then _ else _) => destruct b
      end
    | constructor
    | intros ].

(** Every route makes at most seven calls: the clock read of
    [authenticateToken] and the six of POST /api/orders (BEGIN, two
    INSERTs, DELETE, COMMIT, ROLLBACK). *)
Lemma app_within req : calls_within 7 (Server.app JWT_SECRET req).
Proof.
  destruct req; cbn [Server.app];
    unfold AuthMw.authenticateToken, UsersApi.post_register, UsersApi.post_login,
      UsersApi.put_password, UsersApi.get_profile, CatalogApi.get_books, CatalogApi.get_book,
      CartApi.post_cart, CartApi.get_cart, CartApi.put_cart, CartApi.delete_cart,
      OrdersApi.post_orders, OrdersApi.get_orders, query_or, fail, reply, crash;
    calls_bound.
Qed.

(** Every request is answered.  Whatever the requests, the
    database and the fault schedule, seven rounds of round-robin
    scheduling over the requests in flight answer all of them: no
    interleaving on the shared connection leaves a request waiting. *)
Theorem round_robin_answers reqs c :
  Forall (fun t => exists r, t = inr r)
    (fst (interleave (round_robin 7 (length reqs)) (List.map (start c) reqs) c)).
Proof.
  apply Forall_lookup. intros i t Hi. apply thread_within_0.
  rewrite <- (length_map (start c)) in Hi.
  refine (interleave_rounds 7 _ c _ i t Hi).
  intros j t' Hj. apply list_lookup_fmap_Some in Hj as (req & -> & _).
  apply settle_within, app_within.
Qed.

End Requests.

(** Ann (user 1) adds "Emma" twice in parallel to her empty cart. *)
Definition ann_tok : string := jwt_sign (mkClaims 1 "ann@example.com") "s3cret" 87400.
Definition bob_tok : string := jwt_sign (mkClaims 2 "bob@example.com") "s3cret" 87400.

Lemma concurrent_adds_duplicate_witness :
  let '(ts, c') := interleave [0; 1; 0; 1]
      [start "s3cret" (conn_of sample_db []) (Server.AddToCart (Server.bearer ann_tok) 2 1);
       start "s3cret" (conn_of sample_db []) (Server.AddToCart (Server.bearer ann_tok) 2 3)]
      (conn_of sample_db []) in
  ts = [inr (mkResponse 200 (Json.Message "Added to cart"));
        inr (mkResponse 200 (Json.Message "Added to cart"))] /\
  tbl_select (is_line 1 2) (cart (c_db c')) =
    [CartRow.mk (t_next (cart sample_db)) 1 2 1; CartRow.mk (S (t_next (cart sample_db))) 1 2 3] /\
  ~ CartApi.cart_unique (c_db c').
Proof.
  apply (concurrent_adds_duplicate "s3cret" (mkClaims 1 "ann@example.com") 87400 2 1 3
           (conn_of sample_db [])); [vm_compute; reflexivity|vm_compute; reflexivity
                                    |discriminate|reflexivity|vm_compute; reflexivity].
Defined.

(** Ann's order with no items fails while Bob adds "Dune" to his cart. *)
Lemma rollback_undoes_concurrent_write_witness :
  let '(ts, c') := interleave [0; 1; 1; 0; 0; 0]
      [start "s3cret" (conn_of sample_db []) (Server.PlaceOrder (Server.bearer ann_tok) [] 0 OrdersApi.sample_ship);
       start "s3cret" (conn_of sample_db []) (Server.AddToCart (Server.bearer bob_tok) 1 1)]
      (conn_of sample_db []) in
  (exists m, ts = [inr (mkResponse 500 (Json.Error "Order items failed"));
                   inr (mkResponse 200 (Json.Message m))]) /\
  db_equiv (c_db c') sample_db /\ c_txn c' = None.
Proof.
  apply (rollback_undoes_concurrent_write "s3cret" (mkClaims 1 "ann@example.com") 87400
           (mkClaims 2 "bob@example.com") 87400 1 1 0 OrdersApi.sample_ship (conn_of sample_db []));
    first [vm_compute; reflexivity | discriminate].
Defined.

(** Ann's add-to-cart served alone: three calls (SELECT, INSERT, and
    the answer in the INSERT's callback). *)
Lemma interleave_alone_witness :
  steps (Server.app "s3cret" (Server.AddToCart (Server.bearer ann_tok) 2 1)) (conn_of sample_db []) <= 2 /\
  interleave (repeat 0 2) [settle (Server.app "s3cret" (Server.AddToCart (Server.bearer ann_tok) 2 1))
                                  (conn_of sample_db [])] (conn_of sample_db []) =
  ([inr (fst (run (Server.app "s3cret" (Server.AddToCart (Server.bearer ann_tok) 2 1)) (conn_of sample_db [])))],
   snd (run (Server.app "s3cret" (Server.AddToCart (Server.bearer ann_tok) 2 1)) (conn_of sample_db []))).
Proof. split; [vm_compute; lia|apply interleave_alone; vm_compute; lia]. Defined.

End Concurrency.
