(* ===== verification/Browse.v ===== *)
(** * The catalogue page (src/client/src/components/Browse.jsx)

    The page loads GET /api/books once (lines 15-26) and recomputes the
    shown list whenever the books, the search text, the category or the
    sort key change (lines 28-54): a filter on a case-insensitive
    substring of title or author and on the category, then
    [Array.prototype.sort] with a comparator.  Strings are ASCII here:
    [toLowerCase] maps A-Z to a-z.  [Array.prototype.sort] is stable
    (ECMAScript 2019), and a stable sort by a consistent comparator has
    one result; it is modelled by a stable insertion sort.

    Theorems: the shown books are exactly those in whose title or
    author the search text occurs up to ASCII case, stated on the
    characters ([occurs_ci]) and proved equal to the code's
    [toLowerCase] and [includes]; each sort
    key orders them as its label says; the shown list is the one list
    ECMAScript's stable sort allows ([stable_sort_of]: sorted by key,
    ties in the server's order), so the model's insertion sort is
    equivalent to any stable sort the browser uses; "Newest" keeps the server's order, which is by id, so
    the oldest book comes first. *)

From Stdlib Require Import Ascii Sorted Permutation.
From S2P Require Import Prelude Schema Crypto Sql Catalog.

Module BrowsePage.

(** ** Strings *)

Definition lower_ascii (a : ascii) : ascii :=
  let n := nat_of_ascii a in
  if (65 <=? n) && (n <=? 90) then ascii_of_nat (n + 32) else a.

(** [String.prototype.toLowerCase] *)
Fixpoint toLowerCase (s : string) : string :=
  match s with
  | EmptyString => EmptyString
  | String a s' => String (lower_ascii a) (toLowerCase s')
  end.

(** [String.prototype.startsWith] *)
Fixpoint startsWith (s p : string) : bool :=
  match p, s with
  | EmptyString, _ => true
  | String a p', String b s' => Ascii.eqb a b && startsWith s' p'
  | _, _ => false
  end.

(** [String.prototype.includes]: [p] occurs in [s] at some position. *)
Fixpoint includes (s p : string) : bool :=
  startsWith s p || match s with EmptyString => false | String _ s' => includes s' p end.

(** ** The filter (lines 29-37) *)

Definition matchesSearch (search : string) (book : BookRow.t) : bool :=
  includes (toLowerCase (BookRow.title book)) (toLowerCase search) ||
  includes (toLowerCase (BookRow.author book)) (toLowerCase search).

Definition matchesCategory (category : string) (book : BookRow.t) : bool :=
  String.eqb category "All" || String.eqb (BookRow.category book) category.

Definition filterBooks (search category : string) (books : list BookRow.t) : list BookRow.t :=
  List.filter (fun book => matchesSearch search book && matchesCategory category book) books.

(** ** The sort (lines 40-51) *)

(** The comparator: negative when [a] goes first. *)
Definition compare (sort : string) (a b : BookRow.t) : Z :=
  if String.eqb sort "PriceLow" then (BookRow.price a - BookRow.price b)%Z
  else if String.eqb sort "PriceHigh" then (BookRow.price b - BookRow.price a)%Z
  else if String.eqb sort "Rating" then (BookRow.rating b - BookRow.rating a)%Z
  else 0%Z.

Section Sort.
Context {A : Type} (cmp : A -> A -> Z).

(** [x] goes before the first element it does not follow. *)
Fixpoint insert_by (x : A) (l : list A) : list A :=
  match l with
  | [] => [x]
  | y :: l' => if (cmp x y <=? 0)%Z then x :: l else y :: insert_by x l'
  end.

(** [Array.prototype.sort(cmp)], stable. *)
Fixpoint sort_by (l : list A) : list A :=
  match l with
  | [] => []
  | x :: l' => insert_by x (sort_by l')
  end.
End Sort.

(** The list the page shows (lines 28-54). *)
Definition filteredBooks (books : list BookRow.t) (search category sort : string) : list BookRow.t :=
  sort_by (compare sort) (filterBooks search category books).

(** ** The page state (lines 8-13) and its events *)

Module Page.

Record page := mkPage {
  books : list BookRow.t;
  shown : list BookRow.t;       (** [filteredBooks] *)
  search : string;
  category : string;
  sort : string;
  loading : bool
}.

Definition init : page := mkPage [] [] "" "All" "Newest" true.

(** The categories of line 80 and the sort buttons of lines 92-115. *)
Definition categories : list string := ["All"; "Fiction"; "Science Fiction"; "Romance"; "Fantasy"; "Self-Help"].

Inductive event :=
| Loaded (rows : list BookRow.t)   (** lines 17-21: [setBooks], [setFilteredBooks], [setLoading(false)] *)
| LoadFailed                       (** lines 22-25 *)
| SetSearch (text : string)        (** line 74 *)
| SetCategory (cat : string)       (** line 84 *)
| SetSort (key : string).          (** lines 93-111 *)

(** The effect of lines 28-54, run by React after a change of [books],
    [search], [category] or [sort]. *)
Definition refresh (p : page) : page :=
  mkPage (books p) (filteredBooks (books p) (search p) (category p) (sort p))
         (search p) (category p) (sort p) (loading p).

(** An event, then the effect. *)
Definition step (p : page) (ev : event) : page :=
  match ev with
  | Loaded rows => refresh (mkPage rows rows (search p) (category p) (sort p) false)
  | LoadFailed => mkPage (books p) (shown p) (search p) (category p) (sort p) false
  | SetSearch t => refresh (mkPage (books p) (shown p) t (category p) (sort p) (loading p))
  | SetCategory c => refresh (mkPage (books p) (shown p) (search p) c (sort p) (loading p))
  | SetSort k => refresh (mkPage (books p) (shown p) (search p) (category p) k (loading p))
  end.

(** Once the books are loaded, the page shows [filteredBooks] of the
    current search, category and sort after every event. *)
Lemma step_shown p ev :
  shown p = filteredBooks (books p) (search p) (category p) (sort p) \/ ev <> LoadFailed ->
  shown (step p ev) = filteredBooks (books (step p ev)) (search (step p ev)) (category (step p ev)) (sort (step p ev)).
Proof. intros H. destruct ev; cbn; try done. destruct H as [H|H]; [done|by exfalso]. Qed.

End Page.

(** ** The sort as a sort by key *)

(** Each comparator of lines 40-51 subtracts the keys of its arguments. *)
Definition sort_key (sort : string) (b : BookRow.t) : Z :=
  if String.eqb sort "PriceLow" then BookRow.price b
  else if String.eqb sort "PriceHigh" then (- BookRow.price b)%Z
  else if String.eqb sort "Rating" then (- BookRow.rating b)%Z
  else 0%Z.

Lemma compare_key sort a b : compare sort a b = (sort_key sort a - sort_key sort b)%Z.
Proof. unfold compare, sort_key. repeat case_test; lia. Qed.

Section KeySort.
Context {A : Type} (key : A -> Z) (cmp : A -> A -> Z).
Hypothesis Hcmp : forall a b, cmp a b = (key a - key b)%Z.

Lemma insert_by_perm x l : Permutation (insert_by cmp x l) (x :: l).
Proof.
  induction l as [|y l IH]; simpl; [done|]. case_test; [done|].
  rewrite IH. apply perm_swap.
Qed.

Lemma sort_by_perm l : Permutation (sort_by cmp l) l.
Proof.
  induction l as [|x l IH]; simpl; [done|]. rewrite insert_by_perm, IH. done.
Qed.

Lemma insert_by_sorted x l :
  Sorted (fun a b => key a <= key b)%Z l -> Sorted (fun a b => key a <= key b)%Z (insert_by cmp x l).
Proof.
  induction l as [|y l IH]; intros Hs; simpl; [auto|].
  rewrite Hcmp. case_test; [apply Z.leb_le in Heqb; constructor; [done|constructor; lia]|].
  apply Z.leb_gt in Heqb. apply Sorted_inv in Hs as [Hs Hhd]. constructor; [by apply IH|].
  destruct l as [|z l]; simpl; [constructor; lia|].
  apply HdRel_inv in Hhd. case_test; constructor; lia.
Qed.

Lemma sort_by_sorted l : Sorted (fun a b => key a <= key b)%Z (sort_by cmp l).
Proof. induction l as [|x l IH]; simpl; [constructor|]. by apply insert_by_sorted. Qed.

(** Inserting keeps the order among elements of one key. *)
Lemma insert_by_stable k x l :
  List.filter (fun y => key y =? k)%Z (insert_by cmp x l) =
  List.filter (fun y => key y =? k)%Z (x :: l).
Proof.
  induction l as [|y l IH]; simpl; [done|]. rewrite Hcmp. case_test; [done|].
  apply Z.leb_gt in Heqb. simpl in IH |- *. rewrite IH.
  destruct (key x =? k)%Z eqn:Ex, (key y =? k)%Z eqn:Ey; reflect_bools; try done; lia.
Qed.

Lemma sort_by_stable k l :
  List.filter (fun y => key y =? k)%Z (sort_by cmp l) = List.filter (fun y => key y =? k)%Z l.
Proof.
  induction l as [|x l IH]; simpl; [done|]. rewrite insert_by_stable. simpl. by rewrite IH.
Qed.

(** ** The specification of a stable sort by key

    What ECMAScript asks of [Array.prototype.sort] with a comparator
    that subtracts keys: the result is a permutation of the input,
    sorted by key, and elements with equal keys keep their relative
    order. *)
Definition stable_sort_of (l l' : list A) : Prop :=
  Permutation l' l /\ Sorted (fun a b => key a <= key b)%Z l' /\
  forall k, List.filter (fun y => key y =? k)%Z l' = List.filter (fun y => key y =? k)%Z l.

Lemma sorted_head_le a l b :
  Sorted (fun a b => key a <= key b)%Z (a :: l) -> In b l -> (key a <= key b)%Z.
Proof.
  intros Hs Hb. apply Sorted_StronglySorted in Hs as Hss; [|intros x y z; lia].
  apply StronglySorted_inv in Hss as [_ Hall]. rewrite List.Forall_forall in Hall. exact (Hall b Hb).
Qed.

(** An element is in a list exactly when it is in the elements of its key. *)
Lemma in_key_filter b l : In b l <-> In b (List.filter (fun y => key y =? key b)%Z l).
Proof. rewrite filter_In, Z.eqb_refl. tauto. Qed.

(** Two lists sorted by key that agree on the elements of each key are
    equal: a sorted list is determined by its classes of equal keys. *)
Lemma sorted_key_filters_eq l1 l2 :
  Sorted (fun a b => key a <= key b)%Z l1 -> Sorted (fun a b => key a <= key b)%Z l2 ->
  (forall k, List.filter (fun y => key y =? k)%Z l1 = List.filter (fun y => key y =? k)%Z l2) ->
  l1 = l2.
Proof.
  revert l2. induction l1 as [|a l1 IH]; intros [|b l2] Hs1 Hs2 Hf; [done| | |].
  - exfalso. specialize (Hf (key b)). cbn in Hf. rewrite Z.eqb_refl in Hf. discriminate.
  - exfalso. specialize (Hf (key a)). cbn in Hf. rewrite Z.eqb_refl in Hf. discriminate.
  - assert (In b (a :: l1)) as Hb
      by (apply (proj2 (in_key_filter b _)); rewrite Hf; apply (proj1 (in_key_filter b _)); by left).
    assert (In a (b :: l2)) as Ha
      by (apply (proj2 (in_key_filter a _)); rewrite <- Hf; apply (proj1 (in_key_filter a _)); by left).
    assert (key a = key b) as Hab.
    { destruct Hb as [->|Hb]; [done|]. destruct Ha as [->|Ha]; [done|].
      pose proof (sorted_head_le _ _ _ Hs1 Hb). pose proof (sorted_head_le _ _ _ Hs2 Ha). lia. }
    pose proof (Hf (key a)) as Ha'. cbn in Ha'. rewrite Z.eqb_refl, Hab, Z.eqb_refl in Ha'.
    injection Ha' as -> Htl. f_equal.
    apply Sorted_inv in Hs1 as [Hs1 _]. apply Sorted_inv in Hs2 as [Hs2 _].
    apply IH; [done..|]. intros k. specialize (Hf k). cbn in Hf.
    destruct (_ =? k)%Z; [by injection Hf|done].
Qed.

End KeySort.

(** With a comparator that is always 0 the sort changes nothing. *)
Lemma sort_by_zero {A} (l : list A) : sort_by (fun _ _ => 0%Z) l = l.
Proof. induction l as [|x l IH]; simpl; [done|]. rewrite IH. by destruct l. Qed.

Lemma sorted_impl {A} (R R' : A -> A -> Prop) l :
  (forall a b, R a b -> R' a b) -> Sorted R l -> Sorted R' l.
Proof.
  intros H Hs. induction Hs as [|x l Hs IH Hhd]; constructor; [done|].
  destruct Hhd; constructor; auto.
Qed.

(** Ids drawn from [ids_from] are strictly increasing. *)
Lemma ids_from_sorted {R} (rid : R -> nat) lo hi (l : list R) :
  ids_from lo hi (List.map rid l) = true -> Sorted (fun a b => rid a < rid b) l.
Proof.
  revert lo. induction l as [|x l IH]; intros lo H; [constructor|]. simpl in H. reflect_bools.
  constructor; [by eapply IH|]. destruct l as [|y l]; constructor.
  cbn [List.map ids_from] in H0. apply andb_prop in H0 as [H0 _]. apply andb_prop in H0 as [H0 _].
  apply Nat.leb_le in H0. lia.
Qed.

(** ** The search, stated without [toLowerCase]

    What the filter of lines 29-37 asks of a book, in terms of the
    characters themselves: the search text occurs in the title or the
    author, each character equal up to the case of an ASCII letter. *)

(** Two characters [toLowerCase] makes equal: the same character, or an
    upper-case letter A-Z and its lower-case letter (codes 32 apart). *)
Definition same_letter (a b : ascii) : Prop :=
  let m := nat_of_ascii a in let n := nat_of_ascii b in
  m = n \/ (65 <= m <= 90 /\ n = m + 32) \/ (65 <= n <= 90 /\ m = n + 32).

Fixpoint same_text (s p : string) : Prop :=
  match s, p with
  | EmptyString, EmptyString => True
  | String a s', String b p' => same_letter a b /\ same_text s' p'
  | _, _ => False
  end.

(** [p] occurs in [s], ignoring case. *)
Definition occurs_ci (s p : string) : Prop :=
  exists pre mid post, s = (pre ++ mid ++ post)%string /\ same_text mid p.

Lemma nat_of_lower a :
  nat_of_ascii (lower_ascii a) =
  if (65 <=? nat_of_ascii a) && (nat_of_ascii a <=? 90) then nat_of_ascii a + 32 else nat_of_ascii a.
Proof.
  unfold lower_ascii. destruct (Nat.leb_spec 65 (nat_of_ascii a)), (Nat.leb_spec (nat_of_ascii a) 90);
    cbn; [apply nat_ascii_embedding; lia|done..].
Qed.

Lemma ascii_eq_nat (a b : ascii) : a = b <-> nat_of_ascii a = nat_of_ascii b.
Proof.
  split; [by intros ->|]. intros H.
  by rewrite <- (ascii_nat_embedding a), <- (ascii_nat_embedding b), H.
Qed.

Lemma lower_ascii_same a b : lower_ascii a = lower_ascii b <-> same_letter a b.
Proof.
  rewrite ascii_eq_nat, !nat_of_lower. unfold same_letter.
  pose proof (nat_ascii_bounded a). pose proof (nat_ascii_bounded b).
  destruct (Nat.leb_spec 65 (nat_of_ascii a)), (Nat.leb_spec (nat_of_ascii a) 90),
    (Nat.leb_spec 65 (nat_of_ascii b)), (Nat.leb_spec (nat_of_ascii b) 90); cbn; lia.
Qed.

Lemma same_letter_sym a b : same_letter a b -> same_letter b a.
Proof. unfold same_letter. lia. Qed.

Lemma startsWith_lower s p :
  startsWith (toLowerCase s) (toLowerCase p) = true <->
  exists mid post, s = (mid ++ post)%string /\ same_text mid p.
Proof.
  revert s. induction p as [|b p IH]; intros s.
  - split; [intros _; exists EmptyString, s; split; [reflexivity|exact I]|intros _; by destruct s].
  - destruct s as [|a s]; cbn [toLowerCase startsWith].
    + split; [discriminate|]. intros ([|x mid] & post & Hs & Ht); [done|discriminate].
    + rewrite andb_true_iff, IH, Ascii.eqb_eq, lower_ascii_same. split.
      * intros [Hab (mid & post & -> & Ht)]. exists (String a mid), post. split; [reflexivity|exact (conj (same_letter_sym _ _ Hab) Ht)].
      * intros ([|x mid] & post & Hs & Ht); [done|]. injection Hs as <- ->.
        destruct Ht as [Hab Ht]. split; [by apply same_letter_sym|]. by exists mid, post.
Qed.

Lemma occurs_ci_cons a s p :
  occurs_ci (String a s) p <->
  (exists mid post, String a s = (mid ++ post)%string /\ same_text mid p) \/ occurs_ci s p.
Proof.
  split.
  - intros ([|x pre] & mid & post & Hs & Ht); [left; by exists mid, post|].
    injection Hs as <- ->. right. by exists pre, mid, post.
  - intros [(mid & post & Hs & Ht)|(pre & mid & post & -> & Ht)].
    + by exists EmptyString, mid, post.
    + exists (String a pre), mid, post. split; [reflexivity|done].
Qed.

Lemma includes_lower s p :
  includes (toLowerCase s) (toLowerCase p) = true <-> occurs_ci s p.
Proof.
  induction s as [|a s IH]; cbn [toLowerCase includes]; rewrite orb_true_iff.
  - pose proof (startsWith_lower "" p) as Hsw. cbn [toLowerCase] in Hsw. rewrite Hsw. split.
    + intros [(mid & post & Hs & Ht)|H]; [|discriminate].
      exists EmptyString, mid, post. split; [exact Hs|exact Ht].
    + intros (pre & mid & post & Hs & Ht). left. exists mid, post. split; [|done].
      by destruct pre.
  - pose proof (startsWith_lower (String a s) p) as Hsw. cbn [toLowerCase] in Hsw.
    by rewrite IH, Hsw, occurs_ci_cons.
Qed.

Lemma matchesSearch_spec search b :
  matchesSearch search b = true <->
  occurs_ci (BookRow.title b) search \/ occurs_ci (BookRow.author b) search.
Proof. unfold matchesSearch. by rewrite orb_true_iff, !includes_lower. Qed.

Lemma matchesCategory_spec category b :
  matchesCategory category b = true <-> category = "All"%string \/ BookRow.category b = category.
Proof. unfold matchesCategory. by rewrite orb_true_iff, !String.eqb_eq. Qed.

(** ** What the page shows *)

(** C32: the page shows exactly the loaded books in whose title or
    author the search text occurs with each character equal up to the
    case of an ASCII letter, and whose category is the chosen one (or
    the choice is "All"), whatever the sort.  The right-hand side is
    stated on the characters ([occurs_ci]), not through the page's own
    [toLowerCase] and [includes]. *)
Theorem filteredBooks_members books search category sort b :
  In b (filteredBooks books search category sort) <->
  In b books /\
  (occurs_ci (BookRow.title b) search \/ occurs_ci (BookRow.author b) search) /\
  (category = "All"%string \/ BookRow.category b = category).
Proof.
  rewrite <- matchesSearch_spec, <- matchesCategory_spec.
  unfold filteredBooks, filterBooks. split.
  - intros Hin. apply (Permutation_in _ (sort_by_perm (compare sort) _)) in Hin.
    apply filter_In in Hin as [Hin Hm]. reflect_bools. done.
  - intros (Hin & Hs & Hc). apply (Permutation_in _ (Permutation_sym (sort_by_perm (compare sort) _))).
    apply filter_In. rewrite Hs, Hc. done.
Qed.

(** C33: each sort key orders the list as its label says: "PriceLow"
    by ascending price, "PriceHigh" by descending price, "Rating" by
    descending rating. *)
Theorem filteredBooks_sorted books search category :
  Sorted (fun a b => BookRow.price a <= BookRow.price b)%Z (filteredBooks books search category "PriceLow") /\
  Sorted (fun a b => BookRow.price b <= BookRow.price a)%Z (filteredBooks books search category "PriceHigh") /\
  Sorted (fun a b => BookRow.rating b <= BookRow.rating a)%Z (filteredBooks books search category "Rating").
Proof.
  unfold filteredBooks. split; [|split];
    (eapply sorted_impl; [|apply (sort_by_sorted _ _ (compare_key _))]);
    intros a b; cbn; lia.
Qed.

(** C34: the page's sort is the sort ECMAScript specifies: a list is
    a stable sort by key of the matching books (a permutation of them,
    ordered by the key of the chosen sort, books of equal key in the
    order the server sent them) exactly when it is the list the page
    shows.  So any stable sort, whatever its algorithm, shows the same
    list as the insertion sort of the model. *)
Theorem filteredBooks_stable_sort books search category sort l' :
  stable_sort_of (sort_key sort) (filterBooks search category books) l' <->
  l' = filteredBooks books search category sort.
Proof.
  pose proof (compare_key sort) as Hk. unfold filteredBooks. split.
  - intros (_ & Hs & Hf). apply (sorted_key_filters_eq (sort_key sort)); [done|by apply sort_by_sorted|].
    intros k. by rewrite Hf, sort_by_stable.
  - intros ->. split; [apply sort_by_perm|]. split; [by apply sort_by_sorted|].
    intros k. by apply sort_by_stable.
Qed.

(** C35: "Newest", the default sort (line 12), keeps the order of GET
    /api/books, which is by increasing id: the page lists the OLDEST
    book first. *)
Theorem newest_lists_oldest_first `{Bcrypt} c search category :
  c_faults c = [] -> tbl_wf BookRow.id (books (c_db c)) ->
  exists bs, fst (run CatalogApi.get_books c) = mkResponse 200 (Json.Books bs) /\
    Sorted (fun a b => BookRow.id a < BookRow.id b) (filteredBooks bs search category "Newest").
Proof.
  intros Hnil [_ Hwf]. unfold CatalogApi.get_books, query_or. run_step; [no_fault Hnil|].
  eexists; split; [done|]. unfold filteredBooks.
  change (compare "Newest") with (fun _ _ : BookRow.t => 0%Z). rewrite sort_by_zero.
  eapply ids_from_sorted, ids_from_filter, Hwf.
Qed.

(** Searching "dune" in lower case finds "Dune". *)
Lemma filteredBooks_members_witness :
  In (book_fixture 1 "Dune" 1000) (filteredBooks (t_rows (books sample_db)) "dUNE" "All" "PriceLow").
Proof.
  apply filteredBooks_members. split; [by left|split; [left|by left]].
  exists EmptyString, "Dune"%string, EmptyString. split; [reflexivity|].
  cbn [same_text]. unfold same_letter. vm_compute. lia.
Defined.


(** The catalogue of the sample store by ascending price is a stable
    sort of it by price. *)
Lemma filteredBooks_stable_sort_witness :
  stable_sort_of (sort_key "PriceLow") (filterBooks "" "All" (t_rows (books sample_db)))
    (filteredBooks (t_rows (books sample_db)) "" "All" "PriceLow").
Proof. apply (filteredBooks_stable_sort (t_rows (books sample_db)) "" "All" "PriceLow"). reflexivity. Defined.

Lemma newest_lists_oldest_first_witness :
  exists bs, fst (run CatalogApi.get_books (conn_of sample_db [])) = mkResponse 200 (Json.Books bs) /\
    Sorted (fun a b => BookRow.id a < BookRow.id b) (filteredBooks bs "" "All" "Newest").
Proof. apply newest_lists_oldest_first; [reflexivity|apply sample_db_wf]. Defined.

End BrowsePage.
