(* ===== verification/JsonText.v ===== *)
(** * JSON text: [JSON.stringify] and [JSON.parse]

    The server stores the shipping address as [JSON.stringify(shipping_address)]
    (index.js 222) and MyOrders.jsx reads it back with [JSON.parse]
    (lines 34-55).  Both are JavaScript built-ins, modelled here from the
    JSON grammar (RFC 8259) and ECMA-262: a value is null, a boolean, a
    number, a string, an array or an object whose members keep their
    order.  Strings are ASCII ([ascii]); numbers are integers, and a
    number with a fraction or an exponent is outside the model (the
    parser rejects it).  The parser runs on fuel and tells apart a syntax
    error ([PErr]) from running out of fuel ([POOT]); [parse] gives it
    fuel [2 * length s + 1], and [JsonText.parse_fuel_enough] shows that
    this is enough.

    Theorems: the parser never needs more fuel than that and more fuel
    changes nothing; [parse] inverts [stringify] on every value whose
    objects have distinct keys. *)

From Stdlib Require Import Ascii.
From S2P Require Import Prelude Crypto.

Module JsonText.

Inductive value :=
| JNull
| JBool (b : bool)
| JNum (n : Z)
| JStr (s : string)
| JArr (items : list value)
| JObj (fields : list (string * value)).

(** Induction through the lists of arrays and objects. *)
Section ValueInd.
Variable P : value -> Prop.
Hypothesis Hnull : P JNull.
Hypothesis Hbool : forall b, P (JBool b).
Hypothesis Hnum : forall n, P (JNum n).
Hypothesis Hstr : forall s, P (JStr s).
Hypothesis Harr : forall l, Forall P l -> P (JArr l).
Hypothesis Hobj : forall fs, Forall (fun kv => P (snd kv)) fs -> P (JObj fs).

Fixpoint value_ind' (v : value) : P v :=
  match v with
  | JNull => Hnull
  | JBool b => Hbool b
  | JNum n => Hnum n
  | JStr s => Hstr s
  | JArr l =>
      Harr l ((fix go (l : list value) : Forall P l :=
                 match l with [] => @List.Forall_nil _ _ | x :: l => @List.Forall_cons _ _ x l (value_ind' x) (go l) end) l)
  | JObj fs =>
      Hobj fs ((fix go (fs : list (string * value)) : Forall (fun kv => P (snd kv)) fs :=
                  match fs with
                  | [] => @List.Forall_nil _ _
                  | kv :: fs => @List.Forall_cons _ _ kv fs (value_ind' (snd kv)) (go fs)
                  end) fs)
  end.
End ValueInd.

(** ** Characters *)

Definition quote : ascii := ascii_of_nat 34.
Definition bslash : ascii := ascii_of_nat 92.

(** Lower-case hexadecimal digit, as [JSON.stringify] writes it. *)
Definition hex_digit (n : nat) : ascii :=
  if n <? 10 then ascii_of_nat (48 + n) else ascii_of_nat (87 + n).

Definition digit_char (n : N) : ascii := ascii_of_nat (48 + N.to_nat n).

(** ** JSON.stringify *)

(** QuoteJSONString (ECMA-262 25.5.2.3) on one character. *)
Definition escape_char (a : ascii) : string :=
  let n := nat_of_ascii a in
  if n =? 34 then String bslash (String quote EmptyString)
  else if n =? 92 then String bslash (String bslash EmptyString)
  else if n =? 8 then String bslash "b"
  else if n =? 12 then String bslash "f"
  else if n =? 10 then String bslash "n"
  else if n =? 13 then String bslash "r"
  else if n =? 9 then String bslash "t"
  else if n <? 32 then
    String bslash (String "u"%char (String "0"%char (String "0"%char
      (String (hex_digit (n / 16)) (String (hex_digit (n mod 16)) EmptyString)))))
  else String a EmptyString.

Fixpoint escape (s : string) : string :=
  match s with
  | EmptyString => EmptyString
  | String a s' => escape_char a ++ escape s'
  end.

Definition quote_string (s : string) : string :=
  String quote (escape s ++ String quote EmptyString).

(** Decimal digits of [n], most significant first; [fuel] bounds the
    number of digits. *)
Fixpoint nat_digits (fuel : nat) (n : N) : string :=
  match fuel with
  | O => EmptyString
  | S f =>
      if (n <? 10)%N then String (digit_char n) EmptyString
      else nat_digits f (n / 10) ++ String (digit_char (n mod 10)) EmptyString
  end.

Definition show_N (n : N) : string := nat_digits (S (N.to_nat n)) n.

(** Number::toString on an integer. *)
Definition show_Z (z : Z) : string :=
  match z with
  | Z0 => "0"
  | Zpos p => show_N (Npos p)
  | Zneg p => String "-"%char (show_N (Npos p))
  end.

(** The elements joined by commas. *)
Fixpoint join_commas (l : list string) : string :=
  match l with
  | [] => EmptyString
  | [x] => x
  | x :: l => x ++ String ","%char (join_commas l)
  end.

(** SerializeJSONProperty (ECMA-262 25.5.2.2), no indentation. *)
Fixpoint stringify (v : value) : string :=
  match v with
  | JNull => "null"
  | JBool true => "true"
  | JBool false => "false"
  | JNum n => show_Z n
  | JStr s => quote_string s
  | JArr l => String "["%char (join_commas (List.map stringify l) ++ "]")
  | JObj fs =>
      String "{"%char
        (join_commas (List.map (fun kv => (quote_string (fst kv) ++ String ":"%char (stringify (snd kv)))%string) fs)
         ++ "}")
  end.

(** ** JSON.parse *)

(** A run on fuel: a result and the rest of the text, a syntax error
    (the [SyntaxError] [JSON.parse] throws), or out of fuel. *)
Inductive presult (A : Type) := POk (a : A) (rest : string) | PErr | POOT.
Arguments POk {A}. Arguments PErr {A}. Arguments POOT {A}.

Definition is_ws (a : ascii) : bool :=
  let n := nat_of_ascii a in (n =? 32) || (n =? 9) || (n =? 10) || (n =? 13).

Fixpoint skip_ws (s : string) : string :=
  match s with
  | String a s' => if is_ws a then skip_ws s' else s
  | EmptyString => EmptyString
  end.

Definition is_digit (a : ascii) : bool :=
  let n := nat_of_ascii a in (48 <=? n) && (n <=? 57).

Definition digit_val (a : ascii) : N := N.of_nat (nat_of_ascii a - 48).

Definition hex_val (a : ascii) : option nat :=
  let n := nat_of_ascii a in
  if (48 <=? n) && (n <=? 57) then Some (n - 48)
  else if (97 <=? n) && (n <=? 102) then Some (n - 87)
  else if (65 <=? n) && (n <=? 70) then Some (n - 55)
  else None.

(** The character of a two-character escape. *)
Definition unescape (e : ascii) : option ascii :=
  let m := nat_of_ascii e in
  if m =? 34 then Some quote
  else if m =? 92 then Some bslash
  else if m =? 47 then Some "/"%char
  else if m =? 98 then Some (ascii_of_nat 8)
  else if m =? 102 then Some (ascii_of_nat 12)
  else if m =? 110 then Some (ascii_of_nat 10)
  else if m =? 114 then Some (ascii_of_nat 13)
  else if m =? 116 then Some (ascii_of_nat 9)
  else None.

(** [\uXXXX]; a code unit of 256 or more is not an [ascii]. *)
Definition unicode_escape (h1 h2 h3 h4 : ascii) : option ascii :=
  match hex_val h1, hex_val h2, hex_val h3, hex_val h4 with
  | Some d1, Some d2, Some d3, Some d4 =>
      let code := ((d1 * 16 + d2) * 16 + d3) * 16 + d4 in
      if code <? 256 then Some (ascii_of_nat code) else None
  | _, _, _, _ => None
  end.

(** The characters of a string literal after its opening quote, and the
    text after its closing quote. *)
Fixpoint string_body (s : string) : option (string * string) :=
  match s with
  | EmptyString => None
  | String a s' =>
      let n := nat_of_ascii a in
      if n =? 34 then Some (EmptyString, s')
      else if n =? 92 then
        match s' with
        | EmptyString => None
        | String e s'' =>
            match unescape e with
            | Some c =>
                match string_body s'' with Some (t, r) => Some (String c t, r) | None => None end
            | None =>
                if nat_of_ascii e =? 117 then
                  match s'' with
                  | String h1 (String h2 (String h3 (String h4 r0))) =>
                      match unicode_escape h1 h2 h3 h4 with
                      | Some c =>
                          match string_body r0 with Some (t, r) => Some (String c t, r) | None => None end
                      | None => None
                      end
                  | _ => None
                  end
                else None
            end
        end
      else if n <? 32 then None
      else match string_body s' with Some (t, r) => Some (String a t, r) | None => None end
  end.

Fixpoint read_digits (s : string) (acc : N) : N * string :=
  match s with
  | String a s' => if is_digit a then read_digits s' (10 * acc + digit_val a)%N else (acc, s)
  | EmptyString => (acc, EmptyString)
  end.

(** [0 | [1-9][0-9]*] *)
Definition parse_unsigned (s : string) : option (N * string) :=
  match s with
  | String a r =>
      if nat_of_ascii a =? 48 then Some (0%N, r)
      else if is_digit a then Some (read_digits r (digit_val a))
      else None
  | EmptyString => None
  end.

(** A fraction or an exponent follows. *)
Definition frac_or_exp (r : string) : bool :=
  match r with
  | String a _ => let n := nat_of_ascii a in (n =? 46) || (n =? 101) || (n =? 69)
  | EmptyString => false
  end.

Definition parse_number (s : string) : presult value :=
  let '(neg, s1) :=
    match s with
    | String a r => if nat_of_ascii a =? 45 then (true, r) else (false, s)
    | EmptyString => (false, s)
    end in
  match parse_unsigned s1 with
  | Some (n, r) =>
      if frac_or_exp r then PErr
      else POk (JNum (if neg then (- Z.of_N n)%Z else Z.of_N n)) r
  | None => PErr
  end.

(** CreateDataProperty: a repeated key keeps its place and takes the
    later value. *)
Fixpoint obj_set (fs : list (string * value)) (k : string) (v : value) : list (string * value) :=
  match fs with
  | [] => [(k, v)]
  | (k', v') :: fs' => if String.eqb k k' then (k, v) :: fs' else (k', v') :: obj_set fs' k v
  end.

Definition build_object (fs : list (string * value)) : list (string * value) :=
  fold_left (fun acc kv => obj_set acc (fst kv) (snd kv)) fs [].

(** The value at the start of [s] (after white space), given the
    readers of array elements and object members, which start after the
    opening bracket. *)
Definition value_body (pe : string -> presult (list value))
    (pm : string -> presult (list (string * value))) (s : string) : presult value :=
  match skip_ws s with
  | EmptyString => PErr
  | String a r as t =>
      if Ascii.eqb a "n"%char then
        match strip_prefix "ull" r with Some r' => POk JNull r' | None => PErr end
      else if Ascii.eqb a "t"%char then
        match strip_prefix "rue" r with Some r' => POk (JBool true) r' | None => PErr end
      else if Ascii.eqb a "f"%char then
        match strip_prefix "alse" r with Some r' => POk (JBool false) r' | None => PErr end
      else if Ascii.eqb a quote then
        match string_body r with Some (str, r') => POk (JStr str) r' | None => PErr end
      else if Ascii.eqb a "["%char then
        match skip_ws r with
        | String b r' =>
            if Ascii.eqb b "]"%char then POk (JArr []) r'
            else match pe r with POk l r' => POk (JArr l) r' | PErr => PErr | POOT => POOT end
        | EmptyString => PErr
        end
      else if Ascii.eqb a "{"%char then
        match skip_ws r with
        | String b r' =>
            if Ascii.eqb b "}"%char then POk (JObj []) r'
            else match pm r with
                 | POk fs r' => POk (JObj (build_object fs)) r' | PErr => PErr | POOT => POOT end
        | EmptyString => PErr
        end
      else if Ascii.eqb a "-"%char || is_digit a then parse_number t
      else PErr
  end.

(** [value (, value)* ]] *)
Definition elems_body (pv : string -> presult value) (pe : string -> presult (list value))
    (s : string) : presult (list value) :=
  match pv s with
  | POk v r =>
      match skip_ws r with
      | String a r' =>
          if Ascii.eqb a ","%char then
            match pe r' with POk l r'' => POk (v :: l) r'' | PErr => PErr | POOT => POOT end
          else if Ascii.eqb a "]"%char then POk [v] r'
          else PErr
      | EmptyString => PErr
      end
  | PErr => PErr
  | POOT => POOT
  end.

(** [string : value (, string : value)* }] *)
Definition members_body (pv : string -> presult value)
    (pm : string -> presult (list (string * value))) (s : string) : presult (list (string * value)) :=
  match skip_ws s with
  | String a r =>
      if Ascii.eqb a quote then
        match string_body r with
        | Some (k, r1) =>
            match skip_ws r1 with
            | String c r2 =>
                if Ascii.eqb c ":"%char then
                  match pv r2 with
                  | POk v r3 =>
                      match skip_ws r3 with
                      | String d r4 =>
                          if Ascii.eqb d ","%char then
                            match pm r4 with
                            | POk fs r5 => POk ((k, v) :: fs) r5 | PErr => PErr | POOT => POOT end
                          else if Ascii.eqb d "}"%char then POk [(k, v)] r4
                          else PErr
                      | EmptyString => PErr
                      end
                  | PErr => PErr
                  | POOT => POOT
                  end
                else PErr
            | EmptyString => PErr
            end
        | None => PErr
        end
      else PErr
  | EmptyString => PErr
  end.

(** The three readers, one unit of fuel per call. *)
Fixpoint parse_value (fuel : nat) (s : string) {struct fuel} : presult value :=
  match fuel with O => POOT | S f => value_body (parse_elems f) (parse_members f) s end
with parse_elems (fuel : nat) (s : string) {struct fuel} : presult (list value) :=
  match fuel with O => POOT | S f => elems_body (parse_value f) (parse_elems f) s end
with parse_members (fuel : nat) (s : string) {struct fuel} : presult (list (string * value)) :=
  match fuel with O => POOT | S f => members_body (parse_value f) (parse_members f) s end.

(** [JSON.parse(s)]: one value, then only white space; [None] is the
    [SyntaxError]. *)
Definition parse (s : string) : option value :=
  match parse_value (S (2 * String.length s)) s with
  | POk v r => match skip_ws r with EmptyString => Some v | _ => None end
  | _ => None
  end.

(** ** The parser consumes its input *)

(** Case on every test and every intermediate result of a parser body. *)
Ltac split_parse :=
  repeat match goal with
  | |- context [if ?b then _ else _] => let E := fresh "E" in destruct b eqn:E
  | |- context [match ?x with EmptyString => _ | String _ _ => _ end] =>
      let E := fresh "E" in destruct x eqn:E
  | |- context [match ?x with Some _ => _ | None => _ end] =>
      let E := fresh "E" in destruct x eqn:E
  | |- context [match ?x with POk _ _ => _ | PErr => _ | POOT => _ end] =>
      let E := fresh "E" in destruct x eqn:E
  | |- context [let '(_, _) := ?x in _] => let E := fresh "E" in destruct x eqn:E
  | p : (_ * _)%type |- _ => destruct p
  end.

#[local] Abbreviation len := String.length.

Lemma skip_ws_length s : len (skip_ws s) <= len s.
Proof. induction s as [|a s IH]; simpl; [lia|]. destruct (is_ws a); simpl; lia. Qed.

Lemma skip_ws_cons s a r : skip_ws s = String a r -> len r < len s.
Proof. intros H. pose proof (skip_ws_length s) as L. rewrite H in L. simpl in L. lia. Qed.

Lemma strip_prefix_length k s r : strip_prefix k s = Some r -> len r <= len s.
Proof.
  revert s. induction k as [|a k IH]; intros [|b s] H; simpl in H;
    [injection H as <-; done|injection H as <-; done|done|].
  destruct (Ascii.ascii_dec a b); [|done]. apply IH in H. simpl. lia.
Qed.

Lemma string_body_length s t r : string_body s = Some (t, r) -> len r < len s.
Proof.
  revert t r. induction s as [s IH] using (well_founded_induction (well_founded_ltof _ len)).
  intros t r H. destruct s as [|a s]; [done|]. simpl in H. revert H. split_parse; intros H; simplify_eq;
    simpl; try lia; match goal with
    | Ht : string_body ?x = Some (_, _) |- _ => apply IH in Ht; unfold ltof in *; simpl in *; lia
    end.
Qed.

Lemma read_digits_length s acc : len (snd (read_digits s acc)) <= len s.
Proof.
  revert acc. induction s as [|a s IH]; intros acc; simpl; [lia|].
  destruct (is_digit a); simpl; [specialize (IH (10 * acc + digit_val a)%N)|]; lia.
Qed.

Lemma parse_number_length s v r : parse_number s = POk v r -> len r < len s.
Proof.
  unfold parse_number, parse_unsigned. split_parse; intros H; simplify_eq; simpl in *; try lia;
    match goal with
    | E : read_digits ?x ?a = (_, ?r) |- _ =>
        pose proof (read_digits_length x a) as L; rewrite E in L; simpl in *; lia
    end.
Qed.


(** A reader that leaves a strictly shorter rest. *)
Definition consumes {A} (p : string -> presult A) : Prop :=
  forall x a r, p x = POk a r -> len r < len x.

Ltac use_lengths :=
  repeat match goal with
  | E : skip_ws ?x = String _ _ |- _ => apply skip_ws_cons in E
  | E : strip_prefix _ _ = Some _ |- _ => apply strip_prefix_length in E
  | E : string_body _ = Some (_, _) |- _ => apply string_body_length in E
  | E : parse_number _ = POk _ _ |- _ => apply parse_number_length in E
  | C : consumes ?p, E : ?p _ = POk _ _ |- _ => apply C in E
  end; simpl in *; lia.

Lemma value_body_consumes pe pm : consumes pe -> consumes pm -> consumes (value_body pe pm).
Proof. intros He Hm s v r. unfold value_body. split_parse; intros H; simplify_eq; use_lengths. Qed.

Lemma elems_body_consumes pv pe : consumes pv -> consumes pe -> consumes (elems_body pv pe).
Proof. intros Hv He s l r. unfold elems_body. split_parse; intros H; simplify_eq; use_lengths. Qed.

Lemma members_body_consumes pv pm : consumes pv -> consumes pm -> consumes (members_body pv pm).
Proof. intros Hv Hm s l r. unfold members_body. split_parse; intros H; simplify_eq; use_lengths. Qed.

Lemma parse_consumes f :
  consumes (parse_value f) /\ consumes (parse_elems f) /\ consumes (parse_members f).
Proof.
  induction f as [|f (Hv & He & Hm)]; [repeat split; intros ???; done|].
  repeat split; cbn [parse_value parse_elems parse_members];
    auto using value_body_consumes, elems_body_consumes, members_body_consumes.
Qed.

(** ** More fuel changes nothing *)

(** Case on the tests of a body, not on the calls it makes. *)
Ltac split_tests :=
  repeat match goal with
  | |- context [if ?b then _ else _] => let E := fresh "E" in destruct b eqn:E
  | |- context [match skip_ws ?x with EmptyString => _ | String _ _ => _ end] =>
      let E := fresh "E" in destruct (skip_ws x) eqn:E
  | |- context [match string_body ?x with Some _ => _ | None => _ end] =>
      let E := fresh "E" in destruct (string_body x) as [[? ?]|] eqn:E
  | |- context [match strip_prefix ?k ?x with Some _ => _ | None => _ end] =>
      let E := fresh "E" in destruct (strip_prefix k x) eqn:E
  end.

(** [p'] agrees with [p] wherever [p] does not run out of fuel. *)
Definition extends {A} (p' p : string -> presult A) : Prop :=
  forall x, p x <> POOT -> p' x = p x.

(** Replace one call of [p'] by the call of [p] it extends; where [p]
    ran out of fuel, so does the body, against the hypothesis. *)
Ltac extends_step :=
  match goal with
  | Hx : extends ?p' ?p |- context [?p' ?x] =>
      let E := fresh "E" in destruct (p x) eqn:E;
      [rewrite (Hx x) by (rewrite E; discriminate); rewrite E
      |rewrite (Hx x) by (rewrite E; discriminate); rewrite E
      |let H := fresh in intros H; exfalso; apply H; reflexivity]
  end.

Ltac use_extends := repeat first [progress split_tests | extends_step]; done.

Lemma value_body_mono pe pe' pm pm' :
  extends pe' pe -> extends pm' pm -> extends (value_body pe' pm') (value_body pe pm).
Proof. intros He Hm s. unfold value_body. use_extends. Qed.

Lemma elems_body_mono pv pv' pe pe' :
  extends pv' pv -> extends pe' pe -> extends (elems_body pv' pe') (elems_body pv pe).
Proof. intros Hv He s. unfold elems_body. use_extends. Qed.

Lemma members_body_mono pv pv' pm pm' :
  extends pv' pv -> extends pm' pm -> extends (members_body pv' pm') (members_body pv pm).
Proof. intros Hv Hm s. unfold members_body. use_extends. Qed.

Lemma parse_mono f :
  extends (parse_value (S f)) (parse_value f) /\ extends (parse_elems (S f)) (parse_elems f) /\
  extends (parse_members (S f)) (parse_members f).
Proof.
  induction f as [|f (Hv & He & Hm)]; [repeat split; intros x Hx; by destruct Hx|].
  repeat split; cbn [parse_value parse_elems parse_members];
    auto using value_body_mono, elems_body_mono, members_body_mono.
Qed.

(** ** The fuel [2 * length s + 1] is enough *)

Lemma parse_number_total s : parse_number s <> POOT.
Proof. unfold parse_number, parse_unsigned. split_parse; done. Qed.

(** A call the hypotheses say does not run out of fuel. *)
Ltac total_step :=
  match goal with
  | Hp : forall x, _ -> ?p x <> POOT |- context [match ?p ?x with POk _ _ => _ | PErr => _ | POOT => _ end] =>
      let E := fresh "E" in destruct (p x) eqn:E; [| |exfalso; eapply Hp; [|exact E]; use_lengths]
  end.

Ltac use_total :=
  repeat first [progress split_tests | total_step]; try apply parse_number_total; done.

Lemma value_body_total pe pm s :
  (forall x, len x < len s -> pe x <> POOT) -> (forall x, len x < len s -> pm x <> POOT) ->
  value_body pe pm s <> POOT.
Proof. intros He Hm. unfold value_body. use_total. Qed.

Lemma elems_body_total pv pe s :
  consumes pv -> (forall x, len x <= len s -> pv x <> POOT) ->
  (forall x, len x < len s -> pe x <> POOT) -> elems_body pv pe s <> POOT.
Proof. intros Cv Hv He. unfold elems_body. use_total. Qed.

Lemma members_body_total pv pm s :
  consumes pv -> (forall x, len x < len s -> pv x <> POOT) ->
  (forall x, len x < len s -> pm x <> POOT) -> members_body pv pm s <> POOT.
Proof. intros Cv Hv Hm. unfold members_body. use_total. Qed.

Lemma parse_total f :
  (forall s, 2 * len s < f -> parse_value f s <> POOT) /\
  (forall s, 2 * len s + 1 < f -> parse_elems f s <> POOT) /\
  (forall s, 2 * len s + 1 < f -> parse_members f s <> POOT).
Proof.
  induction f as [|f (Hv & He & Hm)]; [repeat split; intros; lia|].
  destruct (parse_consumes f) as (Cv & _ & _).
  repeat split; intros s Hs; cbn [parse_value parse_elems parse_members].
  - apply value_body_total; intros x Hx; [apply He|apply Hm]; lia.
  - apply elems_body_total; [done|intros x Hx; apply Hv; lia|intros x Hx; apply He; lia].
  - apply members_body_total; [done|intros x Hx; apply Hv; lia|intros x Hx; apply Hm; lia].
Qed.

(** A result reached with some fuel is the result with any more fuel. *)
Lemma parse_le n m :
  n <= m ->
  extends (parse_value m) (parse_value n) /\ extends (parse_elems m) (parse_elems n) /\
  extends (parse_members m) (parse_members n).
Proof.
  induction 1 as [|m _ (Hv & He & Hm)]; [repeat split; by intros x _|].
  destruct (parse_mono m) as (Mv & Me & Mm).
  repeat split; intros x Hx; [rewrite Mv|rewrite Me|rewrite Mm]; auto;
    [rewrite Hv|rewrite He|rewrite Hm]; done.
Qed.

(** [JSON.parse] terminates on its fuel: with the fuel
    [2 * length s + 1] that [parse] gives it, the parser never runs out,
    and any larger fuel gives the same answer, so [parse] is the parser
    run without a bound. *)
Theorem parse_fuel_enough s m :
  2 * String.length s < m ->
  parse_value m s <> POOT /\ parse_value m s = parse_value (S (2 * String.length s)) s.
Proof.
  intros Hm. split; [by apply (parse_total m)|].
  apply (parse_le (S (2 * len s)) m); [lia|]. apply (parse_total _). lia.
Qed.

(** ** [parse] inverts [stringify] *)

Lemma str_app_assoc (a b c : string) : ((a ++ b) ++ c)%string = (a ++ (b ++ c))%string.
Proof. induction a as [|x a IH]; [done|]. rewrite !string_app_cons, IH. done. Qed.

(** One escaped character is read back (checked for all 256). *)
Lemma string_body_escape_char a t :
  string_body (escape_char a ++ t) =
  match string_body t with Some (u, r) => Some (String a u, r) | None => None end.
Proof. destruct a as [[] [] [] [] [] [] [] []]; reflexivity. Qed.

Lemma string_body_escape s rest :
  string_body (escape s ++ String quote rest) = Some (s, rest).
Proof.
  induction s as [|a s IH]; [done|]. cbn [escape]. rewrite str_app_assoc, string_body_escape_char, IH.
  done.
Qed.

Fixpoint digits_value (s : string) (acc : N) : N :=
  match s with
  | EmptyString => acc
  | String a s' => digits_value s' (10 * acc + digit_val a)%N
  end.

Fixpoint all_digits (s : string) : bool :=
  match s with EmptyString => true | String a s' => is_digit a && all_digits s' end.

(** The text after a number does not continue it. *)
Definition ends_number (rest : string) : Prop :=
  match rest with
  | EmptyString => True
  | String a _ => is_digit a = false /\ frac_or_exp rest = false
  end.

Lemma digit_char_ok d :
  (d < 10)%N -> is_digit (digit_char d) = true /\ digit_val (digit_char d) = d /\
                nat_of_ascii (digit_char d) = 48 + N.to_nat d.
Proof.
  intros Hd. unfold is_digit, digit_val, digit_char.
  rewrite nat_ascii_embedding by lia. split; [|split; [|done]].
  - apply andb_true_iff. split; apply Nat.leb_le; lia.
  - replace (48 + N.to_nat d - 48) with (N.to_nat d) by lia. apply N2Nat.id.
Qed.

Lemma read_digits_app x rest acc :
  all_digits x = true -> ends_number rest -> read_digits (x ++ rest) acc = (digits_value x acc, rest).
Proof.
  revert acc. induction x as [|a x IH]; intros acc Hx Hr; simpl in *.
  - destruct rest as [|b rest]; [done|]. simpl. by destruct Hr as [-> _].
  - apply andb_true_iff in Hx as [-> Hx]. by apply IH.
Qed.

Lemma digits_value_app x y acc : digits_value (x ++ y) acc = digits_value y (digits_value x acc).
Proof. revert acc. induction x as [|a x IH]; intros acc; simpl; auto. Qed.

(** The digits of [n]: a leading digit, not 0 unless [n] is, then digits. *)
Lemma nat_digits_spec f n :
  N.to_nat n < f ->
  exists d x, nat_digits f n = String d x /\ is_digit d = true /\
    (n <> 0%N -> nat_of_ascii d <> 48) /\ all_digits x = true /\ digits_value x (digit_val d) = n.
Proof.
  revert n. induction f as [|f IH]; intros n Hf; [lia|]. cbn [nat_digits].
  destruct (n <? 10)%N eqn:Hlt.
  - apply N.ltb_lt in Hlt. destruct (digit_char_ok n Hlt) as (Hd & Hv & Hn).
    exists (digit_char n), EmptyString. split; [done|]. split; [exact Hd|].
    split; [intros Hn0; rewrite Hn; lia|]. split; [done|exact Hv].
  - apply N.ltb_ge in Hlt. pose proof (N.div_mod n 10 ltac:(lia)) as Hdm.
    pose proof (N.mod_lt n 10 ltac:(lia)) as Hmod.
    assert (n / 10 < n)%N as Hlt' by (apply N.div_lt; lia).
    destruct (IH (n / 10)%N) as (d & x & Heq & Hd & Hnz & Hx & Hv); [lia|].
    destruct (digit_char_ok (n mod 10) Hmod) as (Hd' & Hv' & _).
    exists d, (x ++ String (digit_char (n mod 10)) EmptyString)%string.
    rewrite Heq. split; [reflexivity|]. split; [exact Hd|]. split; [intros _; apply Hnz; lia|].
    split.
    + clear -Hx Hd'. induction x as [|a x IHx];
        rewrite ?string_app_nil, ?string_app_cons; cbn [all_digits] in *; [by rewrite Hd'|].
      apply andb_true_iff in Hx as [-> Hx]. by apply IHx.
    + rewrite digits_value_app, Hv. cbn [digits_value]. rewrite Hv'. lia.
Qed.

Lemma parse_number_show z rest :
  ends_number rest -> parse_number (show_Z z ++ rest) = POk (JNum z) rest.
Proof.
  intros Hr. assert (Hfr : frac_or_exp rest = false) by (destruct rest; [done|apply Hr]).
  destruct z as [|p|p]; cbn [show_Z]; unfold parse_number.
  - rewrite string_app_cons, string_app_nil. cbv -[frac_or_exp]. by rewrite Hfr.
  - unfold show_N.
    destruct (nat_digits_spec (S (N.to_nat (Npos p))) (Npos p)) as (d & x & -> & Hd & Hnz & Hx & Hv);
      [lia|]. rewrite string_app_cons. pose proof Hd as Hd0. unfold is_digit in Hd.
    apply andb_true_iff in Hd as [Hd1 Hd2].
    apply Nat.leb_le in Hd1, Hd2. cbn -[frac_or_exp read_digits digit_val].
    rewrite (proj2 (Nat.eqb_neq _ _)) by lia.
    unfold parse_unsigned. rewrite (proj2 (Nat.eqb_neq _ _)) by (apply Hnz; discriminate).
    rewrite Hd0.
    cbn -[frac_or_exp read_digits digit_val]. rewrite read_digits_app, Hv, Hfr by done. done.
  - unfold show_N.
    destruct (nat_digits_spec (S (N.to_nat (Npos p))) (Npos p)) as (d & x & -> & Hd & Hnz & Hx & Hv);
      [lia|]. rewrite !string_app_cons. change (nat_of_ascii "-"%char) with 45. pose proof Hd as Hd0. unfold is_digit in Hd.
    apply andb_true_iff in Hd as [Hd1 Hd2].
    apply Nat.leb_le in Hd1, Hd2. cbn -[frac_or_exp read_digits digit_val].
    unfold parse_unsigned. rewrite (proj2 (Nat.eqb_neq _ _)) by (apply Hnz; discriminate).
    rewrite Hd0.
    cbn -[frac_or_exp read_digits digit_val]. rewrite read_digits_app, Hv, Hfr by done. done.
Qed.

(** Keys of an object are distinct, as in a JavaScript object. *)
Fixpoint distinct_keys (ks : list string) : bool :=
  match ks with
  | [] => true
  | k :: ks => negb (existsb (String.eqb k) ks) && distinct_keys ks
  end.

Fixpoint keys_ok (v : value) : bool :=
  match v with
  | JArr l => forallb keys_ok l
  | JObj fs => distinct_keys (List.map fst fs) && forallb (fun kv => keys_ok (snd kv)) fs
  | _ => true
  end.

Lemma obj_set_fresh fs k v :
  existsb (String.eqb k) (List.map fst fs) = false -> obj_set fs k v = fs ++ [(k, v)].
Proof.
  induction fs as [|[k' v'] fs IH]; intros H; [done|]. simpl in *.
  apply orb_false_iff in H as [Hk H]. rewrite Hk, IH by done. done.
Qed.

Lemma build_object_from fs acc :
  distinct_keys (List.map fst fs) = true ->
  (forall k, In k (List.map fst fs) -> existsb (String.eqb k) (List.map fst acc) = false) ->
  fold_left (fun acc kv => obj_set acc (fst kv) (snd kv)) fs acc = acc ++ fs.
Proof.
  revert acc. induction fs as [|[k v] fs IH]; intros acc Hd Hf; simpl in *; [by rewrite app_nil_r|].
  apply andb_true_iff in Hd as [Hk Hd]. apply negb_true_iff in Hk.
  rewrite obj_set_fresh by (apply Hf; by left). rewrite IH; [by rewrite <- app_assoc|done|].
  intros k' Hin. rewrite List.map_app, existsb_app, Hf by (by right). simpl.
  destruct (String.eqb k' k) eqn:E; [|done]. apply String.eqb_eq in E as ->.
  assert (existsb (String.eqb k) (List.map fst fs) = true) as Ht
    by (apply existsb_exists; exists k; split; [done|apply String.eqb_refl]).
  congruence.
Qed.

Lemma build_object_distinct fs : distinct_keys (List.map fst fs) = true -> build_object fs = fs.
Proof. intros Hd. unfold build_object. by rewrite build_object_from. Qed.

(** What may follow a value inside JSON text, or nothing. *)
Definition closes (rest : string) : Prop :=
  match rest with
  | EmptyString => True
  | String a _ => a = ","%char \/ a = "]"%char \/ a = "}"%char
  end.

Lemma closes_ends_number rest : closes rest -> ends_number rest.
Proof. destruct rest as [|a r]; [done|]. intros [ -> | [ -> | -> ]]; done. Qed.

Lemma skip_ws_keep a r : is_ws a = false -> skip_ws (String a r) = String a r.
Proof. intros H. simpl. by rewrite H. Qed.

Lemma closes_skip_ws rest : closes rest -> skip_ws rest = rest.
Proof. destruct rest as [|a r]; [done|]. intros [ -> | [ -> | -> ]]; by apply skip_ws_keep. Qed.

(** [value_body] on the first character of a printed value. *)
Lemma value_body_quote pe pm r :
  value_body pe pm (String quote r) =
  match string_body r with Some (str, r') => POk (JStr str) r' | None => PErr end.
Proof. reflexivity. Qed.

Lemma value_body_bracket pe pm r :
  value_body pe pm (String "["%char r) =
  match skip_ws r with
  | String b r' =>
      if Ascii.eqb b "]"%char then POk (JArr []) r'
      else match pe r with POk l r' => POk (JArr l) r' | PErr => PErr | POOT => POOT end
  | EmptyString => PErr
  end.
Proof. reflexivity. Qed.

Lemma value_body_brace pe pm r :
  value_body pe pm (String "{"%char r) =
  match skip_ws r with
  | String b r' =>
      if Ascii.eqb b "}"%char then POk (JObj []) r'
      else match pm r with
           | POk fs r' => POk (JObj (build_object fs)) r' | PErr => PErr | POOT => POOT end
  | EmptyString => PErr
  end.
Proof. reflexivity. Qed.

Lemma value_body_number pe pm a r :
  a = "-"%char \/ is_digit a = true -> value_body pe pm (String a r) = parse_number (String a r).
Proof.
  intros Ha. destruct a as [[] [] [] [] [] [] [] []];
    try (destruct Ha as [Ha|Ha]; discriminate); reflexivity.
Qed.


Lemma value_body_elems pe pm a t :
  is_ws a = false -> Ascii.eqb a "]"%char = false ->
  value_body pe pm (String "["%char (String a t)) =
  match pe (String a t) with POk l r' => POk (JArr l) r' | PErr => PErr | POOT => POOT end.
Proof. intros H1 H2. rewrite value_body_bracket, skip_ws_keep, H2 by done. done. Qed.

Lemma value_body_members pe pm t :
  value_body pe pm (String "{"%char (String quote t)) =
  match pm (String quote t) with
  | POk fs r' => POk (JObj (build_object fs)) r' | PErr => PErr | POOT => POOT end.
Proof. reflexivity. Qed.

Lemma show_Z_head z r :
  exists a t, (show_Z z ++ r)%string = String a t /\ (a = "-"%char \/ is_digit a = true).
Proof.
  destruct z as [|p|p]; cbn [show_Z].
  - eexists _, _. split; [reflexivity|]. by right.
  - destruct (nat_digits_spec (S (N.to_nat (Npos p))) (Npos p)) as (d & x & Hd & Hdig & _); [lia|].
    unfold show_N. rewrite Hd, string_app_cons. eauto.
  - eexists _, _. split; [reflexivity|]. by left.
Qed.

Lemma stringify_head v r :
  exists a t, (stringify v ++ r)%string = String a t /\ is_ws a = false /\ Ascii.eqb a "]"%char = false.
Proof.
  destruct v as [| [] | n | str | l | fs]; cbn [stringify];
    try (eexists _, _; split; [reflexivity|done]).
  destruct (show_Z_head n r) as (a & t & -> & Ha). exists a, t. split; [done|].
  destruct a as [[] [] [] [] [] [] [] []]; try (destruct Ha as [Ha|Ha]; discriminate); done.
Qed.

(** [v] is read back from its text, whatever closing text follows. *)
Definition reads_back (v : value) : Prop :=
  forall rest, closes rest -> exists n, parse_value n (stringify v ++ rest) = POk v rest.

Lemma lift_value n m s v r : n <= m -> parse_value n s = POk v r -> parse_value m s = POk v r.
Proof. intros Hle H. rewrite (proj1 (parse_le n m Hle)); [done|by rewrite H]. Qed.

Lemma lift_elems n m s l r : n <= m -> parse_elems n s = POk l r -> parse_elems m s = POk l r.
Proof. intros Hle H. rewrite (proj1 (proj2 (parse_le n m Hle))); [done|by rewrite H]. Qed.

Lemma lift_members n m s fs r :
  n <= m -> parse_members n s = POk fs r -> parse_members m s = POk fs r.
Proof. intros Hle H. rewrite (proj2 (proj2 (parse_le n m Hle))); [done|by rewrite H]. Qed.

Lemma join_commas_cons2 a b l :
  join_commas (a :: b :: l) = (a ++ String ","%char (join_commas (b :: l)))%string.
Proof. reflexivity. Qed.

Lemma elems_roundtrip x l rest :
  Forall reads_back (x :: l) -> closes rest ->
  exists n, parse_elems n (join_commas (List.map stringify (x :: l)) ++ String "]"%char rest) = POk (x :: l) rest.
Proof.
  revert x. induction l as [|y l IH]; intros x Hall Hr; apply Forall_cons in Hall as [Hx Hl].
  - destruct (Hx (String "]"%char rest)) as [n Hn]; [by right; left|].
    exists (S n). cbn [parse_elems List.map join_commas]. unfold elems_body. rewrite Hn. reflexivity.
  - destruct (IH y Hl Hr) as [n2 H2].
    change (List.map stringify (x :: y :: l)) with (stringify x :: stringify y :: List.map stringify l).
    change (List.map stringify (y :: l)) with (stringify y :: List.map stringify l) in H2.
    rewrite join_commas_cons2, str_app_assoc, string_app_cons.
    destruct (Hx (String ","%char (join_commas (stringify y :: List.map stringify l) ++ String "]"%char rest)))
      as [n1 H1]; [by left|].
    exists (S (n1 `max` n2)). cbn [parse_elems]. unfold elems_body.
    rewrite (lift_value n1 (n1 `max` n2) _ _ _ ltac:(lia) H1).
    rewrite skip_ws_keep by reflexivity. cbn [Ascii.eqb Bool.eqb].
    rewrite (lift_elems n2 (n1 `max` n2) _ _ _ ltac:(lia) H2). done.
Qed.

Lemma members_body_member pv pm k r :
  members_body pv pm (String quote (escape k ++ String quote (String ":"%char r))) =
  match pv r with
  | POk v r3 =>
      match skip_ws r3 with
      | String d r4 =>
          if Ascii.eqb d ","%char then
            match pm r4 with POk fs r5 => POk ((k, v) :: fs) r5 | PErr => PErr | POOT => POOT end
          else if Ascii.eqb d "}"%char then POk [(k, v)] r4
          else PErr
      | EmptyString => PErr
      end
  | PErr => PErr
  | POOT => POOT
  end.
Proof.
  unfold members_body. rewrite skip_ws_keep by reflexivity. rewrite Ascii.eqb_refl, string_body_escape.
  rewrite skip_ws_keep by reflexivity. reflexivity.
Qed.

Definition member_text (kv : string * value) : string :=
  (quote_string (fst kv) ++ String ":"%char (stringify (snd kv)))%string.

Lemma member_text_app kv r :
  (member_text kv ++ r)%string =
  String quote (escape (fst kv) ++ String quote (String ":"%char (stringify (snd kv) ++ r))).
Proof.
  unfold member_text, quote_string.
  repeat first [rewrite str_app_assoc | rewrite string_app_cons | rewrite string_app_nil]. done.
Qed.

Lemma members_roundtrip kv fs rest :
  Forall (fun kv => reads_back (snd kv)) (kv :: fs) -> closes rest ->
  exists n, parse_members n (join_commas (List.map member_text (kv :: fs)) ++ String "}"%char rest) =
            POk (kv :: fs) rest.
Proof.
  revert kv. induction fs as [|kv' fs IH]; intros [k v] Hall Hr; apply Forall_cons in Hall as [Hx Hl].
  - destruct (Hx (String "}"%char rest)) as [n Hn]; [by right; right|].
    exists (S n). cbn [parse_members List.map join_commas]. rewrite member_text_app.
    rewrite members_body_member. cbn [fst snd] in Hn |- *. rewrite Hn. reflexivity.
  - destruct (IH kv' Hl Hr) as [n2 H2].
    change (List.map member_text ((k, v) :: kv' :: fs)) with (member_text (k, v) :: member_text kv' :: List.map member_text fs).
    change (List.map member_text (kv' :: fs)) with (member_text kv' :: List.map member_text fs) in H2.
    rewrite join_commas_cons2, str_app_assoc, member_text_app, string_app_cons.
    destruct (Hx (String ","%char (join_commas (member_text kv' :: List.map member_text fs) ++ String "}"%char rest)))
      as [n1 H1]; [by left|].
    exists (S (n1 `max` n2)). cbn [parse_members]. rewrite members_body_member. cbn [fst snd] in H1 |- *.
    rewrite (lift_value n1 (n1 `max` n2) _ _ _ ltac:(lia) H1).
    rewrite skip_ws_keep by reflexivity. cbn [Ascii.eqb Bool.eqb].
    rewrite (lift_members n2 (n1 `max` n2) _ _ _ ltac:(lia) H2). done.
Qed.

Lemma str_app_nil_r (s : string) : (s ++ EmptyString)%string = s.
Proof. induction s as [|a s IH]; [done|]. by rewrite string_app_cons, IH. Qed.

Lemma join_commas_head y ys r : exists t, (join_commas (y :: ys) ++ r)%string = (y ++ t)%string.
Proof.
  destruct ys as [|y' ys]; [by exists r|]. rewrite join_commas_cons2, str_app_assoc. eauto.
Qed.

Lemma value_reads_back v : keys_ok v = true -> reads_back v.
Proof.
  induction v as [| b | n | str | l IH | fs IH] using value_ind'; intros Hk rest Hr.
  - exists 1. reflexivity.
  - exists 1. destruct b; reflexivity.
  - exists 1. cbn [parse_value stringify]. destruct (show_Z_head n rest) as (a & t & Heq & Ha).
    rewrite Heq, value_body_number, <- Heq by done. by apply parse_number_show, closes_ends_number.
  - exists 1. cbn [parse_value stringify]. unfold quote_string.
    rewrite string_app_cons, str_app_assoc, string_app_cons, string_app_nil, value_body_quote,
      string_body_escape.
    done.
  - destruct l as [|x l]; [exists 1; reflexivity|]. cbn [keys_ok] in Hk.
    assert (Forall reads_back (x :: l)) as Hall.
    { apply Forall_forall. intros y Hy. apply (proj1 (Forall_forall _ _) IH y Hy).
      apply (proj1 (forallb_forall _ _) Hk y). by apply list_elem_of_In. }
    destruct (elems_roundtrip x l rest Hall Hr) as [n Hn]. exists (S n). cbn [parse_value stringify].
    rewrite string_app_cons, str_app_assoc, string_app_cons, string_app_nil.
    destruct (join_commas_head (stringify x) (List.map stringify l) (String "]"%char rest)) as [t0 Ht0].
    destruct (stringify_head x t0) as (a & t & Heq & Hws & Hb).
    change (List.map stringify (x :: l)) with (stringify x :: List.map stringify l) in Hn |- *.
    rewrite Ht0, Heq in Hn |- *. rewrite value_body_elems, Hn by done. done.
  - destruct fs as [|kv fs]; [exists 1; reflexivity|]. cbn [keys_ok] in Hk.
    apply andb_true_iff in Hk as [Hd Hk].
    assert (Forall (fun kv => reads_back (snd kv)) (kv :: fs)) as Hall.
    { apply Forall_forall. intros y Hy. apply (proj1 (Forall_forall _ _) IH y Hy).
      apply (proj1 (forallb_forall _ _) Hk y). by apply list_elem_of_In. }
    destruct (members_roundtrip kv fs rest Hall Hr) as [n Hn]. exists (S n). cbn [parse_value stringify].
    change (List.map (fun kv => (quote_string (fst kv) ++ String ":"%char (stringify (snd kv)))%string) (kv :: fs))
      with (member_text kv :: List.map member_text fs).
    change (List.map member_text (kv :: fs)) with (member_text kv :: List.map member_text fs) in Hn.
    rewrite string_app_cons, str_app_assoc, string_app_cons, string_app_nil.
    destruct (join_commas_head (member_text kv) (List.map member_text fs) (String "}"%char rest)) as [t0 Ht0].
    rewrite Ht0, member_text_app in Hn |- *. rewrite value_body_members, Hn, build_object_distinct by done.
    done.
Qed.

(** [JSON.parse] reads back the text [JSON.stringify] writes. *)
Lemma parse_stringify_text v : keys_ok v = true -> parse (stringify v) = Some v.
Proof.
  intros Hk. destruct (value_reads_back v Hk EmptyString I) as [n Hn]. rewrite str_app_nil_r in Hn.
  unfold parse. set (N := S (2 * len (stringify v))).
  assert (parse_value N (stringify v) <> POOT) as HN by (apply (parse_total N); lia).
  rewrite <- (proj1 (parse_le N (n `max` N) ltac:(lia)) _ HN).
  by rewrite (lift_value n (n `max` N) _ _ _ ltac:(lia) Hn).
Qed.

(** [JSON.parse] inverts [JSON.stringify]: every value whose
    objects have distinct keys (every value a JavaScript object can be)
    is read back from its text, strings with quotes, backslashes and
    control characters, negative numbers and nested arrays and objects
    included; so two such values with the same text are equal. *)
Theorem parse_stringify v :
  keys_ok v = true ->
  parse (stringify v) = Some v /\
  (forall w, keys_ok w = true -> stringify w = stringify v -> w = v).
Proof.
  intros Hk. split; [by apply parse_stringify_text|].
  intros w Hw Heq. apply (inj Some).
  by rewrite <- (parse_stringify_text v Hk), <- Heq, parse_stringify_text.
Qed.

(** A name with a quote and a control character, a negative number, an
    array and null. *)
Definition sample_value : value :=
  JObj [("name", JStr (String quote (String (ascii_of_nat 7) "Ann"))); ("n", JArr [JNum (-12); JNull])].

Lemma parse_stringify_witness :
  keys_ok sample_value = true /\ parse (stringify sample_value) = Some sample_value.
Proof. split; [reflexivity|]. exact (proj1 (parse_stringify sample_value ltac:(reflexivity))). Defined.

Lemma parse_fuel_enough_witness :
  2 * String.length "[1, [true]]" < 40 /\
  parse_value 40 "[1, [true]]" <> POOT /\
  parse_value 40 "[1, [true]]" = parse_value (S (2 * String.length "[1, [true]]")) "[1, [true]]".
Proof. split; [cbv; lia|apply parse_fuel_enough; cbv; lia]. Defined.

End JsonText.
