(* ===== verification/MyOrders.v ===== *)
(** * The order history page (src/client/src/components/MyOrders.jsx)

    The page fetches GET /api/orders and processes each order (lines
    32-62): [items] and [shipping_address] are parsed with [JSON.parse]
    when they arrive as text, taken as they are when they arrive as an
    array or an object, and replaced by [[]] or [{}] otherwise.  It then
    renders a card per order (lines 106-150).

    The wire format: the server's rows are [o.*] plus the
    [JSON_ARRAYAGG] column; mysql2 hands that column to JavaScript
    already parsed (an array of objects, whose keys MySQL orders by
    length, then bytes), while [shipping_address] is a TEXT column
    holding the [JSON.stringify] of the checkout form (index.js 222), so
    it reaches the page as a string.  Money is in cents; [toFixed(2)] of
    an amount in dollars is the cents written with two decimals.  The
    order date is a number here ([formatDate] is not modelled), and
    the total line (line 148) is not modelled: mysql2 sends DECIMAL
    columns as strings.

    The page state ([page]: orders, loading, error) with the effect that
    fetches the orders ([mount], [answer]) and the view it draws.

    Theorems: the card of every order the server lists shows the
    shipping address as it was entered at checkout, each item as its
    title, quantity and amount, and the default statuses; an item with
    quantity 0 is shown with the amount of one copy; a failed fetch is
    shown as an empty history, with no failure message. *)

From Stdlib Require Import Ascii.
From S2P Require Import Prelude Schema Crypto Sql JsonText.

Module OrdersPage.
Import JsonText.

(** ** JavaScript values as the page sees them *)

Fixpoint lookup_key (k : string) (fs : list (string * value)) : option value :=
  match fs with
  | [] => None
  | (k', v) :: fs => if String.eqb k k' then Some v else lookup_key k fs
  end.

(** [o.k]: [undefined] ([None]) unless [o] is an object with key [k]. *)
Definition field (k : string) (o : value) : option value :=
  match o with JObj fs => lookup_key k fs | _ => None end.

(** ToBoolean. *)
Definition truthy (v : value) : bool :=
  match v with
  | JNull => false
  | JBool b => b
  | JNum n => negb (n =? 0)%Z
  | JStr s => negb (String.eqb s "")
  | JArr _ | JObj _ => true
  end.

(** [String(v)]; [Array.prototype.join] writes null as the empty string. *)
Fixpoint js_string (v : value) : string :=
  match v with
  | JNull => "null"
  | JBool true => "true"
  | JBool false => "false"
  | JNum n => show_Z n
  | JStr s => s
  | JArr l => join_commas (List.map (fun x => match x with JNull => "" | _ => js_string x end) l)
  | JObj _ => "[object Object]"
  end.

(** [`${v}`] *)
Definition template (v : option value) : string :=
  match v with Some x => js_string x | None => "undefined" end.

(** [`${v || ''}`] *)
Definition or_empty (v : option value) : string :=
  match v with Some x => if truthy x then js_string x else "" | None => "" end.

(** [(v || d)] on a number. *)
Definition num_or (d : Z) (v : option value) : Z :=
  match v with Some (JNum n) => if (n =? 0)%Z then d else n | _ => d end.

Definition two_digits (n : Z) : string :=
  if (n <? 10)%Z then ("0" ++ show_Z n)%string else show_Z n.

(** [(cents / 100).toFixed(2)] *)
Definition toFixed2 (cents : Z) : string :=
  if (cents <? 0)%Z then
    String "-"%char (show_Z ((- cents) / 100) ++ "." ++ two_digits ((- cents) mod 100))
  else (show_Z (cents / 100) ++ "." ++ two_digits (cents mod 100))%string.

(** ** Processing (lines 32-62) *)

Definition process_items (items : option value) : value :=
  match items with
  | Some (JStr s) =>
      if String.eqb s "" then JArr []
      else match parse s with Some v => v | None => JArr [] end
  | Some (JArr l) => JArr l
  | _ => JArr []
  end.

Definition process_shipping (sa : option value) : value :=
  match sa with
  | Some (JStr s) => match parse s with Some v => v | None => JObj [] end
  | Some (JObj fs) => JObj fs
  | Some (JArr l) => JArr l
  | _ => JObj []
  end.

(** [{ ...order, items, shipping_address }] *)
Definition process_order (o : value) : value :=
  match o with
  | JObj fs =>
      JObj (obj_set (obj_set fs "items" (process_items (lookup_key "items" fs)))
                    "shipping_address" (process_shipping (lookup_key "shipping_address" fs)))
  | _ => o
  end.

(** ** Rendering (lines 106-150) *)

Record card := mkCard {
  heading : string;                        (** Order #{order.id} *)
  status : string;                         (** order_status || 'processing' *)
  payment : string;                        (** payment_status || 'pending' *)
  lines : option (list (string * string)); (** None: No items found in this order *)
  ship_to : string                         (** the Shipping to line *)
}.

Definition or_default (v : option value) (d : string) : string :=
  match v with Some x => if truthy x then js_string x else d | None => d end.

(** [{item.title} x{item.quantity}] and the amount (lines 127-128). *)
Definition item_line (it : value) : string * string :=
  ((template (field "title" it) ++ " x" ++ template (field "quantity" it))%string,
   String "$"%char (toFixed2 (num_or 0 (field "price" it) * num_or 1 (field "quantity" it)))).

Definition items_view (items : option value) : option (list (string * string)) :=
  match items with
  | Some (JArr (x :: l)) => Some (List.map item_line (x :: l))
  | _ => None
  end.

Definition ship_line (sa : option value) : string :=
  match sa with
  | Some (JObj _ as o) | Some (JArr _ as o) =>
      (or_empty (field "name" o) ++ " - " ++ or_empty (field "address" o) ++ ", " ++
       or_empty (field "city" o))%string
  | _ => "No address provided"
  end.

Definition render (o : value) : card :=
  mkCard ("Order #" ++ template (field "id" o))
         (or_default (field "order_status" o) "processing")
         (or_default (field "payment_status" o) "pending")
         (items_view (field "items" o))
         (ship_line (field "shipping_address" o)).

(** ** The orders as the server sends them *)

(** The [shipping] state of Checkout.jsx (lines 13-20), in its key order. *)
Definition shipping_json (s : Shipping.t) : value :=
  JObj [("name", JStr (Shipping.name s)); ("email", JStr (Shipping.email s));
        ("address", JStr (Shipping.address s)); ("city", JStr (Shipping.city s));
        ("zipCode", JStr (Shipping.zipCode s)); ("phone", JStr (Shipping.phone s))].

(** [JSON_OBJECT('title', ..., 'quantity', ..., 'price', ...)] as MySQL
    stores it: keys by length, then bytes. *)
Definition item_json (i : OrderView.item) : value :=
  JObj [("price", JNum (OrderView.price i)); ("title", JStr (OrderView.title i));
        ("quantity", JNum (OrderView.quantity i))].

Definition opt_str (o : option string) : value :=
  match o with Some s => JStr s | None => JNull end.

Definition order_fields (v : OrderView.t) : list (string * value) :=
  let o := OrderView.order v in
  [("id", JNum (Z.of_nat (OrderRow.id o))); ("user_id", JNum (Z.of_nat (OrderRow.user_id o)));
   ("total_amount", JNum (OrderRow.total_amount o));
   ("shipping_address", JStr (stringify (shipping_json (OrderRow.shipping_address o))));
   ("order_date", JNum (OrderRow.order_date o));
   ("order_status", opt_str (OrderRow.order_status o));
   ("payment_status", opt_str (OrderRow.payment_status o));
   ("items", JArr (List.map item_json (OrderView.items v)))].

Definition order_json (v : OrderView.t) : value := JObj (order_fields v).

(** ** The page state (lines 8-10) and its fetch (lines 14-71) *)

Record page := mkPage {
  orders : list value;
  loading : bool;
  error : string;
  navigated : option string
}.

Definition init : page := mkPage [] true "" None.

(** The effect of lines 14-21: a logged-out visitor is sent to the
    login page, otherwise [fetchOrders] starts ([setLoading(true)],
    [setError("")]) and GET /api/orders is sent. *)
Definition mount (isAuthenticated : bool) (p : page) : page * bool :=
  if isAuthenticated then (mkPage (orders p) true "" (navigated p), true)
  else (mkPage (orders p) (loading p) (error p) (Some "/login"), false).

(** The rest of [fetchOrders] (lines 27-70) on the server's answer: the
    rows, as mysql2 hands them over, processed on success; on a failure
    only [console.error] and [setLoading(false)].  A request never
    answered leaves the page loading. *)
Definition answer (r : response) (p : page) : page :=
  if Sql.status r =? 0 then p
  else if (200 <=? Sql.status r) && (Sql.status r <? 300) then
    match body r with
    | Json.Orders os => mkPage (List.map (fun v => process_order (order_json v)) os) false (error p) (navigated p)
    | _ => mkPage (orders p) false (error p) (navigated p)
    end
  else mkPage (orders p) false (error p) (navigated p).

(** What the page draws (lines 88-157). *)
Inductive screen :=
| Hidden                   (** [return null] when logged out *)
| Loading                  (** Loading orders... *)
| ErrorBox (e : string)
| NoOrders                 (** You haven't placed any orders yet. *)
| Cards (cs : list card).

Definition view (isAuthenticated : bool) (p : page) : screen :=
  if negb isAuthenticated then Hidden
  else if loading p then Loading
  else if negb (String.eqb (error p) "") then ErrorBox (error p)
  else match orders p with [] => NoOrders | os => Cards (List.map render os) end.

(** ** What a card shows *)

Lemma or_empty_str s : or_empty (Some (JStr s)) = s.
Proof. unfold or_empty, truthy. destruct (String.eqb s "") eqn:E; [|done]. by apply String.eqb_eq in E. Qed.

Lemma num_or_zero p : num_or 0 (Some (JNum p)) = p.
Proof. unfold num_or. destruct (p =? 0)%Z eqn:E; [lia|done]. Qed.

(** Processing turns the stored text back into the checkout form. *)
Lemma process_order_json v :
  process_order (order_json v) =
  JObj (obj_set (obj_set (order_fields v) "items" (JArr (List.map item_json (OrderView.items v))))
                "shipping_address" (shipping_json (OrderRow.shipping_address (OrderView.order v)))).
Proof.
  unfold process_order, order_json.
  change (lookup_key "items" (order_fields v)) with (Some (JArr (List.map item_json (OrderView.items v)))).
  change (lookup_key "shipping_address" (order_fields v))
    with (Some (JStr (stringify (shipping_json (OrderRow.shipping_address (OrderView.order v)))))).
  cbn [process_items process_shipping]. rewrite parse_stringify_text by reflexivity. done.
Qed.

(** The line of an item, as the data says it. *)
Definition expected_line (i : OrderView.item) : string * string :=
  ((OrderView.title i ++ " x" ++ show_Z (OrderView.quantity i))%string,
   String "$"%char (toFixed2 (OrderView.price i *
     (if (OrderView.quantity i =? 0)%Z then 1 else OrderView.quantity i)))).

Lemma item_line_json i : item_line (item_json i) = expected_line i.
Proof. unfold item_line, expected_line. cbn -[num_or toFixed2 show_Z]. by rewrite num_or_zero. Qed.

(** C39: the card of an order listed by GET /api/orders shows the
    shipping address exactly as it was entered at checkout (the server
    stores [JSON.stringify] of it, the page [JSON.parse]s it back,
    [JsonText.parse_stringify]), each item as [title xquantity] with the amount price times
    quantity, where a quantity of 0 is shown with the amount of one copy
    ([item.quantity || 1], line 128), and 'processing' and 'pending' for
    the statuses the server never writes. *)
Theorem orders_page_card v :
  let o := OrderView.order v in
  let c := render (process_order (order_json v)) in
  ship_to c = (Shipping.name (OrderRow.shipping_address o) ++ " - " ++
               Shipping.address (OrderRow.shipping_address o) ++ ", " ++
               Shipping.city (OrderRow.shipping_address o))%string /\
  lines c = match OrderView.items v with
            | [] => None
            | its => Some (List.map expected_line its)
            end /\
  (OrderRow.order_status o = None -> status c = "processing") /\
  (OrderRow.payment_status o = None -> payment c = "pending").
Proof.
  cbv zeta. rewrite process_order_json. destruct v as [o its]. cbn [OrderView.order OrderView.items].
  split; [|split; [|split]].
  - unfold render. cbn -[or_empty]. rewrite !or_empty_str. done.
  - unfold render. cbn [lines]. destruct its as [|i its]; [done|]. cbn. f_equal.
    f_equal; [apply item_line_json|rewrite List.map_map; apply List.map_ext, item_line_json].
  - intros H. unfold render. cbn. by rewrite H.
  - intros H. unfold render. cbn. by rewrite H.
Qed.

(** A failed GET /api/orders is shown as an empty history: the page
    never calls [setError], so a logged-in user whose history cannot be
    read (a 500 of the server, a 401 of an expired token) sees "You
    haven't placed any orders yet." and no failure message. *)
Theorem failed_fetch_shows_no_orders r :
  Sql.status r <> 0 -> (Sql.status r <? 200) || (300 <=? Sql.status r) = true ->
  view true (answer r (fst (mount true init))) = NoOrders.
Proof.
  intros H0 Hbad. unfold answer. cbn [mount init fst].
  rewrite (proj2 (Nat.eqb_neq _ _) H0).
  destruct (200 <=? Sql.status r) eqn:E1, (Sql.status r <? 300) eqn:E2; cbn; try done.
  apply Nat.leb_le in E1. apply Nat.ltb_lt in E2. apply orb_true_iff in Hbad as [H|H];
    [apply Nat.ltb_lt in H|apply Nat.leb_le in H]; lia.
Qed.

(** Ann's order: two copies of "Odyssey" and a line of "Dune" with
    quantity 0, as PUT /api/cart allows (C23). *)
Definition sample_view : OrderView.t :=
  OrderView.mk (OrderRow.mk 1 1 3000
                  (Shipping.mk "Ann" "ann@example.com" "1 Main St" "Springfield" "12345" "555") 1000
                  None None)
               [OrderView.mkItem "Odyssey" 2 1500; OrderView.mkItem "Dune" 0 1000].

Lemma orders_page_card_witness :
  status (render (process_order (order_json sample_view))) = "processing" /\
  ship_to (render (process_order (order_json sample_view))) = "Ann - 1 Main St, Springfield" /\
  lines (render (process_order (order_json sample_view))) =
    Some [("Odyssey x2", "$30.00"); ("Dune x0", "$10.00")].
Proof.
  destruct (orders_page_card sample_view) as (Hship & Hl & Hs & _).
  split; [apply Hs; reflexivity|]. split; [rewrite Hship; reflexivity|].
  rewrite Hl. vm_compute. reflexivity.
Defined.

Lemma failed_fetch_shows_no_orders_witness :
  (Sql.status (mkResponse 500 (Json.Error "Database error")) <> 0 /\
   ((Sql.status (mkResponse 500 (Json.Error "Database error")) <? 200) ||
    (300 <=? Sql.status (mkResponse 500 (Json.Error "Database error")))) = true) /\
  view true (answer (mkResponse 500 (Json.Error "Database error")) (fst (mount true init))) = NoOrders.
Proof.
  split; [split; [discriminate|reflexivity]|].
  apply failed_fetch_shows_no_orders; [discriminate|reflexivity].
Defined.

End OrdersPage.
