(* ===== verification/ClientCart.v ===== *)
(** * The cart page (src/client/src/components/cart.jsx)

    The buttons of the page as the requests they send with the session's
    [Authorization] header: "+" and "-" (lines 38-66), the trash icon
    (lines 68-76) and "Clear Cart" (lines 78-91), whose deletions are sent
    together by [Promise.all] and so reach the server in any order.  Its
    subtotal, tax and total are the formulas of the checkout page.

    The page state ([page]) with [loadCart], and what the page draws:
    each line, and the summary, whose tax row prints a JavaScript number
    while the other rows use [toFixed(2)].

    Theorems: the tax row drops trailing zeros exactly when the cents
    are a multiple of 10 ([js_money_toFixed2]); "Clear Cart" removes
    exactly the listed lines whatever the order in which the server
    receives the deletions; the bound on
    the quantities the buttons request is in [BookDetail] (C25). *)

From Stdlib Require Import Ascii Permutation.
From S2P Require Import Prelude Schema Crypto Sql Auth Cart Server JsonText MyOrders.

Module CartPage.

Section Page.
Context (authorization : option string).

(** [loadCart] (lines 18-28) and [fetchCartCount] both GET /api/cart. *)
Definition reload : list Server.request :=
  [Server.GetCart authorization; Server.GetCart authorization].

(** [removeItem] (lines 68-76). *)
Definition removeItem (id : nat) : list Server.request :=
  Server.RemoveFromCart authorization id :: reload.

(** [increaseQty] (lines 38-48). *)
Definition increaseQty (id : nat) (currentQty : Z) : list Server.request :=
  Server.UpdateCart authorization id (currentQty + 1) :: reload.

(** [decreaseQty] (lines 50-66): at 1 or below the line is removed. *)
Definition decreaseQty (id : nat) (currentQty : Z) : list Server.request :=
  if (currentQty <=? 1)%Z then removeItem id
  else Server.UpdateCart authorization id (currentQty - 1) :: reload.

(** [clearCart] (lines 78-91): one DELETE per displayed line. *)
Definition clearCart (cartItems : list CartView.t) : list Server.request :=
  List.map (fun item => Server.RemoveFromCart authorization (CartView.id item)) cartItems.

(** The line ids a list of requests deletes. *)
Definition removed_ids (reqs : list Server.request) : list nat :=
  List.flat_map (fun r => match r with Server.RemoveFromCart _ i => [i] | _ => [] end) reqs.

End Page.

(** ** Money as the page prints it *)

(** [`${x}`] of a number of dollars [x] given in cents: JavaScript
    prints the shortest decimal, so no trailing zero. *)
Definition js_money (t : Z) : string :=
  let u := Z.abs t in
  let whole := JsonText.show_Z (u / 100) in
  let c := (u mod 100)%Z in
  let txt := if (c =? 0)%Z then whole
             else if (c mod 10 =? 0)%Z then (whole ++ "." ++ JsonText.show_Z (c / 10))%string
             else (whole ++ "." ++ OrdersPage.two_digits c)%string in
  if (t <? 0)%Z then String "-"%char txt else txt.

(** [subtotal], [tax] and [total] as both the cart page (lines 30-36)
    and the checkout page compute them, in cents. *)
Definition subtotal (lines : list CartView.t) : Z :=
  sumZ (List.map (fun it => CartView.price it * CartView.quantity it)%Z lines).

(** [+(subtotal * 0.1).toFixed(2)], rounding half up. *)
Definition tax (s : Z) : Z := ((s + 5) / 10)%Z.

(** The summary rows: [subtotal.toFixed(2)], [`${tax}`], [total]. *)
Record summary := mkSummary { subtotal_text : string; tax_text : string; total_text : string }.

Definition summary_of (s : Z) : summary :=
  mkSummary (OrdersPage.toFixed2 s) (js_money (tax s)) (OrdersPage.toFixed2 (s + tax s)).

Lemma str_app_cancel (w x y : string) : (w ++ x)%string = (w ++ y)%string -> x = y.
Proof. induction w as [|a w IH]; [by rewrite !string_app_nil|rewrite !string_app_cons; by intros [= ?%IH]]. Qed.

(** The two-digit cents [c] printed by [`${x}`] and by [toFixed(2)]
    agree exactly when [c] is not a multiple of 10, checked for each of
    the hundred values. *)
Definition cents_agree (c : Z) : bool :=
  Bool.eqb (if (c =? 0)%Z then false
            else if (c mod 10 =? 0)%Z then String.eqb (JsonText.show_Z (c / 10)) (OrdersPage.two_digits c)
            else true)
           (negb (c mod 10 =? 0)%Z).

Lemma cents_agree_all c : (0 <= c < 100)%Z -> cents_agree c = true.
Proof.
  intros Hc. assert (forallb (fun n => cents_agree (Z.of_nat n)) (seq 0 100) = true) as Hall
    by (vm_compute; reflexivity).
  rewrite forallb_forall in Hall. rewrite <- (Z2Nat.id c) by lia. apply Hall.
  apply in_seq. lia.
Qed.

(** [`${tax}`] shows the same text as [toFixed(2)] exactly when the
    cents are not a multiple of 10: a tax of 1.50 is shown as "1.5"
    and one of 2.00 as "2", next to a subtotal and total with two
    decimals (lines 160-177, and Checkout.jsx 219-229). *)
Theorem js_money_toFixed2 t :
  (0 <= t)%Z -> js_money t = OrdersPage.toFixed2 t <-> (t mod 10 <> 0)%Z.
Proof.
  intros Ht. unfold js_money, OrdersPage.toFixed2.
  rewrite Z.abs_eq, (proj2 (Z.ltb_ge _ _)) by lia.
  assert ((t mod 100) mod 10 = t mod 10)%Z as Hm.
  { apply Z.mod_mod_divide. by exists 10%Z. }
  pose proof (cents_agree_all (t mod 100) (Z.mod_pos_bound t 100 ltac:(lia))) as Hc.
  unfold cents_agree in Hc. rewrite Hm in Hc |- *.
  destruct (t mod 100 =? 0)%Z eqn:E0; [|destruct (t mod 10 =? 0)%Z eqn:E1].
  - apply Z.eqb_eq in E0. rewrite E0 in Hm. cbn in Hm. split.
    + intros H. rewrite <- (JsonText.str_app_nil_r (JsonText.show_Z _)) in H at 1.
      apply str_app_cancel in H. discriminate.
    + intros H. lia.
  - apply Bool.eqb_prop in Hc. cbn in Hc. apply String.eqb_neq in Hc. split; [|intros H; reflect_bools; lia].
    intros H. apply str_app_cancel in H. rewrite !string_app_cons in H. injection H as H.
    rewrite !string_app_nil in H. by exfalso.
  - split; [intros _; reflect_bools; lia|done].
Qed.

(** ** The page (lines 9-10) and what it draws (lines 97-194) *)

Record page := mkPage { cartItems : list CartView.t; loading : bool; navigated : option string }.

Definition init : page := mkPage [] true None.

(** [loadCart] (lines 18-28) on the answer to GET /api/cart. *)
Definition loaded (r : response) (p : page) : page :=
  if status r =? 0 then p
  else if (200 <=? status r) && (status r <? 300) then
    match body r with
    | Json.Cart lines => mkPage lines false (navigated p)
    | _ => mkPage (cartItems p) false (navigated p)
    end
  else mkPage (cartItems p) false (navigated p).

(** [handleCheckout] (lines 93-95) and "Continue Shopping" (line 184). *)
Definition handleCheckout (p : page) : page := mkPage (cartItems p) (loading p) (Some "/checkout").
Definition continueShopping (p : page) : page := mkPage (cartItems p) (loading p) (Some "/").

(** [clearCart] once its deletions succeeded: [setCartItems([])]. *)
Definition cleared (p : page) : page := mkPage [] (loading p) (navigated p).

(** One cart line: title, quantity, [${item.price} each] (mysql2 sends
    the DECIMAL price as text with two decimals) and the line amount. *)
Record line_view := mkLine { line_title : string; line_qty : Z; each : string; amount : string }.

Definition line_of (it : CartView.t) : line_view :=
  mkLine (CartView.title it) (CartView.quantity it) (OrdersPage.toFixed2 (CartView.price it))
         (OrdersPage.toFixed2 (CartView.price it * CartView.quantity it)).

Inductive screen := Loading | Empty | Lines (ls : list line_view) (sm : summary).

Definition view (p : page) : screen :=
  if loading p then Loading
  else match cartItems p with
       | [] => Empty
       | items => Lines (List.map line_of items) (summary_of (subtotal items))
       end.

(** A cart of one "Odyssey" at 15.00: the summary reads 15.00, a tax of
    1.5 and a total of 16.50. *)
Example cart_summary_tax_text :
  view (loaded (mkResponse 200 (Json.Cart [CartView.mk 1 1 7 1 "Odyssey" "Homer" 1500 None])) init) =
  Lines [mkLine "Odyssey" 1 "15.00" "15.00"] (mkSummary "15.00" "1.5" "16.50").
Proof. vm_compute. reflexivity. Qed.

Section Clear.
Context `{Bcrypt} `{Jwt} (JWT_SECRET : string) (u : claims) (e : Z).
Let token := jwt_sign u JWT_SECRET e.
Hypothesis token_no_space : AuthMw.no_space token = true.
Hypothesis token_nonempty : token <> EmptyString.

Definition not_removed (ids : list nat) (r : CartRow.t) : bool :=
  negb (existsb (fun i => CartRow.id r =? i) ids).

Lemma remove_request_step i c :
  (c_now c < e)%Z -> c_faults c = [] ->
  run (Server.app JWT_SECRET (Server.RemoveFromCart (Server.bearer token) i)) c =
  (mkResponse 200 (Json.Message "Item removed from cart"),
   with_db (set_cart (tbl_delete (fun r => CartRow.id r =? i) (cart (c_db c))) (c_db c))
           (drop_fault c)).
Proof.
  intros Hnow Hnil. cbn [Server.app]. unfold Server.bearer, token.
  rewrite AuthMw.authenticate_run by done.
  unfold CartApi.delete_cart, query_or. cbn [run]. rewrite conn_query_eq, head_fault_nil by done.
  done.
Qed.

Lemma run_all_removes order c :
  (forall r, In r order -> exists i, r = Server.RemoveFromCart (Server.bearer token) i) ->
  (c_now c < e)%Z -> c_faults c = [] ->
  t_rows (cart (c_db (snd (Server.run_all JWT_SECRET order c)))) =
  List.filter (not_removed (removed_ids order)) (t_rows (cart (c_db c))).
Proof.
  revert c. induction order as [|r order IH]; intros c Hall Hnow Hnil.
  - simpl. rewrite (filter_ext_in _ (fun _ => true)) by (intros; unfold not_removed; done).
    by rewrite List.filter_true.
  - destruct (Hall r (or_introl eq_refl)) as [i ->]. cbn [Server.run_all].
    rewrite remove_request_step by done.
    destruct (Server.run_all JWT_SECRET order _) as [rs c2] eqn:E. simpl.
    specialize (IH (with_db (set_cart (tbl_delete (fun r => CartRow.id r =? i) (cart (c_db c))) (c_db c))
                              (drop_fault c))).
    rewrite E in IH. simpl in IH. rewrite IH; [|by intros; apply Hall; right|done|by rewrite Hnil].
    rewrite filter_filter_and. apply filter_ext_in. intros x _.
    unfold not_removed. simpl. by destruct (CartRow.id x =? i), (existsb _ _).
Qed.

Lemma not_removed_perm l l' r : Permutation l l' -> not_removed l r = not_removed l' r.
Proof.
  induction 1 as [|x l1 l2 _ IH|x y l|l1 l2 l3 _ IH1 _ IH2];
    unfold not_removed in *; simpl; try congruence.
  - by destruct (CartRow.id r =? x).
  - by destruct (CartRow.id r =? x), (CartRow.id r =? y).
Qed.

(** C26: "Clear Cart" removes exactly the displayed lines, whatever order
    the server receives the [Promise.all] deletions in: for every
    permutation of the requests, run one after the other with the
    user's valid token on a working store, the cart afterwards is the
    cart before without those lines. *)
Theorem clear_cart_any_order items order c :
  (c_now c < e)%Z -> c_faults c = [] ->
  Permutation order (clearCart (Server.bearer token) items) ->
  t_rows (cart (c_db (snd (Server.run_all JWT_SECRET order c)))) =
  List.filter (not_removed (List.map CartView.id items)) (t_rows (cart (c_db c))).
Proof.
  intros Hnow Hnil Hperm. rewrite run_all_removes; [|intros r Hr|done|done].
  - apply filter_ext_in. intros x _. apply not_removed_perm.
    transitivity (removed_ids (clearCart (Server.bearer token) items)).
    + unfold removed_ids. by apply Permutation_flat_map.
    + unfold clearCart, removed_ids. clear.
      induction items as [|v vs IH]; simpl; [done|]. by apply perm_skip.
  - apply (Permutation_in _ Hperm) in Hr. unfold clearCart in Hr.
    apply in_map_iff in Hr as (v & <- & _). by eexists.
Qed.
End Clear.


(** Ann's cart with two lines, shown by the page in this order. *)
Definition two_lines : list CartView.t :=
  [CartView.mk 1 1 7 2 "Odyssey" "Author" 1500 None; CartView.mk 2 1 1 1 "Dune" "Author" 1000 None].

Definition sample_two_lines : db :=
  set_cart (mkTable [CartRow.mk 1 1 7 2; CartRow.mk 2 1 1 1; CartRow.mk 3 2 2 1] 4) sample_db.

Definition ann_token : string := jwt_sign (mkClaims 1 "ann@example.com") "s3cret" 87400.

(** The two deletions reach the server in the reverse order. *)
Lemma clear_cart_any_order_witness :
  t_rows (cart (c_db (snd (Server.run_all "s3cret"
      (rev (clearCart (Server.bearer ann_token) two_lines)) (conn_of sample_two_lines []))))) =
  List.filter (not_removed (List.map CartView.id two_lines)) (t_rows (cart sample_two_lines)).
Proof.
  apply (clear_cart_any_order "s3cret" (mkClaims 1 "ann@example.com") 87400);
    [vm_compute; reflexivity|discriminate|vm_compute; reflexivity|reflexivity|].
  apply Permutation_rev.
Defined.

End CartPage.
