(* ===== verification/AuthContext.v ===== *)
(** * The client session (src/client/src/context/AuthContext.jsx)

    The provider's state: [user], [token] and [cartCount] (lines 9-11),
    with two pieces of state outside React that the code keeps in step
    with them: [localStorage.token] and the axios default
    [Authorization] header, which every later request carries.  Each
    callback of the provider, and each settled promise, is an event of
    [step]; the effect on [token] (lines 13-30) is the event
    [TokenEffect], which React runs after a change of [token].

    Theorems: the invariant "a session that believes it holds token t
    sends [Bearer t]" and which events preserve it; a failed login while
    logged in breaks it, after which the page still shows the user as
    logged in while the server refuses every protected request. *)

From S2P Require Import Prelude Schema Crypto Sql Auth Server.

Module Session.

Record user_info := mkUserInfo { uid : nat; uname : string; uemail : string }.

Record state := mkState {
  user : option user_info;
  token : option string;
  cartCount : Z;
  stored : option string;      (** localStorage.getItem('token') *)
  header : option string       (** axios.defaults.headers.common['Authorization'] *)
}.

(** The header value of lines 15 and 67. *)
Definition bearer_of (t : string) : option string := Some ("Bearer " ++ t)%string.

(** The initial state of the provider (lines 9-11). *)
Definition init (ls : option string) : state := mkState None ls 0 ls None.

(** [isAuthenticated: !!token] (line 144). *)
Definition isAuthenticated (s : state) : bool :=
  match token s with Some _ => true | None => false end.

(** [logout] (lines 108-114). *)
Definition logout (s : state) : state := mkState None None 0 None None.

Inductive event :=
| TokenEffect                                  (** lines 13-30, synchronous part *)
| ProfileLoaded (u : user_info)                (** line 18: setUser *)
| ProfileFailed                                (** line 25: logout() *)
| LoginSucceeded (t : string) (u : user_info)  (** lines 60-72 *)
| LoginFailed                                  (** lines 73-86 *)
| Logout                                       (** lines 108-114 *)
| CartFetched (quantities : list Z)            (** lines 36-38 *)
| CartFetchFailed                              (** lines 39-41 *)
| UpdateCartCount (change : Z)                 (** lines 45-47 *)
| ResetCartCount.                              (** lines 49-51 *)

Definition step (s : state) (ev : event) : state :=
  match ev with
  | TokenEffect =>
      match token s with
      | Some t => mkState (user s) (token s) (cartCount s) (stored s) (bearer_of t)
      | None => mkState (user s) (token s) 0 (stored s) (header s)
      end
  | ProfileLoaded u => mkState (Some u) (token s) (cartCount s) (stored s) (header s)
  | ProfileFailed => logout s
  | LoginSucceeded t u => mkState (Some u) (Some t) (cartCount s) (Some t) (bearer_of t)
  | LoginFailed => mkState (user s) (token s) (cartCount s) None None
  | Logout => logout s
  | CartFetched qs =>
      match token s with
      | None => s
      | Some _ => mkState (user s) (token s) (sumZ qs) (stored s) (header s)
      end
  | CartFetchFailed =>
      match token s with
      | None => s
      | Some _ => mkState (user s) (token s) 0 (stored s) (header s)
      end
  | UpdateCartCount ch => mkState (user s) (token s) (Z.max 0 (cartCount s + ch)) (stored s) (header s)
  | ResetCartCount => mkState (user s) (token s) 0 (stored s) (header s)
  end.

(** The session sends the credential it believes it holds. *)
Definition consistent (s : state) : Prop :=
  forall t, token s = Some t -> header s = bearer_of t.

(** C27: every event but a failed login keeps the session consistent,
    and the effect on [token] restores consistency from any state. *)
Theorem step_consistent s ev :
  ev <> LoginFailed -> consistent s -> consistent (step s ev).
Proof.
  intros Hev Hs t. unfold consistent in Hs.
  destruct ev; simpl; destruct (token s) as [tk|] eqn:E; simpl; rewrite ?E; intros Ht;
    first [congruence | apply Hs; congruence].
Qed.

(** C28: a failed login while logged in leaves the session believing it
    is authenticated ([token] is kept, lines 76-78 only clear the
    storage and the header), and since [token] does not change the
    effect of lines 13-30 never restores the header: the next protected
    request, GET /api/cart, is refused by the server with 401. *)
Theorem failed_login_desync `{Bcrypt} `{Jwt} secret s t c :
  token s = Some t ->
  let s' := step s LoginFailed in
  isAuthenticated s' = true /\ header s' = None /\ stored s' = None /\
  run (Server.app secret (Server.GetCart (header s'))) c =
    (mkResponse 401 (Json.Error "Access token required"), c).
Proof. intros Ht. simpl. unfold isAuthenticated. simpl. by rewrite Ht. Qed.

Definition ann_info : user_info := mkUserInfo 1 "Ann" "ann@example.com".

Lemma step_consistent_witness :
  consistent (step (step (init None) (LoginSucceeded "tok" ann_info)) (UpdateCartCount 2)).
Proof.
  apply step_consistent; [discriminate|].
  apply step_consistent; [discriminate|]. intros t; discriminate.
Defined.

Lemma failed_login_desync_witness :
  let s' := step (step (init None) (LoginSucceeded "tok" ann_info)) LoginFailed in
  isAuthenticated s' = true /\ header s' = None /\ stored s' = None /\
  run (Server.app "s3cret" (Server.GetCart (header s'))) (conn_of sample_db []) =
    (mkResponse 401 (Json.Error "Access token required"), conn_of sample_db []).
Proof. apply (failed_login_desync "s3cret" _ "tok"). reflexivity. Defined.

End Session.
