(* ===== verification/BookDetail.v ===== *)
(** * A book's card and its detail page (src/client/src/components/
      BookCard.jsx, BookDetail.jsx)

    Both draw five stars, [i < Math.round(book.rating)] full (BookCard
    4 and 23-25, BookDetail 63 and 77-79); the rating is kept in tenths
    of a star, so [Math.round] of it is [floor((r + 5) / 10)].

    The detail page loads GET /api/books/:id (lines 16-26), keeps a
    quantity the "-" and "+" buttons change (lines 93-95), and has two
    actions: "Add to Cart" posts [{ book_id, quantity }] and then
    refreshes the cart count (lines 28-44), "Buy Now" navigates to the
    checkout with the book and the quantity as navigation state (lines
    46-58); both send a logged-out visitor to the login page.  The
    page's events are the answers it receives and the clicks; [step]
    gives the page after an event and [requests] what it sends.

    Theorems: the number of full stars is the rounded rating clamped to
    0..5; on the detail page the quantity never drops below 1, so no
    client page asks the server for, or checks out, fewer than one
    copy. *)

From S2P Require Import Prelude Schema Crypto Sql Auth Server ClientCart AuthContext JsonText MyOrders.

(** ** Stars *)

Module Stars.

(** [Math.round(rating)] for a rating in tenths: halves round up. *)
Definition js_round_tenths (r : Z) : Z := ((r + 5) / 10)%Z.

(** [[...Array(5)].map((_, i) => i < rating)]: true for [FaStar]. *)
Definition stars (rating : Z) : list bool :=
  List.map (fun i => (Z.of_nat i <? js_round_tenths rating)%Z) (seq 0 5).

Definition full_stars (rating : Z) : nat := length (List.filter (fun b : bool => b) (stars rating)).

(** The number of stars [n] lights: [n] clamped to 0..5. *)
Definition clamp5 (n : Z) : nat := Z.to_nat (Z.max 0 (Z.min 5 n)).

Lemma lit_stars n :
  List.map (fun i => (Z.of_nat i <? n)%Z) (seq 0 5) = repeat true (clamp5 n) ++ repeat false (5 - clamp5 n).
Proof.
  unfold clamp5.
  assert (n <= 0 \/ n = 1 \/ n = 2 \/ n = 3 \/ n = 4 \/ 5 <= n)%Z as [Hn|[->|[->|[->|[->|Hn]]]]] by lia;
    try reflexivity.
  - replace (Z.to_nat _) with 0%nat by lia. cbn. rewrite !(proj2 (Z.ltb_ge _ _)) by lia. done.
  - replace (Z.to_nat _) with 5%nat by lia. cbn. rewrite !(proj2 (Z.ltb_lt _ _)) by lia. done.
Qed.

Lemma filter_repeat_true k m :
  length (List.filter (fun b : bool => b) (repeat true k ++ repeat false m)) = k.
Proof. induction k as [|k IH]; simpl; [by induction m|by rewrite IH]. Qed.

(** C16: the stars of a book are full up to the rounded rating and empty
    after it: [Math.round] of the rating, clamped to 0..5, full stars
    then empty ones, five in all; for a rating between 0 and 5 the
    number of full stars is the rating to the nearest star, halves
    rounded up. *)
Theorem stars_rounded_rating r :
  stars r = repeat true (full_stars r) ++ repeat false (5 - full_stars r) /\
  full_stars r = clamp5 (js_round_tenths r) /\
  ((0 <= r <= 50)%Z -> (10 * Z.of_nat (full_stars r) - 5 <= r < 10 * Z.of_nat (full_stars r) + 5)%Z).
Proof.
  assert (full_stars r = clamp5 (js_round_tenths r)) as Hf.
  { unfold full_stars, stars. by rewrite lit_stars, filter_repeat_true. }
  split; [rewrite Hf; apply lit_stars|]. split; [done|]. intros Hr. rewrite Hf. unfold clamp5, js_round_tenths.
  pose proof (Z.div_mod (r + 5) 10 ltac:(lia)). pose proof (Z.mod_pos_bound (r + 5) 10 ltac:(lia)).
  assert (0 <= (r + 5) / 10 <= 5)%Z by lia.
  rewrite Z2Nat.id by lia. lia.
Qed.

(** A 4.5-star book shows five full stars, a 4.4-star book four. *)
Lemma stars_rounded_rating_witness :
  (0 <= 45 <= 50)%Z /\ full_stars 45 = 5%nat /\ full_stars 44 = 4%nat /\
  (10 * Z.of_nat (full_stars 45) - 5 <= 45 < 10 * Z.of_nat (full_stars 45) + 5)%Z.
Proof.
  split; [lia|]. split; [reflexivity|]. split; [reflexivity|].
  apply (proj2 (proj2 (stars_rounded_rating 45))). lia.
Defined.

End Stars.

(** ** BookCard.jsx *)

Module BookCard.
Import Stars.

(** What a card shows (lines 7-38). *)
Record card := mkCard {
  image : string;          (** [book.image_url || "/images/Book.jpg"] *)
  heading : string;
  tag : string;
  author : string;
  rating_stars : list bool;
  reviews : Z
}.

Definition image_or_default (u : option string) : string :=
  match u with Some s => if String.eqb s "" then "/images/Book.jpg" else s | None => "/images/Book.jpg" end.

Definition view (b : BookRow.t) : card :=
  mkCard (image_or_default (BookRow.image_url b)) (BookRow.title b) (BookRow.category b)
         (BookRow.author b) (stars (BookRow.rating b)) (BookRow.reviews b).

End BookCard.

(** ** BookDetail.jsx *)

Module DetailPage.
Import Stars.

(** Where the page navigates. *)
Inductive target :=
| ToLogin
| ToCheckout (book : BookRow.t) (quantity : Z).   (** [navigate('/checkout', { state })] *)

Record page := mkPage {
  book : option BookRow.t;
  loading : bool;
  quantity : Z;
  navigated : option target;
  alerted : option string
}.

(** The page as it mounts (lines 12-14). *)
Definition init : page := mkPage None true 1 None None.

Inductive event :=
| Loaded (r : response)           (** the answer to GET /api/books/:id *)
| Minus                           (** line 93 *)
| Plus                            (** line 95 *)
| AddToCart                       (** line 100 *)
| AddToCartAnswered (r : response)
| BuyNow.                         (** line 103 *)

Definition is_2xx (r : response) : bool := (200 <=? status r) && (status r <? 300).

Definition with_quantity (p : page) (q : Z) : page :=
  mkPage (book p) (loading p) q (navigated p) (alerted p).

Definition with_nav (p : page) (t : target) : page :=
  mkPage (book p) (loading p) (quantity p) (Some t) (alerted p).

Section Page.
(** The session's [isAuthenticated] and axios header. *)
Variable s : Session.state.

(** The page after an event.  The buttons are drawn only once the book
    is loaded (line 61), so a click without a book changes nothing. *)
Definition step (p : page) (ev : event) : page :=
  match ev with
  | Loaded r =>
      if status r =? 0 then p
      else if is_2xx r then
        match body r with
        | Json.Book b => mkPage (Some b) false (quantity p) (navigated p) (alerted p)
        | _ => mkPage (book p) false (quantity p) (navigated p) (alerted p)
        end
      else mkPage (book p) false (quantity p) (navigated p) (alerted p)
  | Minus => with_quantity p (Z.max 1 (quantity p - 1))
  | Plus => with_quantity p (quantity p + 1)
  | AddToCart => if Session.isAuthenticated s then p else with_nav p ToLogin
  | AddToCartAnswered r =>
      if (status r =? 0) || is_2xx r then p
      else mkPage (book p) (loading p) (quantity p) (navigated p) (Some "Failed to add to cart")
  | BuyNow =>
      if Session.isAuthenticated s then
        match book p with Some b => with_nav p (ToCheckout b (quantity p)) | None => p end
      else with_nav p ToLogin
  end.

(** The requests an event sends: the POST of "Add to Cart", and the
    GET /api/cart of [fetchCartCount] after it succeeded. *)
Definition requests (p : page) (ev : event) : list Server.request :=
  match ev with
  | AddToCart =>
      if Session.isAuthenticated s then
        match book p with
        | Some b => [Server.AddToCart (Session.header s) (BookRow.id b) (quantity p)]
        | None => []
        end
      else []
  | AddToCartAnswered r => if is_2xx r then [Server.GetCart (Session.header s)] else []
  | _ => []
  end.

(** A sequence of events from [p]: the final page and all requests sent. *)
Fixpoint run_events (p : page) (evs : list event) : page * list Server.request :=
  match evs with
  | [] => (p, [])
  | ev :: evs' =>
      let '(p', rs) := run_events (step p ev) evs' in (p', requests p ev ++ rs)
  end.

End Page.

(** ** The quantity is never below 1 *)

(** A request asks for at least one copy. *)
Definition quantity_ok (r : Server.request) : Prop :=
  match r with
  | Server.AddToCart _ _ q | Server.UpdateCart _ _ q => (1 <= q)%Z
  | _ => True
  end.

(** The page holds a quantity of at least 1, and has navigated to the
    checkout, if at all, with such a quantity. *)
Definition page_inv (p : page) : Prop :=
  (1 <= quantity p)%Z /\
  match navigated p with Some (ToCheckout _ q) => (1 <= q)%Z | _ => True end.

Lemma init_inv : page_inv init.
Proof. split; cbn; lia. Qed.

Lemma step_inv s p ev : page_inv p -> page_inv (step s p ev).
Proof.
  intros [Hq Hn]. destruct ev; cbn [step].
  - repeat case_test; try destruct (body r); split; done.
  - split; cbn; [lia|done].
  - split; cbn; [lia|done].
  - case_test; [|split]; done.
  - case_test; [|split]; done.
  - case_test; [destruct (book p)|]; split; cbn; done.
Qed.

Lemma requests_ok s p ev : page_inv p -> Forall quantity_ok (requests s p ev).
Proof.
  intros [Hq _]. destruct ev; cbn [requests]; repeat case_test; try destruct (book p); repeat constructor; done.
Qed.

Lemma run_events_inv s p evs :
  page_inv p -> page_inv (fst (run_events s p evs)) /\ Forall quantity_ok (snd (run_events s p evs)).
Proof.
  revert p. induction evs as [|ev evs IH]; intros p Hp; cbn [run_events]; [done|].
  destruct (IH (step s p ev) (step_inv s p ev Hp)) as [Hp' Hrs].
  destruct (run_events s (step s p ev) evs) as [p' rs]. cbn in Hp', Hrs |- *.
  split; [done|]. apply Forall_app. split; [by apply requests_ok|done].
Qed.

(** C25: no page of the client asks for fewer than one copy.  On the
    detail page, whatever the clicks and answers, the quantity stays at
    least 1 ([Math.max(1, quantity - 1)], line 93), and so does every
    POST /api/cart it sends and the quantity it takes to the checkout;
    on the cart page "-" deletes the line at quantity 1 instead of
    asking for 0 (cart.jsx 51-55), and "+" asks for at least 1 from a
    non-negative quantity.  The server checks none of this (C23). *)
Theorem client_quantities_positive :
  (forall s evs, page_inv (fst (run_events s init evs)) /\ Forall quantity_ok (snd (run_events s init evs))) /\
  (forall h id q, Forall quantity_ok (CartPage.decreaseQty h id q) /\
                  ((0 <= q)%Z -> Forall quantity_ok (CartPage.increaseQty h id q))).
Proof.
  split; [intros s evs; apply run_events_inv, init_inv|].
  intros h id q. unfold CartPage.decreaseQty, CartPage.increaseQty, CartPage.removeItem, CartPage.reload.
  split; [case_test; reflect_bools|intros Hq]; repeat constructor; cbn; lia.
Qed.

(** Three clicks on "-", one on "+" and "Buy Now" while logged out keep
    the quantity at least 1; "+" on a cart line of 3 asks for 4. *)
Lemma client_quantities_positive_witness :
  (0 <= 3)%Z /\
  page_inv (fst (run_events (Session.init None) init
    [Minus; Minus; Minus; Plus; BuyNow])) /\
  Forall quantity_ok (CartPage.increaseQty None 1 3).
Proof.
  destruct client_quantities_positive as [Hd Hc]. split; [lia|]. split; [apply Hd|].
  apply (proj2 (Hc None 1 3%Z)). lia.
Defined.

End DetailPage.
