(* ===== verification/Checkout.v ===== *)
(** * The checkout page (src/client/src/components/Checkout.jsx)

    [cartItems] comes either from the "Buy Now" navigation state (the
    book row plus the chosen quantity, lines 28-33) or from GET /api/cart
    (lines 34-38); the page shows subtotal, 10% tax and total (lines
    41-44) and posts [{ items, total_amount, shipping_address }] (lines
    50-60).  Money is in cents with exact decimal arithmetic; JavaScript's
    binary floating point before [toFixed(2)] is not modelled, the
    rounding of [toFixed] is taken as half-up.

    The page state ([page]: items, the shipping and payment forms, the
    last alert and navigation) with [handleInputChange] (lines 70-72)
    and [submit], [handleSubmit] sent through the route table with the
    session's header (lines 46-68).

    The order summary is the cart page's: from the cart, both pages show
    the same subtotal, tax and total ([checkout_summary_matches_cart]).

    Two end-to-end theorems: "Buy Now" from a book's page places exactly
    the order of that book, empties the cart and resets the navbar count
    (C17); checking out from the cart instead sends each cart LINE's id
    as [book_id], because the rows of GET /api/cart carry [c.*] (the
    line id) and no book id field named [id] (C2, a finding). *)

From S2P Require Import Prelude Schema Crypto Sql Auth Cart Orders Server ClientCart AuthContext JsonText MyOrders BookDetail.

Module CheckoutPage.

(** Where the page got its items from. *)
Inductive source :=
| BuyNow (book : BookRow.t) (quantity : Z)
| FromCart (lines : list CartView.t).

(** The fields of a [cartItems] element the page reads. *)
Record cart_item := mkCartItem { id : nat; quantity : Z; price : Z; title : string }.

(** The [useEffect] of lines 28-39: [{...location.state.book, quantity}]
    or [res.data]. *)
Definition cart_items (src : source) : list cart_item :=
  match src with
  | BuyNow b q => [mkCartItem (BookRow.id b) q (BookRow.price b) (BookRow.title b)]
  | FromCart lines =>
      List.map (fun v => mkCartItem (CartView.id v) (CartView.quantity v) (CartView.price v)
                           (CartView.title v)) lines
  end.

(** [cartItems.reduce((sum, item) => sum + item.price * item.quantity, 0)] *)
Definition subtotal (items : list cart_item) : Z :=
  sumZ (List.map (fun it => price it * quantity it)%Z items).

(** [+(subtotal * 0.1).toFixed(2)], in cents, rounding half up. *)
Definition tax (s : Z) : Z := ((s + 5) / 10)%Z.

(** [(subtotal + tax).toFixed(2)] *)
Definition total (items : list cart_item) : Z := (subtotal items + tax (subtotal items))%Z.

(** [orderData.items] (lines 51-55). *)
Definition order_items (items : list cart_item) : list OrdersApi.item :=
  List.map (fun it => OrdersApi.mkItem (id it) (quantity it) (price it)) items.

(** The order summary (lines 207-234): each item as [title xquantity]
    with its amount, then subtotal, tax and total as the cart page
    prints them. *)
Definition order_summary (items : list cart_item) : list (string * string) * CartPage.summary :=
  (List.map (fun it => ((title it ++ " x" ++ JsonText.show_Z (quantity it))%string,
                        OrdersPage.toFixed2 (price it * quantity it))) items,
   CartPage.summary_of (subtotal items)).

(** The two pages compute the same amounts from the same cart. *)
Lemma subtotal_from_cart lines : subtotal (cart_items (FromCart lines)) = CartPage.subtotal lines.
Proof. unfold subtotal, CartPage.subtotal, cart_items. by rewrite List.map_map. Qed.

(** The checkout opened from the cart shows the totals the cart page
    showed: the formulas of cart.jsx 30-36 and Checkout.jsx 41-44 agree
    on every cart. *)
Lemma checkout_summary_matches_cart lines n :
  lines <> [] ->
  CartPage.view (CartPage.mkPage lines false n) =
  CartPage.Lines (List.map CartPage.line_of lines) (snd (order_summary (cart_items (FromCart lines)))).
Proof.
  intros Hne. unfold CartPage.view, order_summary. cbn [CartPage.loading CartPage.cartItems snd].
  rewrite subtotal_from_cart. by destruct lines.
Qed.

(** ** The page and its submission *)

(** [{ name: user?.name || "", email: user?.email || "", ... }] (lines 13-20). *)
Definition init_shipping (u : option Session.user_info) : Shipping.t :=
  match u with
  | Some ui => Shipping.mk (Session.uname ui) (Session.uemail ui) "" "" "" ""
  | None => Shipping.mk "" "" "" "" "" ""
  end.

(** The [payment] state (lines 21-26): filled in, never sent. *)
Record payment := mkPayment { cardName : string; cardNumber : string; expiry : string; cvv : string }.

Definition init_payment : payment := mkPayment "" "" "" "".

(** The [name]s of the inputs of each form. *)
Inductive shipping_field := SName | SEmail | SPhone | SAddress | SCity | SZipCode.
Inductive payment_field := PCardName | PCardNumber | PExpiry | PCvv.

(** [handleInputChange(setShipping)] (lines 70-72). *)
Definition set_shipping (sh : Shipping.t) (f : shipping_field) (v : string) : Shipping.t :=
  let 'Shipping.mk n e a c z ph := sh in
  match f with
  | SName => Shipping.mk v e a c z ph
  | SEmail => Shipping.mk n v a c z ph
  | SPhone => Shipping.mk n e a c z v
  | SAddress => Shipping.mk n e v c z ph
  | SCity => Shipping.mk n e a v z ph
  | SZipCode => Shipping.mk n e a c v ph
  end.

(** [handleInputChange(setPayment)] *)
Definition set_payment (pm : payment) (f : payment_field) (v : string) : payment :=
  let 'mkPayment n k x c := pm in
  match f with
  | PCardName => mkPayment v k x c
  | PCardNumber => mkPayment n v x c
  | PExpiry => mkPayment n k v c
  | PCvv => mkPayment n k x v
  end.

Record page := mkPage {
  cartItems : list cart_item;
  shipping : Shipping.t;
  pay : payment;
  alerted : option string;
  navigated : option string
}.

(** The page a navigation opens, for the user the session holds: the
    "Buy Now" state of the detail page, or the cart. *)
Definition mount (u : option Session.user_info) (src : source) : page :=
  mkPage (cart_items src) (init_shipping u) init_payment None None.

(** The detail page's navigation state as a [source]. *)
Definition buy_now_source (t : DetailPage.target) : option source :=
  match t with DetailPage.ToCheckout b q => Some (BuyNow b q) | DetailPage.ToLogin => None end.

Section Submit.
Context `{Bcrypt} `{Jwt} (JWT_SECRET : string).

(** [handleSubmit] (lines 46-68) against the server: the request with
    the session's header; [alert], [resetCartCount()] and
    [navigate('/my-orders')] on success, the failure [alert] otherwise,
    nothing while no answer comes.  With no items the page shows "Your
    cart is empty" (lines 74-81) and has no form to submit. *)
Definition submit (p : page) (s : Session.state) (c : conn) : page * Session.state * conn :=
  match cartItems p with
  | [] => (p, s, c)
  | _ =>
      let '(r, c') := run (Server.app JWT_SECRET
                             (Server.PlaceOrder (Session.header s) (order_items (cartItems p))
                                                (total (cartItems p)) (shipping p))) c in
      if status r =? 0 then (p, s, c')
      else if DetailPage.is_2xx r then
        (mkPage (cartItems p) (shipping p) (pay p) (Some "Order placed successfully!") (Some "/my-orders"),
         Session.step s Session.ResetCartCount, c')
      else (mkPage (cartItems p) (shipping p) (pay p) (Some "Order failed. Please try again.") (navigated p),
            s, c')
  end.

(** C17: "Buy Now" places the order of the book on the page.  Logged in
    with a valid token, on a working store, "Buy Now" on the detail
    page of a catalogue book takes the book and the chosen quantity to
    the checkout; whatever is typed in the forms, submitting then places
    exactly one order of the user with one item, that book at that
    quantity and at the book's price, empties the user's cart, resets
    the navbar count to 0 and goes to /my-orders.  The payload carries
    the book's own id here, unlike the checkout from the cart (C2). *)
Theorem buy_now_places_order u e s p b c :
  Session.isAuthenticated s = true ->
  Session.header s = Server.bearer (jwt_sign u JWT_SECRET e) ->
  (c_now c < e)%Z -> AuthMw.no_space (jwt_sign u JWT_SECRET e) = true ->
  jwt_sign u JWT_SECRET e <> EmptyString ->
  c_faults c = [] -> c_txn c = None ->
  DetailPage.book p = Some b -> In b (t_rows (books (c_db c))) ->
  let q := DetailPage.quantity p in
  DetailPage.navigated (DetailPage.step s p DetailPage.BuyNow) = Some (DetailPage.ToCheckout b q) /\
  forall sh pm,
    let '(cp', s', c') := submit (mkPage (cart_items (BuyNow b q)) sh pm None None) s c in
    navigated cp' = Some "/my-orders" /\ Session.cartCount s' = 0%Z /\
    exists oid, OrdersApi.order_placed (c_db c) (c_db c') (userId u)
                  [OrdersApi.mkItem (BookRow.id b) q (BookRow.price b)]
                  (total (cart_items (BuyNow b q))) sh (c_now c) oid.
Proof.
  intros Hauth Hhdr Hnow Hsp Hne Hnil Htx Hb Hin q. split.
  { unfold DetailPage.step. by rewrite Hauth, Hb. }
  intros sh pm. unfold submit. cbn [cartItems cart_items Server.app]. rewrite Hhdr. unfold Server.bearer.
  rewrite AuthMw.authenticate_run by done.
  destruct (OrdersApi.post_orders_ok (userId u) [OrdersApi.mkItem (BookRow.id b) q (BookRow.price b)]
              (total [mkCartItem (BookRow.id b) q (BookRow.price b) (BookRow.title b)]) sh c Hnil Htx)
    as (oid & c' & Hrun & _ & Hpl); [done|repeat constructor; by exists b|].
  cbn [order_items List.map id quantity price shipping]. rewrite Hrun. cbn. eauto.
Qed.


(** The payload of the checkout from the cart: one item per line of
    GET /api/cart, with [item.id] in [book_id]. *)
Lemma order_items_from_cart lines :
  order_items (cart_items (FromCart lines)) =
  List.map (fun v => OrdersApi.mkItem (CartView.id v) (CartView.quantity v) (CartView.price v)) lines.
Proof. unfold order_items, cart_items. by rewrite map_map. Qed.

(** C2: the checkout from the cart records each cart line's own id as
    the book.  Logged in with a valid token, on a working store, the
    cart page and the checkout receive the user's lines [cart_view] from
    GET /api/cart; whatever is typed in the forms, when the line ids
    name catalogue books, submitting places the order of the user whose
    item rows carry in [book_id] the id of the cart line
    ([CartView.id], index.js 172 [c.id]), not the book the line holds
    ([CartView.book_id]), and goes to /my-orders. *)
Theorem checkout_from_cart_records_line_id u e s c :
  Session.isAuthenticated s = true ->
  Session.header s = Server.bearer (jwt_sign u JWT_SECRET e) ->
  (c_now c < e)%Z -> AuthMw.no_space (jwt_sign u JWT_SECRET e) = true ->
  jwt_sign u JWT_SECRET e <> EmptyString ->
  c_faults c = [] -> c_txn c = None ->
  let lines := cart_view (userId u) (c_db c) in
  let items := List.map (fun v => OrdersApi.mkItem (CartView.id v) (CartView.quantity v)
                                    (CartView.price v)) lines in
  lines <> [] -> OrdersApi.items_in_catalog (c_db c) items ->
  fst (run (Server.app JWT_SECRET (Server.GetCart (Session.header s))) c) =
    mkResponse 200 (Json.Cart lines) /\
  forall sh pm,
    let '(cp', s', c') := submit (mkPage (cart_items (FromCart lines)) sh pm None None) s c in
    navigated cp' = Some "/my-orders" /\
    exists oid, OrdersApi.order_placed (c_db c) (c_db c') (userId u) items
                  (total (cart_items (FromCart lines))) sh (c_now c) oid.
Proof.
  intros Hauth Hhdr Hnow Hsp Hne Hnil Htx lines items Hl Hcat. split.
  { cbn [Server.app]. rewrite Hhdr. unfold Server.bearer.
    rewrite AuthMw.authenticate_run by done.
    unfold CartApi.get_cart, query_or. run_step; [no_fault Hnil|]. done. }
  intros sh pm. unfold submit. cbn [cartItems].
  destruct (cart_items (FromCart lines)) as [|x xs] eqn:Hci; [by destruct lines|].
  rewrite <- Hci, order_items_from_cart. cbn [Server.app]. rewrite Hhdr. unfold Server.bearer.
  rewrite AuthMw.authenticate_run by done.
  destruct (OrdersApi.post_orders_ok (userId u) items (total (cart_items (FromCart lines))) sh c
              Hnil Htx) as (oid & c' & Hrun & _ & Hpl); [by destruct lines|exact Hcat|].
  cbn [shipping]. fold items. rewrite Hrun. cbn. eauto.
Qed.

End Submit.

(** ** Properties *)

(** The tax shown is 10% of the subtotal to the nearest cent: ten
    times the tax is within five cents of the subtotal, and the total is
    never below a non-negative subtotal. *)
Theorem tax_nearest_cent s :
  (0 <= s)%Z -> (s - 5 < 10 * tax s <= s + 5)%Z /\ (0 <= tax s)%Z.
Proof. intros Hs. unfold tax. split; [split|]; [| |apply Z.div_pos]; try lia.
  - pose proof (Z.mod_pos_bound (s + 5) 10). pose proof (Z.div_mod (s + 5) 10). lia.
  - pose proof (Z.mod_pos_bound (s + 5) 10). pose proof (Z.div_mod (s + 5) 10). lia.
Qed.

(** Ann, logged in, buys two copies of "Odyssey" (book 7) from its page. *)
Definition ann_token : string := jwt_sign (mkClaims 1 "ann@example.com") "s3cret" 87400.

Definition ann_session : Session.state :=
  Session.step (Session.init None)
    (Session.LoginSucceeded ann_token (Session.mkUserInfo 1 "Ann" "ann@example.com")).

Definition odyssey : BookRow.t := book_fixture 7 "Odyssey" 1500.

Definition odyssey_page : DetailPage.page := DetailPage.mkPage (Some odyssey) false 2 None None.

Definition buy_odyssey :=
  submit "s3cret" (mkPage (cart_items (BuyNow odyssey 2)) OrdersApi.sample_ship init_payment None None)
         ann_session (conn_of sample_db []).

Lemma buy_now_places_order_witness :
  DetailPage.navigated (DetailPage.step ann_session odyssey_page DetailPage.BuyNow) =
    Some (DetailPage.ToCheckout odyssey 2) /\
  navigated (fst (fst buy_odyssey)) = Some "/my-orders" /\ Session.cartCount (snd (fst buy_odyssey)) = 0%Z.
Proof.
  destruct (buy_now_places_order "s3cret" (mkClaims 1 "ann@example.com") 87400 ann_session odyssey_page
              odyssey (conn_of sample_db []))
    as [H1 H2]; [reflexivity|reflexivity|vm_compute; reflexivity|vm_compute; reflexivity|discriminate
                |reflexivity|reflexivity|reflexivity|right; right; left; reflexivity|].
  split; [exact H1|]. specialize (H2 OrdersApi.sample_ship init_payment).
  unfold buy_odyssey. destruct (submit _ _ _ _) as [[cp s'] c']. cbn. by destruct H2 as (? & ? & _).
Defined.

(** Ann's cart holds two copies of "Odyssey" (book 7) in cart line 1;
    her order from the cart records book 1 ("Dune"). *)
Definition ann_cart_conn : conn := conn_of sample_with_cart [].

Lemma checkout_from_cart_records_line_id_witness :
  fst (run (Server.app "s3cret" (Server.GetCart (Session.header ann_session))) ann_cart_conn) =
    mkResponse 200 (Json.Cart (cart_view 1 sample_with_cart)) /\
  forall sh pm,
    let '(cp', s', c') := submit "s3cret" (mkPage (cart_items (FromCart (cart_view 1 sample_with_cart))) sh pm None None)
                            ann_session ann_cart_conn in
    navigated cp' = Some "/my-orders" /\
    exists oid, OrdersApi.order_placed sample_with_cart (c_db c') 1 [OrdersApi.mkItem 1 2 1500]
                  (total (cart_items (FromCart (cart_view 1 sample_with_cart)))) sh 1000 oid.
Proof.
  apply (checkout_from_cart_records_line_id "s3cret" (mkClaims 1 "ann@example.com") 87400 ann_session
           ann_cart_conn); try (vm_compute; reflexivity); try discriminate.
  repeat constructor. exists (book_fixture 1 "Dune" 1000). split; [left; reflexivity|reflexivity].
Defined.

Lemma tax_nearest_cent_witness : (995 - 5 < 10 * tax 995 <= 995 + 5)%Z /\ (0 <= tax 995)%Z.
Proof. apply tax_nearest_cent. lia. Defined.

End CheckoutPage.
