(* ===== verification/Forms.v ===== *)
(** * The signup and login pages (src/client/src/components/signup.jsx,
      login.jsx) and the calls they make (AuthContext.jsx 53-105)

    Each page keeps its form fields, an error text and a [loading] flag.
    [handleSubmit] checks the fields, and otherwise awaits the provider's
    [signup] or [login], which posts to the server: axios resolves on a
    2xx status and rejects on any other, the error text being
    [error.response?.data?.error || error.response?.data?.message ||]
    a fixed fallback.  A request the server never answers (status 0 of
    [Sql.crash]) leaves the [await] pending, and the page loading.

    Theorems: the signup page, run against the server, refuses
    mismatched or short passwords without a request, and otherwise ends
    on the login page with the user created, or shows the server's
    "User already exists"; the server itself registers passwords of any
    length.  The login page shows the server's error text, so its own
    fallback "Invalid email or password" is never displayed.  With its
    inputs and button disabled while loading, the login page never has
    two logins in flight, and, the server always answering POST
    /api/login, every login in flight ends with the form usable again.
    The provider's [changePassword] ends in
    success or in one of the handler's error texts. *)

From S2P Require Import Prelude Schema Crypto Sql Auth Users Server AuthContext.

(** ** What the provider's calls return (AuthContext.jsx) *)

Module Calls.

(** [data.error] and [data.message] of a body. *)
Definition data_error (b : Json.t) : option string :=
  match b with Json.Error e => Some e | _ => None end.

Definition data_message (b : Json.t) : option string :=
  match b with
  | Json.Message m | Json.Registered m _ | Json.LoggedIn m _ _ _ _ => Some m
  | _ => None
  end.

(** [a || b] on an optional string: [undefined] and [""] are falsy. *)
Definition or_else (a : option string) (b : string) : string :=
  match a with Some s => if String.eqb s "" then b else s | None => b end.

(** [{ success, message }] or [{ success: false, error }]. *)
Inductive result := Success (message : option string) | Failure (error : string).

(** axios on the answer [r]: [None] while no answer comes. *)
Definition settle (fallback : string) (r : response) : option result :=
  if status r =? 0 then None
  else if (200 <=? status r) && (status r <? 300) then Some (Success (data_message (body r)))
  else Some (Failure (or_else (data_error (body r)) (or_else (data_message (body r)) fallback))).

(** [signup] (lines 89-105). *)
Definition signup_result (r : response) : option result :=
  settle "Signup failed. Please try again." r.

(** [login] (lines 53-86), its result; its effect on the session is
    [Session.step] with [LoginSucceeded] or [LoginFailed]. *)
Definition login_result (r : response) : option result :=
  match settle "Login failed. Please check your credentials." r with
  | Some (Success _) => Some (Success None)
  | o => o
  end.

(** [changePassword] (lines 116-130): only [data.error] is read. *)
Definition changePassword_result (r : response) : option result :=
  if status r =? 0 then None
  else if (200 <=? status r) && (status r <? 300) then Some (Success None)
  else Some (Failure (or_else (data_error (body r)) "Password change failed")).

(** The error texts PUT /api/users/password can send: the middleware's
    (index.js 17 and 23) and the handler's (index.js 322-341). *)
Definition password_errors : list string :=
  ["Access token required"; "Invalid token"; "Database error"; "Current password is incorrect";
   "Password update failed"].

Section ChangePassword.
Context `{Bcrypt} `{Jwt} (JWT_SECRET : string).

(** Whatever the header, the database and the fault schedule,
    [changePassword] either never settles (the server throws on a
    missing user, C19), succeeds, or fails with one of the server's
    texts: its fallback 'Password change failed' is never returned. *)
Lemma changePassword_outcomes h cur nw c :
  let r := fst (run (Server.app JWT_SECRET (Server.ChangePassword h cur nw)) c) in
  changePassword_result r = None \/ changePassword_result r = Some (Success None) \/
  exists e, changePassword_result r = Some (Failure e) /\ In e password_errors.
Proof.
  apply (Server.run_leaves (fun r => changePassword_result r = None \/
    changePassword_result r = Some (Success None) \/
    exists e, changePassword_result r = Some (Failure e) /\ In e password_errors)).
  cbn [Server.app]. unfold AuthMw.authenticateToken, UsersApi.put_password, query_or, fail, crash, reply.
  Server.leaves_branches; unfold changePassword_result; cbn; eauto 10.
Qed.

End ChangePassword.

End Calls.

(** ** signup.jsx *)

Module SignupPage.
Import Calls.

Record form := mkForm { name : string; email : string; password : string; confirmPassword : string }.

Record page := mkPage {
  formData : form;
  error : string;
  loading : bool;
  alerted : option string;   (** the last [alert] *)
  navigated : option string  (** the last [navigate] *)
}.

(** The page as it mounts (lines 7-14). *)
Definition init : page := mkPage (mkForm "" "" "" "") "" false None None.

(** The inputs' [id]s. *)
Inductive field := Name | Email | Password | ConfirmPassword.

(** [handleChange] (lines 19-24): [{ ...formData, [e.target.id]: value }]. *)
Definition handleChange (p : page) (id : field) (value : string) : page :=
  let f := formData p in
  let f' := match id with
            | Name => mkForm value (email f) (password f) (confirmPassword f)
            | Email => mkForm (name f) value (password f) (confirmPassword f)
            | Password => mkForm (name f) (email f) value (confirmPassword f)
            | ConfirmPassword => mkForm (name f) (email f) (password f) value
            end in
  mkPage f' (error p) (loading p) (alerted p) (navigated p).

Definition set_error (p : page) (e : string) : page :=
  mkPage (formData p) e (loading p) (alerted p) (navigated p).

(** [handleSubmit] up to the [await] (lines 26-42): the page and the
    arguments of [signup], if it is called. *)
Definition submit (p : page) : page * option (string * string * string) :=
  let f := formData p in
  if negb (String.eqb (password f) (confirmPassword f)) then (set_error p "Passwords do not match", None)
  else if String.length (password f) <? 6 then (set_error p "Password must be at least 6 characters", None)
  else (mkPage f "" true (alerted p) (navigated p), Some (name f, email f, password f)).

(** The rest of [handleSubmit] (lines 44-51). *)
Definition after_signup (p : page) (res : result) : page :=
  match res with
  | Success _ => mkPage (formData p) (error p) false (Some "Registration successful! Please login.") (Some "/login")
  | Failure e => mkPage (formData p) e false (alerted p) (navigated p)
  end.

Section Flow.
Context `{Bcrypt} `{Jwt} (JWT_SECRET : string).

(** A submission of the form against the server. *)
Definition flow (p : page) (c : conn) : page * conn :=
  match submit p with
  | (p1, None) => (p1, c)
  | (p1, Some (n, e, pw)) =>
      let '(r, c') := run (Server.app JWT_SECRET (Server.Register n e pw)) c in
      match signup_result r with
      | None => (p1, c')
      | Some res => (after_signup p1 res, c')
      end
  end.

Definition email_taken (e : string) (d : db) : bool :=
  existsb (fun u => String.eqb (UserRow.email u) e) (t_rows (users d)).

(** C22: the signup page, run against the server with a working store,
    refuses a confirmation that differs from the password, and a
    password shorter than 6 characters, without sending anything;
    otherwise it stops loading and either shows the server's "User
    already exists" with the database unchanged, or goes to the login
    page with a user of that name and email created, whose stored digest
    accepts the password. *)
Theorem signup_page_flow p c :
  c_faults c = [] ->
  let f := formData p in
  let '(p', c') := flow p c in
  (password f <> confirmPassword f -> error p' = "Passwords do not match" /\ c' = c) /\
  (password f = confirmPassword f -> String.length (password f) < 6 ->
     error p' = "Password must be at least 6 characters" /\ c' = c) /\
  (password f = confirmPassword f -> 6 <= String.length (password f) ->
     loading p' = false /\
     if email_taken (email f) (c_db c)
     then error p' = "User already exists" /\ navigated p' = navigated p /\ c_db c' = c_db c
     else navigated p' = Some "/login" /\
          exists u, In u (t_rows (users (c_db c'))) /\ UserRow.name u = name f /\
                    UserRow.email u = email f /\ bcrypt_compare (password f) (UserRow.password u) = true).
Proof.
  intros Hnil. destruct p as [[n e pw cf] er ld al nv]. cbn [formData name email password confirmPassword].
  unfold flow, submit. cbn [formData name email password confirmPassword].
  destruct (String.eqb pw cf) eqn:Hcf; reflect_bools; cbn [negb].
  2:{ split; [done|]. split; intros; done. }
  subst cf. destruct (String.length pw <? 6) eqn:Hlen; [apply Nat.ltb_lt in Hlen | apply Nat.ltb_ge in Hlen].
  { split; [done|]. split; [done|]. intros _ H'. lia. }
  cbn [Server.app]. unfold UsersApi.post_register, query_or. run_step; [no_fault Hnil|].
  unfold tbl_select, email_taken. destruct (existsb _ _) eqn:Hex.
  - destruct (List.filter _ _) eqn:Hsel; [by apply filter_nil_existsb in Hsel; rewrite Hsel in Hex|].
    cbn. split; [done|]. split; [intros _ H'; lia|]. done.
  - rewrite (proj2 (filter_nil_existsb _ _) Hex). cbn [run]. run_step; [no_fault Hnil|].
    rewrite Hex. cbn. split; [done|]. split; [intros _ H'; lia|]. intros _ _. split; [done|]. split; [done|].
    eexists. split; [apply in_or_app; right; left; reflexivity|]. cbn. repeat split. apply bcrypt_compare_hash.
Qed.

End Flow.

(** Cy signs up with a 7-character password on the sample store. *)
Definition cy_page : page :=
  mkPage (mkForm "Cy" "cy@example.com" "secret9" "secret9") "" false None None.

Definition cy_signup := flow "jwt-secret" cy_page (conn_of sample_db []).

Lemma signup_page_flow_witness :
  navigated (fst cy_signup) = Some "/login" /\ loading (fst cy_signup) = false.
Proof.
  pose proof (signup_page_flow "jwt-secret" cy_page (conn_of sample_db []) eq_refl) as H.
  unfold cy_signup. destruct (flow _ _ _) as [p' c'].
  destruct H as (_ & _ & H). destruct (H eq_refl) as [Hl Hif]; [cbv; lia|].
  vm_compute in Hif. destruct Hif as [Hn _]. cbn. done.
Defined.

End SignupPage.

(** ** login.jsx *)

Module LoginPage.
Import Calls.

Record page := mkPage {
  email : string;
  password : string;
  error : string;
  loading : bool;
  navigated : option string
}.

Definition init : page := mkPage "" "" "" false None.

(** The inputs' [name]s. *)
Inductive field := Email | Password.

(** [handleChange] (lines 17-22): [{ ...formData, [e.target.name]: value }]. *)
Definition handleChange (p : page) (nm : field) (value : string) : page :=
  match nm with
  | Email => mkPage value (password p) (error p) (loading p) (navigated p)
  | Password => mkPage (email p) value (error p) (loading p) (navigated p)
  end.

(** [handleSubmit] up to the [await] (lines 24-38). *)
Definition submit (p : page) : page * option (string * string) :=
  if String.eqb (email p) "" || String.eqb (password p) "" then
    (mkPage (email p) (password p) "Please fill in all fields" (loading p) (navigated p), None)
  else (mkPage (email p) (password p) "" true (navigated p), Some (email p, password p)).

(** The rest of [handleSubmit] (lines 40-51); [login] never throws, so
    the [catch] of lines 46-48 is not reached. *)
Definition after_login (p : page) (res : result) : page :=
  match res with
  | Success _ => mkPage (email p) (password p) (error p) false (Some "/")
  | Failure e => mkPage (email p) (password p) (or_else (Some e) "Invalid email or password") false (navigated p)
  end.

(** The provider's state change on the answer (AuthContext.jsx 60-86);
    a 2xx answer to POST /api/login always carries [token] and [user]
    (C40), the last case is not reached. *)
Definition session_event (r : response) : Session.event :=
  if (200 <=? status r) && (status r <? 300) then
    match body r with
    | Json.LoggedIn _ t i n e => Session.LoginSucceeded t (Session.mkUserInfo i n e)
    | _ => Session.LoginFailed
    end
  else Session.LoginFailed.

Section Flow.
Context `{Bcrypt} `{Jwt} (JWT_SECRET : string).

(** A submission of the form against the server, with the session. *)
Definition flow (p : page) (s : Session.state) (c : conn) : page * Session.state * conn :=
  match submit p with
  | (p1, None) => (p1, s, c)
  | (p1, Some (e, pw)) =>
      let '(r, c') := run (Server.app JWT_SECRET (Server.Login e pw)) c in
      match login_result r with
      | None => (p1, s, c')
      | Some res => (after_login p1 res, Session.step s (session_event r), c')
      end
  end.

(** The error texts of POST /api/login (index.js 77, 80 and 87), and the
    texts the login page can show in its error box. *)
Definition login_server_errors : list string := ["Database error"; "Invalid credentials"].

Definition login_errors : list string := "" :: "Please fill in all fields" :: login_server_errors.

(** C38: whatever the form, the session, the database and the fault
    schedule, the login page shows no error, its own "Please fill in all
    fields", or the server's error text: the provider's fallback
    "Login failed. Please check your credentials." and the page's own
    "Invalid email or password" are never displayed, since every error
    answer of POST /api/login carries an [error] text. *)
Lemma login_page_error_text p s c :
  let '(p', _, _) := flow p s c in In (error p') login_errors.
Proof.
  unfold flow, submit.
  destruct (String.eqb (email p) "" || String.eqb (password p) ""); [cbn; tauto|].
  set (e := email p). set (pw := password p).
  pose proof (Server.run_leaves
    (fun r => login_result r = None \/ (exists m, login_result r = Some (Success m)) \/
              exists er, login_result r = Some (Failure er) /\ In er login_server_errors)
    (Server.app JWT_SECRET (Server.Login e pw)) c) as Hl.
  destruct (run _ c) as [r c']. cbn [fst] in Hl.
  destruct Hl as [Hn|[[m Hs]|(er & Hf & Hin)]].
  - cbn [Server.app]. unfold UsersApi.post_login, query_or.
    Server.leaves_branches; unfold login_result, settle; cbn; eauto 10.
  - rewrite Hn. cbn. tauto.
  - rewrite Hs. cbn. tauto.
  - rewrite Hf. cbn [after_login error]. unfold or_else.
    destruct (String.eqb er "") eqn:E; [reflect_bools; subst; exfalso; destruct Hin as [Hd|[Hd|[]]]; discriminate Hd|by right; right].
Qed.

End Flow.

(** ** The page as the user drives it *)

(** The inputs and the button are [disabled={loading}] (lines 77, 91,
    98): while a login is pending the user can neither type nor submit.
    [pending] counts the POST /api/login requests not yet answered. *)
Record ui := mkUi { pg : page; pending : nat; sent : list (string * string) }.

Definition ui_init : ui := mkUi init 0 [].

Inductive uevent :=
| UType (f : field) (v : string)
| USubmit
| UAnswer (r : response).   (** the answer to the pending request *)

Definition ustep (u : ui) (ev : uevent) : ui :=
  match ev with
  | UType f v => if loading (pg u) then u else mkUi (handleChange (pg u) f v) (pending u) (sent u)
  | USubmit =>
      if loading (pg u) then u
      else match submit (pg u) with
           | (p', None) => mkUi p' (pending u) (sent u)
           | (p', Some req) => mkUi p' (S (pending u)) (sent u ++ [req])
           end
  | UAnswer r =>
      match pending u with
      | 0 => u
      | S k => match login_result r with
               | None => u
               | Some res => mkUi (after_login (pg u) res) k (sent u)
               end
      end
  end.

Definition single_flight (u : ui) : Prop :=
  pending u <= 1 /\ (loading (pg u) = true <-> pending u = 1).

Lemma ustep_single_flight u ev : single_flight u -> single_flight (ustep u ev).
Proof.
  unfold single_flight. intros [Hle Hld]. destruct ev as [f v| |r]; cbn [ustep].
  - destruct (loading (pg u)) eqn:E; [split; [exact Hle|by rewrite E]|].
    split; [done|]. destruct f; cbn [handleChange pg pending loading]; by rewrite E.
  - destruct (loading (pg u)) eqn:E; [split; [exact Hle|by rewrite E]|].
    assert (pending u = 0) as H0.
    { destruct (pending u) as [|k] eqn:Ep; [done|]. assert (k = 0) as -> by lia.
      discriminate (proj2 Hld eq_refl). }
    unfold submit. case_test; cbn; rewrite H0, ?E; (split; [lia|split; intros; done || lia || discriminate]).
  - destruct (pending u) as [|k] eqn:Ep; [rewrite Ep; exact (conj Hle Hld)|].
    destruct (login_result r) as [res|]; [|rewrite Ep; exact (conj Hle Hld)].
    assert (k = 0) as -> by lia. destruct res; cbn; (split; [lia|split; intros; done || lia || discriminate]).
Qed.

(** Every state the page reaches from its first render keeps
    [single_flight]. *)
Lemma reachable_single_flight evs : single_flight (fold_left ustep evs ui_init).
Proof.
  assert (single_flight ui_init) as H0 by (split; cbn; [lia|split; intros; discriminate]).
  revert H0. generalize ui_init. induction evs as [|ev evs IH]; intros u Hu; [done|].
  apply IH, ustep_single_flight, Hu.
Qed.

(** What the page draws (lines 60-103). *)
Record view := mkView { error_box : option string; button : string; disabled : bool }.

Definition view_of (p : page) : view :=
  mkView (if String.eqb (error p) "" then None else Some (error p))
         (if loading p then "Logging in..." else "Login") (loading p).

(** C31: the login page never has two logins in flight.  After any
    sequence of typing, submitting and answers, at most one POST
    /api/login is unanswered, and the page shows "Logging in..." on a
    disabled button exactly while one is; so a second click, or Enter in
    a field, cannot send a second login (lines 77, 91 and 100). *)
Theorem login_single_flight evs :
  let u := fold_left ustep evs ui_init in
  pending u <= 1 /\
  (button (view_of (pg u)) = "Logging in..."%string <-> pending u = 1) /\
  (disabled (view_of (pg u)) = true <-> pending u = 1).
Proof.
  cbn zeta. destruct (reachable_single_flight evs) as [Hle Hld].
  split; [exact Hle|]. cbn [view_of button disabled]. rewrite <- Hld.
  destruct (loading _); split; split; done || discriminate.
Qed.

(** POST /api/login always answers: whatever the database, the
    credentials and the fault schedule, no branch of index.js 70-108
    leaves the request without a response. *)
Lemma login_always_answers `{Bcrypt} `{Jwt} JWT_SECRET e pw c :
  exists res, login_result (fst (run (Server.app JWT_SECRET (Server.Login e pw)) c)) = Some res.
Proof.
  apply (Server.run_leaves (fun r => exists res, login_result r = Some res)).
  cbn [Server.app]. unfold UsersApi.post_login, query_or.
  Server.leaves_branches; unfold login_result, settle; cbn; eauto.
Qed.

(** C36: a login in flight always ends.  In any state the page reaches
    with a login pending, the server's answer to POST /api/login, for
    whatever credentials, database and fault schedule, leaves the page
    with nothing pending and out of the loading state, its form usable
    again: the server has no branch that never answers, and the page's
    [finally] (line 50) resets [loading] on success and failure alike. *)
Theorem login_in_flight_ends `{Bcrypt} `{Jwt} JWT_SECRET evs e pw c :
  let u := fold_left ustep evs ui_init in
  pending u = 1 ->
  let u' := ustep u (UAnswer (fst (run (Server.app JWT_SECRET (Server.Login e pw)) c))) in
  pending u' = 0 /\ loading (pg u') = false /\ disabled (view_of (pg u')) = false.
Proof.
  cbn zeta. intros Hp. destruct (login_always_answers JWT_SECRET e pw c) as [res Hres].
  cbn [ustep]. rewrite Hp, Hres. by destruct res.
Qed.

(** Ann types her email and password and submits; the server's answer
    ends the login. *)
Definition ann_login_evs : list uevent :=
  [UType Email "ann@example.com"; UType Password "secret1"; USubmit].

Lemma login_in_flight_ends_witness :
  pending (fold_left ustep ann_login_evs ui_init) = 1 /\
  pending (ustep (fold_left ustep ann_login_evs ui_init)
             (UAnswer (fst (run (Server.app "s3cret" (Server.Login "ann@example.com" "secret1"))
                               (conn_of sample_db []))))) = 0.
Proof.
  split; [reflexivity|].
  apply (login_in_flight_ends "s3cret" ann_login_evs "ann@example.com" "secret1" (conn_of sample_db [])).
  reflexivity.
Defined.

End LoginPage.
