(* ===== verification/NavBar.v ===== *)
(** * The navigation bar and the route table (src/client/src/components/
      navbar.jsx, src/client/src/App.jsx)

    The bar reads the session (user, token, cart count) and keeps one
    piece of state of its own, whether the profile menu is open (line
    9).  Its handlers (lines 13-39, 54, 77-80) navigate, toggle the menu,
    log out through the provider, and ask for the cart count when the
    session becomes authenticated.  What it draws depends on the
    session only: the cart badge when the count is positive (line 61),
    "My Orders" and the profile button when logged in, the login and
    signup links otherwise (lines 53-98).

    App.jsx maps paths to pages (lines 21-42); three of them are wrapped
    in [PrivateRoute], which App.jsx imports but the repository does not
    contain, so its behaviour is a parameter of [route] here.

    Theorems: after "Logout" the bar shows the logged-out view and its
    cart button leads to the login page; every path the client's pages
    navigate to is a route of the table; the link Browse.jsx draws for
    a book (line 122) opens that book's detail page, the server reading
    the id back from the path (C24). *)

From Stdlib Require Import Ascii.
From S2P Require Import Prelude Schema Crypto Sql Auth Catalog Server AuthContext JsonText BookDetail Checkout Forms.

Module Routes.

(** The pages of App.jsx. *)
Inductive screen := Browse | Login | Signup | BookDetail (id : string) | Cart | Checkout | MyOrders.

Section Table.
(** [<PrivateRoute>]: not in the repository. *)
Variable private_route : screen -> screen.

(** ["/book/:id"]: one non-empty segment after ["/book/"]. *)
Definition book_param (path : string) : option string :=
  match String.index 0 "/book/" path with
  | Some 0 =>
      let rest := String.substring 6 (String.length path - 6) path in
      if String.eqb rest "" then None
      else match String.index 0 "/" rest with Some _ => None | None => Some rest end
  | _ => None
  end.

(** The [<Routes>] of lines 21-42. *)
Definition route (path : string) : option screen :=
  if String.eqb path "/" then Some Browse
  else if String.eqb path "/login" then Some Login
  else if String.eqb path "/signup" then Some Signup
  else if String.eqb path "/cart" then Some (private_route Cart)
  else if String.eqb path "/checkout" then Some (private_route Checkout)
  else if String.eqb path "/my-orders" then Some (private_route MyOrders)
  else match book_param path with Some i => Some (BookDetail i) | None => None end.

End Table.

(** ** The book links of Browse.jsx *)

(** [`/book/${book.id}`] (Browse.jsx 122). *)
Definition book_link (id : nat) : string := ("/book/" ++ JsonText.show_N (N.of_nat id))%string.

(** The [:id] parameter as the server reads it: [WHERE id = ?] with a
    string parameter compares the INT column with the number the
    string's leading digits spell (MySQL's cast of a string to a number;
    no digit reads as 0, which no row has). *)
Definition mysql_id (s : string) : nat := N.to_nat (fst (JsonText.read_digits s 0)).

Lemma substring_all s : String.substring 0 (String.length s) s = s.
Proof. induction s as [|a s IH]; cbn; [done|by rewrite IH]. Qed.

Lemma index_slash_digits s : JsonText.all_digits s = true -> String.index 0 "/" s = None.
Proof.
  induction s as [|a s IH]; intros H; [done|]. cbn in H. apply andb_true_iff in H as [Ha Hs].
  destruct a as [[] [] [] [] [] [] [] []]; vm_compute in Ha; try discriminate Ha; cbn; by rewrite IH.
Qed.

(** The printed id is a non-empty run of digits that reads back as the id. *)
Lemma show_N_digits n :
  exists d x, JsonText.show_N n = String d x /\ JsonText.all_digits (String d x) = true /\
              fst (JsonText.read_digits (String d x) 0) = n.
Proof.
  destruct (JsonText.nat_digits_spec (S (N.to_nat n)) n ltac:(lia)) as (d & x & Heq & Hd & _ & Hx & Hv).
  exists d, x. split; [exact Heq|]. cbn [JsonText.all_digits]. rewrite Hd, Hx. split; [done|].
  assert (JsonText.all_digits (String d x) = true) as Hdx by (cbn [JsonText.all_digits]; by rewrite Hd, Hx).
  pose proof (JsonText.read_digits_app (String d x) EmptyString 0 Hdx I) as Hr.
  rewrite JsonText.str_app_nil_r in Hr. rewrite Hr. cbn [JsonText.digits_value fst]. rewrite <- Hv.
  f_equal.
Qed.

End Routes.

Module NavBar.

Record bar := mkBar { showProfileMenu : bool; navigated : option string }.

Definition init : bar := mkBar false None.

Inductive event :=
| AuthEffect            (** lines 13-17 *)
| BrowseClick           (** lines 19-21 *)
| CartClick             (** lines 23-29, and the cart icon of line 60 *)
| ProfileClick          (** lines 31-33 *)
| MyOrdersClick         (** line 54 *)
| MenuMyOrdersClick     (** lines 77-80 *)
| LogoutClick.          (** lines 35-39 *)

(** The bar and the session after an event, and the requests it sends
    ([fetchCartCount] is GET /api/cart with the session's header). *)
Definition step (s : Session.state) (b : bar) (ev : event)
    : bar * Session.state * list Server.request :=
  match ev with
  | AuthEffect =>
      (b, s, if Session.isAuthenticated s then [Server.GetCart (Session.header s)] else [])
  | BrowseClick => (mkBar (showProfileMenu b) (Some "/"), s, [])
  | CartClick =>
      (mkBar (showProfileMenu b) (Some (if Session.isAuthenticated s then "/cart" else "/login")), s, [])
  | ProfileClick => (mkBar (negb (showProfileMenu b)) (navigated b), s, [])
  | MyOrdersClick => (mkBar (showProfileMenu b) (Some "/my-orders"), s, [])
  | MenuMyOrdersClick => (mkBar false (Some "/my-orders"), s, [])
  | LogoutClick => (mkBar false (Some "/"), Session.step s Session.Logout, [])
  end.

(** What the bar draws (lines 41-103). *)
Record view := mkView {
  badge : option Z;                        (** [cartCount > 0 && <sup>] *)
  my_orders_link : bool;                   (** [isAuthenticated && ...] *)
  profile : option (option string);        (** the profile button and [user?.name] *)
  dropdown : option (string * string);     (** name and email in the open menu *)
  login_links : bool                       (** Login and Sign Up *)
}.

Definition view_of (s : Session.state) (b : bar) : view :=
  let auth := Session.isAuthenticated s in
  let name := option_map Session.uname (Session.user s) in
  mkView (if (0 <? Session.cartCount s)%Z then Some (Session.cartCount s) else None)
         auth
         (if auth then Some name else None)
         (if auth && showProfileMenu b then
            match Session.user s with
            | Some u => Some (Session.uname u, Session.uemail u)
            | None => Some ("", "")
            end
          else None)
         (negb auth).

(** "Logout" closes the menu, goes home and empties the session, so
    the bar shows no badge, no "My Orders", no profile and the login
    links, and its cart button now leads to the login page. *)
Theorem logout_view s b :
  let '(b', s', _) := step s b LogoutClick in
  navigated b' = Some "/" /\
  view_of s' b' = mkView None false None None true /\
  navigated (fst (fst (step s' b' CartClick))) = Some "/login".
Proof. cbn. done. Qed.

(** The paths the client's pages navigate to. *)
Definition client_paths : list string := ["/"; "/login"; "/cart"; "/checkout"; "/my-orders"].

Definition nav_ok (o : option string) : Prop :=
  match o with Some path => In path client_paths | None => True end.

(** Every navigation of the bar goes to one of them. *)
Lemma step_nav_ok s b ev : nav_ok (navigated b) -> nav_ok (navigated (fst (fst (step s b ev)))).
Proof. intros H. destruct ev; cbn; try case_test; cbn; tauto. Qed.

(** Where the detail page goes. *)
Definition detail_path (t : DetailPage.target) : string :=
  match t with DetailPage.ToLogin => "/login" | DetailPage.ToCheckout _ _ => "/checkout" end.

(** No page of the client navigates to a path App.jsx does not route:
    the bar, the detail page, the checkout ("/my-orders") and the
    signup and login forms ("/login", "/") all stay within
    [client_paths], each of which is a route, whatever [PrivateRoute]
    does. *)
Theorem client_navigation_routed private_route :
  Forall (fun path => Routes.route private_route path <> None) client_paths /\
  (forall s b evs, nav_ok (navigated b) ->
     nav_ok (navigated (fold_left (fun b ev => fst (fst (step s b ev))) evs b))) /\
  (forall t, In (detail_path t) client_paths) /\
  In "/my-orders" client_paths /\ In "/login" client_paths /\ In "/" client_paths.
Proof.
  split; [repeat constructor; discriminate|]. split.
  - intros s b evs. revert b. induction evs as [|ev evs IH]; intros b Hb; [done|].
    apply IH, step_nav_ok, Hb.
  - split; [intros []; cbn; tauto|]. cbn. tauto.
Qed.

(** The route of a book's link: its id, printed and read back. *)
Lemma route_book_link private_route id :
  exists s, Routes.route private_route (Routes.book_link id) = Some (Routes.BookDetail s) /\
            Routes.mysql_id s = id.
Proof.
  destruct (Routes.show_N_digits (N.of_nat id)) as (d & x & Hs & Hdig & Hread).
  exists (String d x). split; [|unfold Routes.mysql_id; rewrite Hread; lia].
  unfold Routes.route, Routes.book_link. rewrite Hs. cbn -[String.substring String.index].
  unfold Routes.book_param. cbn -[String.substring String.index].
  match goal with |- context [String.index 0 "/book/" ?p] =>
    change (String.index 0 "/book/" p) with (Some 0) end.
  cbn -[String.substring String.index].
  match goal with |- context [String.substring 6 ?n _] =>
    change n with (String.length (String d x)) end.
  change (String.substring 6 (String.length (String d x)) ("/book/" ++ String d x))%string
    with (String.substring 0 (String.length (String d x)) (String d x)).
  rewrite Routes.substring_all, Routes.index_slash_digits by done. done.
Qed.

(** C24: a book's link opens that book.  The link of Browse.jsx
    ([`/book/${book.id}`]) is routed to the detail page, whatever
    [PrivateRoute] does; the page's [:id] parameter, sent to GET
    /api/books/:id and read by MySQL as a number, is the book's id; on a
    working store with the id discipline the server answers 200 with
    that book, and the detail page shows it. *)
Theorem book_link_opens_book `{Bcrypt} `{Jwt} secret private_route sess b c :
  c_faults c = [] -> tbl_wf BookRow.id (books (c_db c)) -> In b (t_rows (books (c_db c))) ->
  exists s, Routes.route private_route (Routes.book_link (BookRow.id b)) = Some (Routes.BookDetail s) /\
    fst (run (Server.app secret (Server.GetBook (Routes.mysql_id s))) c) = mkResponse 200 (Json.Book b) /\
    DetailPage.book (DetailPage.step sess DetailPage.init
      (DetailPage.Loaded (fst (run (Server.app secret (Server.GetBook (Routes.mysql_id s))) c)))) = Some b.
Proof.
  intros Hnil Hwf Hin. destruct (route_book_link private_route (BookRow.id b)) as (s & Hr & Hid).
  exists s. split; [exact Hr|]. rewrite Hid.
  assert (fst (run (Server.app secret (Server.GetBook (BookRow.id b))) c) = mkResponse 200 (Json.Book b)) as Hget.
  { cbn [Server.app]. unfold CatalogApi.get_book, query_or. run_step; [no_fault Hnil|].
    change (List.filter (fun x => BookRow.id x =? BookRow.id b) (t_rows (books (c_db c))))
      with (tbl_select (fun x => BookRow.id x =? BookRow.id b) (books (c_db c))).
    by rewrite (tbl_select_id BookRow.id _ b Hwf Hin). }
  split; [exact Hget|]. rewrite Hget. done.
Qed.

(** Opening the link of "Odyssey" (book 7) on the sample store. *)
Lemma book_link_opens_book_witness :
  exists s, Routes.route (fun x => x) (Routes.book_link 7) = Some (Routes.BookDetail s) /\
    fst (run (Server.app "s3cret" (Server.GetBook (Routes.mysql_id s))) (conn_of sample_db [])) =
      mkResponse 200 (Json.Book (book_fixture 7 "Odyssey" 1500)) /\
    DetailPage.book (DetailPage.step (Session.init None) DetailPage.init
      (DetailPage.Loaded (fst (run (Server.app "s3cret" (Server.GetBook (Routes.mysql_id s)))
                                   (conn_of sample_db []))))) = Some (book_fixture 7 "Odyssey" 1500).
Proof.
  apply (book_link_opens_book "s3cret" (fun x => x) (Session.init None) (book_fixture 7 "Odyssey" 1500)
           (conn_of sample_db [])); [reflexivity|apply sample_db_wf|right; right; left; reflexivity].
Defined.

End NavBar.

